(** * JavaScript-NES: a shallow embedding of the emulator core

    The development follows the source files of the emulator:
    - [ROM]      the iNES parser of rom.js,
    - [CPU]      the 6502 interpreter of cpu.js,
    - [PPU]      the register surface, sprite DMA, name-table mirroring
                 and background scanline renderer of ppu.js,
    - [Mapper], [Mapper1], [Mapper4], [Mapper9], [Mapper10]
                 the cartridge classes of mappers.js.

    JavaScript numbers are integers of [Z]; the 32-bit operators [&], [|],
    [^], [<<] and [>>] are [Z.land], [Z.lor], [Z.lxor], [Z.shiftl] and
    [Z.shiftr] (all values of the emulator stay far below 2^31, and [Z]'s
    two's complement reading of negative numbers is the one of JavaScript).
    Arrays indexed by addresses are total functions on [Z]; an array whose
    cells can be [undefined] holds [option] values.  Objects are records,
    updated with the field-update notation [r{{field := v}}]. *)

From Stdlib Require Import ZArith List Bool Lia String Ascii.
From coqutil Require Import Datatypes.RecordSetters.
Import ListNotations DoubleBraceUpdate.
Open Scope Z_scope.

Infix ".&" := Z.land (at level 40, left associativity).
Infix ".|" := Z.lor (at level 50, left associativity).
Infix ".^" := Z.lxor (at level 50, left associativity).
Infix "<<" := Z.shiftl (at level 40, left associativity).
Infix ">>" := Z.shiftr (at level 40, left associativity).

(** ** JavaScript values *)

(** [undefined] (and [NaN]) read as a number by a bit operator is 0. *)
Definition num (o : option Z) : Z :=
  match o with Some v => v | None => 0 end.

(** Arrays indexed by integers. *)
Definition upd {A : Type} (a : Z -> A) (i : Z) (v : A) : Z -> A :=
  fun j => if j =? i then v else a j.

(** A [Uint8Array] of [size] cells: a store outside the array is dropped,
    the stored value is reduced modulo 256. *)
Definition u8_store (size : Z) (a : Z -> Z) (i v : Z) : Z -> Z :=
  if (0 <=? i) && (i <? size) then upd a i (v .& 255) else a.

(** [copyArrayElements(src, srcPos, dest, destPos, length)] of utils.js:
    [dest[destPos + k] = src[srcPos + k]] for [k < length]. *)
Definition copyArrayElements {A : Type} (src : Z -> A) (srcPos : Z)
    (dest : Z -> A) (destPos length : Z) : Z -> A :=
  fun j => if (destPos <=? j) && (j <? destPos + length)
           then src (j - destPos + srcPos) else dest j.

(** Cell [i] of a JavaScript array held as a list: [undefined] outside. *)
Definition cell {A : Type} (l : list A) (i : Z) : option A :=
  if i <? 0 then None else nth_error l (Z.to_nat i).

Definition cellO {A : Type} (l : list (option A)) (i : Z) : option A :=
  match cell l i with Some (Some v) => Some v | _ => None end.

Fixpoint set_nth {A : Type} (n : nat) (v : A) (l : list A) : list A :=
  match l, n with
  | [], _ => []
  | _ :: l', O => v :: l'
  | x :: l', S n' => x :: set_nth n' v l'
  end.

(** Loops [for (i = lo; i < lo + n; i++)] over an integer counter. *)
Definition zrange (lo : Z) (n : nat) : list Z :=
  map (fun k => lo + Z.of_nat k) (seq 0 n).

Definition for_range {S : Type} (lo : Z) (n : nat) (body : Z -> S -> S)
    (s : S) : S :=
  fold_left (fun acc i => body i acc) (zrange lo n) s.

(** The same loop with a body that can throw: [None] is the exception, and
    it ends the loop. *)
Definition for_range_try {S : Type} (lo : Z) (n : nat)
    (body : Z -> S -> option S) (s : S) : option S :=
  fold_left (fun acc i => match acc with Some x => body i x | None => None end)
            (zrange lo n) (Some s).

(** ** Tiles *)

Module Tile.

(** Modelled from the spec: tile.js is not among the sources.  A tile is
    8 rows of 8 two-bit colour indices with one opacity flag per row, true
    when all 8 pixels of the row are non-zero; row [r] is built from two
    bitplane bytes, pixel [c] being bit [7-c] of the first byte or-ed with
    bit [7-c] of the second byte shifted left by one. *)
Record t := mk { pix : list Z; opaque : list bool }.

Definition new : t := mk (repeat 0 64) (repeat false 8).

Definition pixel (b1 b2 : option Z) (c : Z) : Z :=
  ((num b1 >> (7 - c)) .& 1) .| (((num b2 >> (7 - c)) .& 1) << 1).

Definition setScanline (sline : Z) (b1 b2 : option Z) (tl : t) : t :=
  let row := map (pixel b1 b2) (zrange 0 8) in
  let pix' :=
    fold_left (fun p c => set_nth (Z.to_nat (sline * 8 + c)) (pixel b1 b2 c) p)
              (zrange 0 8) (pix tl) in
  mk pix' (set_nth (Z.to_nat sline) (forallb (fun v => negb (v =? 0)) row)
                   (opaque tl)).

End Tile.

(** ** rom.js: the iNES parser *)

Module ROM.

(** The fields of a [ROM] object; the constructor sets all of them to
    [null] and [valid] to [false]. *)
Record t := mk {
  header : option (list Z);
  rom : option (list (list (option Z)));
  vrom : option (list (list (option Z)));
  vromTile : option (list (list Tile.t));
  romCount : option Z;
  vromCount : option Z;
  mirroring : option Z;
  batteryRam : option bool;
  trainer : option bool;
  fourScreen : option bool;
  mapperType : option Z;
  valid : bool
}.

Definition VERTICAL_MIRRORING := 0.
Definition HORIZONTAL_MIRRORING := 1.
Definition FOURSCREEN_MIRRORING := 2.
Definition SINGLESCREEN_MIRRORING := 3.
Definition SINGLESCREEN_MIRRORING2 := 4.

Definition constructor : t :=
  mk None None None None None None None None None None None false.

(** The string ["NES\x1a"]. *)
Definition magic : string :=
  String "N" (String "E" (String "S" (String (ascii_of_nat 26) EmptyString))).

(** [data.charCodeAt(i)]: [NaN] past the end of the string. *)
Definition charCodeAt (data : string) (i : nat) : option Z :=
  option_map (fun c => Z.of_N (N_of_ascii c)) (String.get i data).

(** [data.charCodeAt(i) & 0xff] *)
Definition byteAt (data : string) (i : nat) : Z := num (charCodeAt data i) .& 255.

(** The inner loop
    [for (j = 0; j < size; j++) { if (offset + j >= data.length) break; bank[j] = ... }]
    started at [j] with [n] iterations to go; [len] is [data.length].  After
    the [break] the remaining cells of [new Array(size)] stay unset. *)
Fixpoint read_bank (data : string) (len offset j n : nat) : list (option Z) :=
  match n with
  | O => []
  | S n' =>
      if (len <=? offset + j)%nat then repeat None n
      else Some (byteAt data (offset + j)) :: read_bank data len offset (S j) n'
  end.

(** The outer loop over [count] banks of [size] bytes; [offset] advances by
    [size] after each bank. *)
Fixpoint read_banks (data : string) (len size offset count : nat)
    : list (list (option Z)) * nat :=
  match count with
  | O => ([], offset)
  | S c =>
      let bank := read_bank data len offset 0 size in
      let (rest, off') := read_banks data len size (offset + size) c in
      (bank :: rest, off')
  end.

(** The last loop of [load]: every byte [i] of a CHR bank sets one row of
    tile [i >> 4] from the two bitplane bytes 8 apart. *)
Definition decode_bank (bank : list (option Z)) : list Tile.t :=
  for_range 0 (Z.to_nat 4096)
    (fun i tiles =>
       let tileIndex := i >> 4 in
       let leftOver := i mod 16 in
       match cell tiles tileIndex with
       | None => tiles
       | Some tl =>
           let tl' :=
             if leftOver <? 8
             then Tile.setScanline leftOver (cellO bank i) (cellO bank (i + 8)) tl
             else Tile.setScanline (leftOver - 8) (cellO bank (i - 8)) (cellO bank i) tl in
           set_nth (Z.to_nat tileIndex) tl' tiles
       end)
    (repeat Tile.new 256).

(** [ROM.load(data)]: [inl msg] is the thrown [Error(msg)], which leaves the
    object as it was. *)
Definition load (data : string) (r : t) : string + t :=
  match String.index 0 magic data with
  | None => inl "Not a valid NES ROM."%string
  | Some _ =>
      let header := map (byteAt data) (seq 0 16) in
      let h := fun i => nth i header 0 in
      let romCount := h 4%nat in
      let vromCount := h 5%nat * 2 in
      let mirroring := if negb ((h 6%nat .& 1) =? 0) then 1 else 0 in
      let batteryRam := negb ((h 6%nat .& 2) =? 0) in
      let trainer := negb ((h 6%nat .& 4) =? 0) in
      let fourScreen := negb ((h 6%nat .& 8) =? 0) in
      let mapperType := (h 6%nat >> 4) .| (h 7%nat .& 0xf0) in
      let foundError := existsb (fun v => negb (v =? 0)) (skipn 8 header) in
      let mapperType := if foundError then mapperType .& 0xf else mapperType in
      let len := String.length data in
      let (rom, offset) := read_banks data len (Z.to_nat 16384) 16 (Z.to_nat romCount) in
      let (vrom, _) := read_banks data len (Z.to_nat 4096) offset (Z.to_nat vromCount) in
      let vromTile := map decode_bank vrom in
      inr {| header := Some header; rom := Some rom; vrom := Some vrom;
             vromTile := Some vromTile; romCount := Some romCount;
             vromCount := Some vromCount; mirroring := Some mirroring;
             batteryRam := Some batteryRam; trainer := Some trainer;
             fourScreen := Some fourScreen; mapperType := Some mapperType;
             valid := true |}
  end.

(** [rom.rom[i][j]] and [rom.vrom[i][j]] *)
Definition prg (r : t) (i j : Z) : option Z :=
  match rom r with
  | Some banks => match cell banks i with Some b => cellO b j | None => None end
  | None => None
  end.

Definition chr (r : t) (i j : Z) : option Z :=
  match vrom r with
  | Some banks => match cell banks i with Some b => cellO b j | None => None end
  | None => None
  end.

(** Byte [k] of the image as [load] stores it in a bank: unset past the
    end of the image. *)
Definition image_byte (data : string) (k : Z) : option Z :=
  if Z.of_nat (String.length data) <=? k then None
  else Some (byteAt data (Z.to_nat k)).

(** An image too short for the payload its header declares: 16 header
    bytes, 16384 bytes per PRG bank and 8192 bytes per CHR unit. *)
Definition truncated (data : string) : bool :=
  (Z.of_nat (String.length data)
   <? 16 + 16384 * byteAt data 4 + 8192 * byteAt data 5).

End ROM.

(** ** The machine state

    The objects of the emulator refer to each other through [this.nes]; the
    whole machine is one record, and every method is a function on it. *)

(** The fields of a [CPU] object (cpu.js).  [mem] is a [Uint8Array] of
    0x10000 cells.  [cycles] is the property [cpu.cycles] read by the MMC1
    mapper: cpu.js neither declares nor assigns it. *)
Record cpu_state := mkCPU {
  mem : Z -> Z;
  REG_ACC : Z;
  REG_X : Z;
  REG_Y : Z;
  REG_SP : Z;
  REG_PC : Z;
  REG_PC_NEW : Z;
  REG_STATUS : Z;
  F_CARRY : Z;
  F_DECIMAL : Z;
  F_INTERRUPT : Z;
  F_INTERRUPT_NEW : Z;
  F_OVERFLOW : Z;
  F_SIGN : Z;
  F_ZERO : Z;
  F_NOTUSED : Z;
  F_NOTUSED_NEW : Z;
  F_BRK : Z;
  F_BRK_NEW : Z;
  cyclesToHalt : Z;
  crash : bool;
  irqRequested : bool;
  irqType : option Z;
  cycles : option Z
}.

(** A name table of ppu.js: 32 x 32 tile indices and attributes. *)
Record NameTable := mkNameTable {
  nt_tile : Z -> Z;
  nt_attrib : Z -> Z
}.

(** The fields of a [PPU] object (ppu.js) that the functions below read or
    write.  Arrays created with [new Array(n)] hold [undefined] until
    written: their cells are options. *)
Record ppu_state := mkPPU {
  vramMem : Z -> option Z;
  spriteMem : Z -> option Z;
  firstWrite : bool;
  sramAddress : Z;
  requestEndFrame : bool;
  nmiCounter : Z;
  validTileData : bool;
  f_nmiOnVblank : Z;
  f_spriteSize : Z;
  f_bgPatternTable : Z;
  f_spPatternTable : Z;
  f_addrInc : Z;
  f_nTblAddress : Z;
  f_color : Z;
  f_spVisibility : Z;
  f_bgVisibility : Z;
  f_spClipping : Z;
  f_bgClipping : Z;
  f_dispType : Z;
  cntFV : Z;
  cntV : Z;
  cntH : Z;
  cntVT : Z;
  cntHT : Z;
  regFV : Z;
  regV : Z;
  regH : Z;
  regVT : Z;
  regHT : Z;
  regFH : Z;
  regS : Z;
  curNt : option Z;
  attrib : Z -> option Z;
  buffer : Z -> option Z;
  bgbuffer : Z -> option Z;
  pixrendered : Z -> option Z;
  scantile : Z -> option Tile.t;
  scanline : Z;
  lastRenderedScanline : Z;
  sprX : Z -> option Z;
  sprY : Z -> option Z;
  sprTile : Z -> option Z;
  sprCol : Z -> option Z;
  vertFlip : Z -> bool;
  horiFlip : Z -> bool;
  bgPriority : Z -> bool;
  spr0HitX : Z;
  spr0HitY : Z;
  hitSpr0 : bool;
  imgPalette : Z -> option Z;
  ptTile : Z -> option Tile.t;
  ntable1 : Z -> option Z;
  nameTable : Z -> option NameTable;
  currentMirroring : Z;
  vramMirrorTable : Z -> option Z
}.

(** The classes of mappers.js that are embedded. *)
Inductive mapper_class :=
  | Mapper0     (* class Mapper: NROM *)
  | Mapper1     (* MMC1 *)
  | Mapper4     (* MMC3 *)
  | Mapper9     (* MMC2 *)
  | Mapper10.   (* MMC4 *)

(** The properties of a mapper object: those of the base class, then
    those the constructors of [Mapper1], [Mapper4], [Mapper9] and
    [Mapper10] add ([chrBank0], [chrBank1] and [prgBank] are properties
    of both MMC1 and MMC2/MMC4 objects). *)
Record mapper_state := mkMapper {
  mclass : mapper_class;
  hasLatch : bool;
  joy1StrobeState : Z;
  joy2StrobeState : Z;
  joypadLastWrite : Z;
  zapperFired : bool;
  zapperX : option Z;
  zapperY : option Z;
  (* MMC1 *)
  shiftReg : Z;
  controlReg : Z;
  chrBank0 : Z;
  chrBank1 : Z;
  prgBank : Z;
  lastWriteCycle : Z;
  (* MMC3 *)
  command : Z;
  prgAddressSelect : Z;
  chrAddressSelect : Z;
  pageNumber : Z;
  irqCounter : Z;
  irqLatchValue : Z;
  irqEnable : Z;
  irqReloadPending : bool;
  prgAddressChanged : bool;
  ppuA12Prev : Z;
  lastA12Cycle : Z;
  lastClockScanline : Z;
  (* MMC2, MMC4 *)
  latchLo : Z;
  latchHi : Z;
  chrBank2 : Z;
  chrBank3 : Z
}.

(** The machine.  [mmap] and [rom] are [null] until a ROM is loaded.
    [ext] is the state of what lies outside the embedded sources: the
    APU (papu.js), the controllers, the frame loop of nes.js and the host
    callbacks. *)
Record NES {Ext : Type} := mkNES {
  cpu : cpu_state;
  ppu : ppu_state;
  mmap : option mapper_state;
  rom : option ROM.t;
  crashMessage : option Z;
  ext : Ext
}.
Arguments NES : clear implicits.
Arguments mkNES {Ext}.

(** The operations the embedded code calls but that are not unfolded
    here: papu.js, controller.js, nes.js and the host options are not among
    the sources, and the remaining register handlers and the sprite
    renderer of ppu.js draw through tile.js.  Every result below holds for
    all such operations. *)
Record Devices {Ext : Type} := mkDevices {
  papu_readReg : Z -> NES Ext -> Z * NES Ext;
  papu_writeReg : Z -> Z -> NES Ext -> NES Ext;
  controller_state : Z -> Z -> NES Ext -> Z;
  onBatteryRamWrite : Z -> Z -> NES Ext -> NES Ext;
  nes_stop : NES Ext -> NES Ext;
  ppu_endFrame : NES Ext -> NES Ext;
  ppu_updateControlReg1 : Z -> NES Ext -> NES Ext;
  ppu_updateControlReg2 : Z -> NES Ext -> NES Ext;
  ppu_scrollWrite : Z -> NES Ext -> NES Ext;
  ppu_writeVRAMAddress : Z -> NES Ext -> NES Ext;
  ppu_vramLoad : NES Ext -> Z * NES Ext;
  ppu_vramWrite : Z -> NES Ext -> NES Ext;
  ppu_isPixelWhite : Z -> Z -> NES Ext -> bool * NES Ext;
  ppu_triggerRendering : NES Ext -> NES Ext;
  ppu_renderFramePartially : Z -> Z -> NES Ext -> NES Ext
}.
Arguments Devices : clear implicits.

(** The methods of [this.nes.mmap] that the CPU calls; which functions
    they are depends on the class of the mapper object. *)
Record MapperBus {Ext : Type} := mkBus {
  m_load : Z -> NES Ext -> Z * NES Ext;
  m_write : Z -> Z -> NES Ext -> NES Ext
}.
Arguments MapperBus : clear implicits.

(** The methods of [this.nes.mmap] that the PPU calls while it renders.
    A method the object does not have is [None]. *)
Record MapperHooks {Ext : Type} := mkHooks {
  m_latchAccess : option (Z -> NES Ext -> NES Ext);
  m_notifyA12 : option (Z -> NES Ext -> NES Ext)
}.
Arguments MapperHooks : clear implicits.

Definition with_cpu {Ext} (s : NES Ext) (c : cpu_state) : NES Ext := s{{cpu := c}}.
Definition with_ppu {Ext} (s : NES Ext) (p : ppu_state) : NES Ext := s{{ppu := p}}.
Definition with_mmap {Ext} (s : NES Ext) (m : mapper_state) : NES Ext :=
  s{{mmap := Some m}}.

(** ** cpu.js: the 6502 interpreter *)

Module CPU.

Definition IRQ_NORMAL := 0.
Definition IRQ_NMI := 1.
Definition IRQ_RESET := 2.

(** Addressing modes and instruction numbers of [buildOpData]. *)
Definition ADDR_ZP := 0.
Definition ADDR_REL := 1.
Definition ADDR_IMP := 2.
Definition ADDR_ABS := 3.
Definition ADDR_ACC := 4.
Definition ADDR_IMM := 5.
Definition ADDR_ZPX := 6.
Definition ADDR_ZPY := 7.
Definition ADDR_ABSX := 8.
Definition ADDR_ABSY := 9.
Definition ADDR_PREIDXIND := 10.
Definition ADDR_POSTIDXIND := 11.
Definition ADDR_INDABS := 12.
Definition INS_ADC := 0.
Definition INS_AND := 1.
Definition INS_ASL := 2.
Definition INS_BCC := 3.
Definition INS_BCS := 4.
Definition INS_BEQ := 5.
Definition INS_BIT := 6.
Definition INS_BMI := 7.
Definition INS_BNE := 8.
Definition INS_BPL := 9.
Definition INS_BRK := 10.
Definition INS_BVC := 11.
Definition INS_BVS := 12.
Definition INS_CLC := 13.
Definition INS_CLD := 14.
Definition INS_CLI := 15.
Definition INS_CLV := 16.
Definition INS_CMP := 17.
Definition INS_CPX := 18.
Definition INS_CPY := 19.
Definition INS_DEC := 20.
Definition INS_DEX := 21.
Definition INS_DEY := 22.
Definition INS_EOR := 23.
Definition INS_INC := 24.
Definition INS_INX := 25.
Definition INS_INY := 26.
Definition INS_JMP := 27.
Definition INS_JSR := 28.
Definition INS_LDA := 29.
Definition INS_LDX := 30.
Definition INS_LDY := 31.
Definition INS_LSR := 32.
Definition INS_NOP := 33.
Definition INS_ORA := 34.
Definition INS_PHA := 35.
Definition INS_PHP := 36.
Definition INS_PLA := 37.
Definition INS_PLP := 38.
Definition INS_ROL := 39.
Definition INS_ROR := 40.
Definition INS_RTI := 41.
Definition INS_RTS := 42.
Definition INS_SBC := 43.
Definition INS_SEC := 44.
Definition INS_SED := 45.
Definition INS_SEI := 46.
Definition INS_STA := 47.
Definition INS_STX := 48.
Definition INS_STY := 49.
Definition INS_TAX := 50.
Definition INS_TAY := 51.
Definition INS_TSX := 52.
Definition INS_TXA := 53.
Definition INS_TXS := 54.
Definition INS_TYA := 55.
Definition INS_ALR := 56.
Definition INS_ANC := 57.
Definition INS_ARR := 58.
Definition INS_AXS := 59.
Definition INS_LAX := 60.
Definition INS_SAX := 61.
Definition INS_DCP := 62.
Definition INS_ISC := 63.
Definition INS_RLA := 64.
Definition INS_RRA := 65.
Definition INS_SLO := 66.
Definition INS_SRE := 67.
Definition INS_SKB := 68.
Definition INS_IGN := 69.
Definition setOp_calls : list (Z * Z * Z * Z * Z) := [
  (INS_ADC, 0x69, ADDR_IMM, 2, 2); (INS_ADC, 0x65, ADDR_ZP, 2, 3);
  (INS_ADC, 0x75, ADDR_ZPX, 2, 4); (INS_ADC, 0x6d, ADDR_ABS, 3, 4);
  (INS_ADC, 0x7d, ADDR_ABSX, 3, 4); (INS_ADC, 0x79, ADDR_ABSY, 3, 4);
  (INS_ADC, 0x61, ADDR_PREIDXIND, 2, 6); (INS_ADC, 0x71, ADDR_POSTIDXIND, 2, 5);
  (INS_AND, 0x29, ADDR_IMM, 2, 2); (INS_AND, 0x25, ADDR_ZP, 2, 3);
  (INS_AND, 0x35, ADDR_ZPX, 2, 4); (INS_AND, 0x2d, ADDR_ABS, 3, 4);
  (INS_AND, 0x3d, ADDR_ABSX, 3, 4); (INS_AND, 0x39, ADDR_ABSY, 3, 4);
  (INS_AND, 0x21, ADDR_PREIDXIND, 2, 6); (INS_AND, 0x31, ADDR_POSTIDXIND, 2, 5);
  (INS_ASL, 0x0a, ADDR_ACC, 1, 2); (INS_ASL, 0x06, ADDR_ZP, 2, 5);
  (INS_ASL, 0x16, ADDR_ZPX, 2, 6); (INS_ASL, 0x0e, ADDR_ABS, 3, 6);
  (INS_ASL, 0x1e, ADDR_ABSX, 3, 7); (INS_BCC, 0x90, ADDR_REL, 2, 2);
  (INS_BCS, 0xb0, ADDR_REL, 2, 2); (INS_BEQ, 0xf0, ADDR_REL, 2, 2);
  (INS_BMI, 0x30, ADDR_REL, 2, 2); (INS_BNE, 0xd0, ADDR_REL, 2, 2);
  (INS_BPL, 0x10, ADDR_REL, 2, 2); (INS_BVC, 0x50, ADDR_REL, 2, 2);
  (INS_BVS, 0x70, ADDR_REL, 2, 2); (INS_BIT, 0x24, ADDR_ZP, 2, 3);
  (INS_BIT, 0x2c, ADDR_ABS, 3, 4); (INS_BRK, 0x00, ADDR_IMP, 1, 7);
  (INS_CLC, 0x18, ADDR_IMP, 1, 2); (INS_CLD, 0xd8, ADDR_IMP, 1, 2);
  (INS_CLI, 0x58, ADDR_IMP, 1, 2); (INS_CLV, 0xb8, ADDR_IMP, 1, 2);
  (INS_SEC, 0x38, ADDR_IMP, 1, 2); (INS_SED, 0xf8, ADDR_IMP, 1, 2);
  (INS_SEI, 0x78, ADDR_IMP, 1, 2); (INS_CMP, 0xc9, ADDR_IMM, 2, 2);
  (INS_CMP, 0xc5, ADDR_ZP, 2, 3); (INS_CMP, 0xd5, ADDR_ZPX, 2, 4);
  (INS_CMP, 0xcd, ADDR_ABS, 3, 4); (INS_CMP, 0xdd, ADDR_ABSX, 3, 4);
  (INS_CMP, 0xd9, ADDR_ABSY, 3, 4); (INS_CMP, 0xc1, ADDR_PREIDXIND, 2, 6);
  (INS_CMP, 0xd1, ADDR_POSTIDXIND, 2, 5); (INS_CPX, 0xe0, ADDR_IMM, 2, 2);
  (INS_CPX, 0xe4, ADDR_ZP, 2, 3); (INS_CPX, 0xec, ADDR_ABS, 3, 4);
  (INS_CPY, 0xc0, ADDR_IMM, 2, 2); (INS_CPY, 0xc4, ADDR_ZP, 2, 3);
  (INS_CPY, 0xcc, ADDR_ABS, 3, 4); (INS_DEC, 0xc6, ADDR_ZP, 2, 5);
  (INS_DEC, 0xd6, ADDR_ZPX, 2, 6); (INS_DEC, 0xce, ADDR_ABS, 3, 6);
  (INS_DEC, 0xde, ADDR_ABSX, 3, 7); (INS_DEX, 0xca, ADDR_IMP, 1, 2);
  (INS_DEY, 0x88, ADDR_IMP, 1, 2); (INS_EOR, 0x49, ADDR_IMM, 2, 2);
  (INS_EOR, 0x45, ADDR_ZP, 2, 3); (INS_EOR, 0x55, ADDR_ZPX, 2, 4);
  (INS_EOR, 0x4d, ADDR_ABS, 3, 4); (INS_EOR, 0x5d, ADDR_ABSX, 3, 4);
  (INS_EOR, 0x59, ADDR_ABSY, 3, 4); (INS_EOR, 0x41, ADDR_PREIDXIND, 2, 6);
  (INS_EOR, 0x51, ADDR_POSTIDXIND, 2, 5); (INS_INC, 0xe6, ADDR_ZP, 2, 5);
  (INS_INC, 0xf6, ADDR_ZPX, 2, 6); (INS_INC, 0xee, ADDR_ABS, 3, 6);
  (INS_INC, 0xfe, ADDR_ABSX, 3, 7); (INS_INX, 0xe8, ADDR_IMP, 1, 2);
  (INS_INY, 0xc8, ADDR_IMP, 1, 2); (INS_JMP, 0x4c, ADDR_ABS, 3, 3);
  (INS_JMP, 0x6c, ADDR_INDABS, 3, 5); (INS_JSR, 0x20, ADDR_ABS, 3, 6);
  (INS_LDA, 0xa9, ADDR_IMM, 2, 2); (INS_LDA, 0xa5, ADDR_ZP, 2, 3);
  (INS_LDA, 0xb5, ADDR_ZPX, 2, 4); (INS_LDA, 0xad, ADDR_ABS, 3, 4);
  (INS_LDA, 0xbd, ADDR_ABSX, 3, 4); (INS_LDA, 0xb9, ADDR_ABSY, 3, 4);
  (INS_LDA, 0xa1, ADDR_PREIDXIND, 2, 6); (INS_LDA, 0xb1, ADDR_POSTIDXIND, 2, 5);
  (INS_LDX, 0xa2, ADDR_IMM, 2, 2); (INS_LDX, 0xa6, ADDR_ZP, 2, 3);
  (INS_LDX, 0xb6, ADDR_ZPY, 2, 4); (INS_LDX, 0xae, ADDR_ABS, 3, 4);
  (INS_LDX, 0xbe, ADDR_ABSY, 3, 4); (INS_LDY, 0xa0, ADDR_IMM, 2, 2);
  (INS_LDY, 0xa4, ADDR_ZP, 2, 3); (INS_LDY, 0xb4, ADDR_ZPX, 2, 4);
  (INS_LDY, 0xac, ADDR_ABS, 3, 4); (INS_LDY, 0xbc, ADDR_ABSX, 3, 4);
  (INS_LSR, 0x4a, ADDR_ACC, 1, 2); (INS_LSR, 0x46, ADDR_ZP, 2, 5);
  (INS_LSR, 0x56, ADDR_ZPX, 2, 6); (INS_LSR, 0x4e, ADDR_ABS, 3, 6);
  (INS_LSR, 0x5e, ADDR_ABSX, 3, 7); (INS_NOP, 0x1a, ADDR_IMP, 1, 2);
  (INS_NOP, 0x3a, ADDR_IMP, 1, 2); (INS_NOP, 0x5a, ADDR_IMP, 1, 2);
  (INS_NOP, 0x7a, ADDR_IMP, 1, 2); (INS_NOP, 0xda, ADDR_IMP, 1, 2);
  (INS_NOP, 0xea, ADDR_IMP, 1, 2); (INS_NOP, 0xfa, ADDR_IMP, 1, 2);
  (INS_ORA, 0x09, ADDR_IMM, 2, 2); (INS_ORA, 0x05, ADDR_ZP, 2, 3);
  (INS_ORA, 0x15, ADDR_ZPX, 2, 4); (INS_ORA, 0x0d, ADDR_ABS, 3, 4);
  (INS_ORA, 0x1d, ADDR_ABSX, 3, 4); (INS_ORA, 0x19, ADDR_ABSY, 3, 4);
  (INS_ORA, 0x01, ADDR_PREIDXIND, 2, 6); (INS_ORA, 0x11, ADDR_POSTIDXIND, 2, 5);
  (INS_PHA, 0x48, ADDR_IMP, 1, 3); (INS_PHP, 0x08, ADDR_IMP, 1, 3);
  (INS_PLA, 0x68, ADDR_IMP, 1, 4); (INS_PLP, 0x28, ADDR_IMP, 1, 4);
  (INS_ROL, 0x2a, ADDR_ACC, 1, 2); (INS_ROL, 0x26, ADDR_ZP, 2, 5);
  (INS_ROL, 0x36, ADDR_ZPX, 2, 6); (INS_ROL, 0x2e, ADDR_ABS, 3, 6);
  (INS_ROL, 0x3e, ADDR_ABSX, 3, 7); (INS_ROR, 0x6a, ADDR_ACC, 1, 2);
  (INS_ROR, 0x66, ADDR_ZP, 2, 5); (INS_ROR, 0x76, ADDR_ZPX, 2, 6);
  (INS_ROR, 0x6e, ADDR_ABS, 3, 6); (INS_ROR, 0x7e, ADDR_ABSX, 3, 7);
  (INS_RTI, 0x40, ADDR_IMP, 1, 6); (INS_RTS, 0x60, ADDR_IMP, 1, 6);
  (INS_SBC, 0xe9, ADDR_IMM, 2, 2); (INS_SBC, 0xe5, ADDR_ZP, 2, 3);
  (INS_SBC, 0xf5, ADDR_ZPX, 2, 4); (INS_SBC, 0xed, ADDR_ABS, 3, 4);
  (INS_SBC, 0xfd, ADDR_ABSX, 3, 4); (INS_SBC, 0xf9, ADDR_ABSY, 3, 4);
  (INS_SBC, 0xe1, ADDR_PREIDXIND, 2, 6); (INS_SBC, 0xf1, ADDR_POSTIDXIND, 2, 5);
  (INS_STA, 0x85, ADDR_ZP, 2, 3); (INS_STA, 0x95, ADDR_ZPX, 2, 4);
  (INS_STA, 0x8d, ADDR_ABS, 3, 4); (INS_STA, 0x9d, ADDR_ABSX, 3, 5);
  (INS_STA, 0x99, ADDR_ABSY, 3, 5); (INS_STA, 0x81, ADDR_PREIDXIND, 2, 6);
  (INS_STA, 0x91, ADDR_POSTIDXIND, 2, 6); (INS_STX, 0x86, ADDR_ZP, 2, 3);
  (INS_STX, 0x96, ADDR_ZPY, 2, 4); (INS_STX, 0x8e, ADDR_ABS, 3, 4);
  (INS_STY, 0x84, ADDR_ZP, 2, 3); (INS_STY, 0x94, ADDR_ZPX, 2, 4);
  (INS_STY, 0x8c, ADDR_ABS, 3, 4); (INS_TAX, 0xaa, ADDR_IMP, 1, 2);
  (INS_TAY, 0xa8, ADDR_IMP, 1, 2); (INS_TSX, 0xba, ADDR_IMP, 1, 2);
  (INS_TXA, 0x8a, ADDR_IMP, 1, 2); (INS_TXS, 0x9a, ADDR_IMP, 1, 2);
  (INS_TYA, 0x98, ADDR_IMP, 1, 2); (INS_ALR, 0x4b, ADDR_IMM, 2, 2);
  (INS_ANC, 0x0b, ADDR_IMM, 2, 2); (INS_ANC, 0x2b, ADDR_IMM, 2, 2);
  (INS_ARR, 0x6b, ADDR_IMM, 2, 2); (INS_AXS, 0xcb, ADDR_IMM, 2, 2);
  (INS_LAX, 0xa3, ADDR_PREIDXIND, 2, 6); (INS_LAX, 0xa7, ADDR_ZP, 2, 3);
  (INS_LAX, 0xaf, ADDR_ABS, 3, 4); (INS_LAX, 0xb3, ADDR_POSTIDXIND, 2, 5);
  (INS_LAX, 0xb7, ADDR_ZPY, 2, 4); (INS_LAX, 0xbf, ADDR_ABSY, 3, 4);
  (INS_SAX, 0x83, ADDR_PREIDXIND, 2, 6); (INS_SAX, 0x87, ADDR_ZP, 2, 3);
  (INS_SAX, 0x8f, ADDR_ABS, 3, 4); (INS_SAX, 0x97, ADDR_ZPY, 2, 4);
  (INS_DCP, 0xc3, ADDR_PREIDXIND, 2, 8); (INS_DCP, 0xc7, ADDR_ZP, 2, 5);
  (INS_DCP, 0xcf, ADDR_ABS, 3, 6); (INS_DCP, 0xd3, ADDR_POSTIDXIND, 2, 8);
  (INS_DCP, 0xd7, ADDR_ZPX, 2, 6); (INS_DCP, 0xdb, ADDR_ABSY, 3, 7);
  (INS_DCP, 0xdf, ADDR_ABSX, 3, 7); (INS_ISC, 0xe3, ADDR_PREIDXIND, 2, 8);
  (INS_ISC, 0xe7, ADDR_ZP, 2, 5); (INS_ISC, 0xef, ADDR_ABS, 3, 6);
  (INS_ISC, 0xf3, ADDR_POSTIDXIND, 2, 8); (INS_ISC, 0xf7, ADDR_ZPX, 2, 6);
  (INS_ISC, 0xfb, ADDR_ABSY, 3, 7); (INS_ISC, 0xff, ADDR_ABSX, 3, 7);
  (INS_RLA, 0x23, ADDR_PREIDXIND, 2, 8); (INS_RLA, 0x27, ADDR_ZP, 2, 5);
  (INS_RLA, 0x2f, ADDR_ABS, 3, 6); (INS_RLA, 0x33, ADDR_POSTIDXIND, 2, 8);
  (INS_RLA, 0x37, ADDR_ZPX, 2, 6); (INS_RLA, 0x3b, ADDR_ABSY, 3, 7);
  (INS_RLA, 0x3f, ADDR_ABSX, 3, 7); (INS_RRA, 0x63, ADDR_PREIDXIND, 2, 8);
  (INS_RRA, 0x67, ADDR_ZP, 2, 5); (INS_RRA, 0x6f, ADDR_ABS, 3, 6);
  (INS_RRA, 0x73, ADDR_POSTIDXIND, 2, 8); (INS_RRA, 0x77, ADDR_ZPX, 2, 6);
  (INS_RRA, 0x7b, ADDR_ABSY, 3, 7); (INS_RRA, 0x7f, ADDR_ABSX, 3, 7);
  (INS_SLO, 0x03, ADDR_PREIDXIND, 2, 8); (INS_SLO, 0x07, ADDR_ZP, 2, 5);
  (INS_SLO, 0x0f, ADDR_ABS, 3, 6); (INS_SLO, 0x13, ADDR_POSTIDXIND, 2, 8);
  (INS_SLO, 0x17, ADDR_ZPX, 2, 6); (INS_SLO, 0x1b, ADDR_ABSY, 3, 7);
  (INS_SLO, 0x1f, ADDR_ABSX, 3, 7); (INS_SRE, 0x43, ADDR_PREIDXIND, 2, 8);
  (INS_SRE, 0x47, ADDR_ZP, 2, 5); (INS_SRE, 0x4f, ADDR_ABS, 3, 6);
  (INS_SRE, 0x53, ADDR_POSTIDXIND, 2, 8); (INS_SRE, 0x57, ADDR_ZPX, 2, 6);
  (INS_SRE, 0x5b, ADDR_ABSY, 3, 7); (INS_SRE, 0x5f, ADDR_ABSX, 3, 7);
  (INS_SKB, 0x80, ADDR_IMM, 2, 2); (INS_SKB, 0x82, ADDR_IMM, 2, 2);
  (INS_SKB, 0x89, ADDR_IMM, 2, 2); (INS_SKB, 0xc2, ADDR_IMM, 2, 2);
  (INS_SKB, 0xe2, ADDR_IMM, 2, 2); (INS_IGN, 0x0c, ADDR_ABS, 3, 4);
  (INS_IGN, 0x1c, ADDR_ABSX, 3, 4); (INS_IGN, 0x3c, ADDR_ABSX, 3, 4);
  (INS_IGN, 0x5c, ADDR_ABSX, 3, 4); (INS_IGN, 0x7c, ADDR_ABSX, 3, 4);
  (INS_IGN, 0xdc, ADDR_ABSX, 3, 4); (INS_IGN, 0xfc, ADDR_ABSX, 3, 4);
  (INS_IGN, 0x04, ADDR_ZP, 2, 3); (INS_IGN, 0x44, ADDR_ZP, 2, 3);
  (INS_IGN, 0x64, ADDR_ZP, 2, 3); (INS_IGN, 0x14, ADDR_ZPX, 2, 4);
  (INS_IGN, 0x34, ADDR_ZPX, 2, 4); (INS_IGN, 0x54, ADDR_ZPX, 2, 4);
  (INS_IGN, 0x74, ADDR_ZPX, 2, 4); (INS_IGN, 0xd4, ADDR_ZPX, 2, 4);
  (INS_IGN, 0xf4, ADDR_ZPX, 2, 4)
].

(** [setOp(inst, op, addr, size, cycles)] on the [Uint32Array(256)] table. *)
Definition setOp (opdata : Z -> Z) (call : Z * Z * Z * Z * Z) : Z -> Z :=
  let '(inst, op, addr, size, cycles) := call in
  upd opdata op
      ((inst .& 0xff) .| ((addr .& 0xff) << 8) .| ((size .& 0xff) << 16)
       .| ((cycles .& 0xff) << 24)).

(** [buildOpData()]: every entry starts as 0xff, then the calls run in
    order. *)
Definition buildOpData : Z -> Z :=
  fold_left setOp setOp_calls (fun _ => 0xff).

(** [OPDATA[op]]: [undefined] outside the 256 entries. *)
Definition OPDATA (op : Z) : option Z :=
  if (0 <=? op) && (op <? 256) then Some (buildOpData op) else None.

(** The status byte assembled from the flag fields, as in [emulate], BRK
    and PHP. *)
Definition status_word (c : cpu_state) : Z :=
  F_CARRY c
  .| ((if F_ZERO c =? 0 then 1 else 0) << 1)
  .| (F_INTERRUPT c << 2)
  .| (F_DECIMAL c << 3)
  .| (F_BRK c << 4)
  .| (F_NOTUSED c << 5)
  .| (F_OVERFLOW c << 6)
  .| (F_SIGN c << 7).

Definition setStatus (st : Z) (c : cpu_state) : cpu_state :=
  c{{F_CARRY := st .& 1;
     F_ZERO := (st >> 1) .& 1;
     F_INTERRUPT := (st >> 2) .& 1;
     F_DECIMAL := (st >> 3) .& 1;
     F_BRK := (st >> 4) .& 1;
     F_NOTUSED := (st >> 5) .& 1;
     F_OVERFLOW := (st >> 6) .& 1;
     F_SIGN := (st >> 7) .& 1}}.

(** The memory [reset()] allocates: 0xff over the RAM mirrors with four
    bytes patched in each 2 KiB, zero elsewhere. *)
Definition reset_mem : Z -> Z :=
  fun a =>
    if (0 <=? a) && (a <? 0x2000) then
      let o := a mod 0x800 in
      if o =? 0x008 then 0xf7
      else if o =? 0x009 then 0xef
      else if o =? 0x00a then 0xdf
      else if o =? 0x00f then 0xbf
      else 0xff
    else 0.

(** [new CPU(nes)]: the constructor declares the fields and calls
    [reset()]. *)
Definition reset : cpu_state :=
  {| mem := reset_mem;
     REG_ACC := 0; REG_X := 0; REG_Y := 0; REG_SP := 0xff;
     REG_PC := 0x8000 - 1; REG_PC_NEW := 0x8000 - 1; REG_STATUS := 0x28;
     F_CARRY := 0; F_DECIMAL := 0; F_INTERRUPT := 1; F_INTERRUPT_NEW := 1;
     F_OVERFLOW := 0; F_SIGN := 0; F_ZERO := 1; F_NOTUSED := 1;
     F_NOTUSED_NEW := 1; F_BRK := 1; F_BRK_NEW := 1;
     cyclesToHalt := 0; crash := false; irqRequested := false;
     irqType := None; cycles := None |}.

Section Methods.
Context {Ext : Type}.
Local Abbreviation NES := (NES Ext).

Definition requestIrq (type : Z) (s : NES) : NES :=
  let c := cpu s in
  if irqRequested c && (type =? IRQ_NORMAL) then s
  else with_cpu s (c{{irqRequested := true; irqType := Some type}}).

Definition haltCycles (n : Z) (s : NES) : NES :=
  let c := cpu s in
  with_cpu s (c{{cyclesToHalt := cyclesToHalt c + n}}).

(** The methods of the mapper object, called through [this.nes.mmap], and
    [nes.stop()]. *)
Context (mm : MapperBus Ext) (dev : Devices Ext).

Definition load (addr : Z) (s : NES) : Z * NES :=
  if addr <? 0x2000 then (mem (cpu s) (addr .& 0x7ff), s)
  else m_load mm addr s.

Definition load16bit (addr : Z) (s : NES) : Z * NES :=
  if addr <? 0x1fff then
    (mem (cpu s) (addr .& 0x7ff) .| (mem (cpu s) ((addr + 1) .& 0x7ff) << 8), s)
  else
    let (lo, s1) := m_load mm addr s in
    let (hi, s2) := m_load mm (addr + 1) s1 in
    (lo .| (hi << 8), s2).

Definition write (addr val : Z) (s : NES) : NES :=
  if addr <? 0x2000 then
    let c := cpu s in
    with_cpu s (c{{mem := u8_store 0x10000 (mem c) (addr .& 0x7ff) val}})
  else m_write mm addr val s.

Definition push (value : Z) (s : NES) : NES :=
  let s1 := m_write mm (REG_SP (cpu s) .| 0x100) value s in
  let c := cpu s1 in
  with_cpu s1 (c{{REG_SP := (REG_SP c - 1) .& 0xff}}).

Definition pull (s : NES) : Z * NES :=
  let c := cpu s in
  let s1 := with_cpu s (c{{REG_SP := (REG_SP c + 1) .& 0xff}}) in
  m_load mm (0x100 .| REG_SP (cpu s1)) s1.

Definition set_PC_NEW (v : Z) (s : NES) : NES :=
  let c := cpu s in with_cpu s (c{{REG_PC_NEW := v}}).

Definition doNonMaskableInterrupt (status : Z) (s : NES) : NES :=
  match mmap s with
  | None => s
  | Some _ =>
      let (ctrl, s1) := m_load mm 0x2000 s in
      if negb ((ctrl .& 128) =? 0) then
        let s2 := set_PC_NEW (REG_PC_NEW (cpu s1) + 1) s1 in
        let s3 := push ((REG_PC_NEW (cpu s2) >> 8) .& 0xff) s2 in
        let s4 := push (REG_PC_NEW (cpu s3) .& 0xff) s3 in
        let s5 := push status s4 in
        let (lo, s6) := m_load mm 0xfffa s5 in
        let (hi, s7) := m_load mm 0xfffb s6 in
        let s8 := set_PC_NEW (lo .| (hi << 8)) s7 in
        set_PC_NEW (REG_PC_NEW (cpu s8) - 1) s8
      else s1
  end.

Definition doResetInterrupt (s : NES) : NES :=
  let (lo, s1) := m_load mm 0xfffc s in
  let (hi, s2) := m_load mm 0xfffd s1 in
  let s3 := set_PC_NEW (lo .| (hi << 8)) s2 in
  set_PC_NEW (REG_PC_NEW (cpu s3) - 1) s3.

Definition doIrq (status : Z) (s : NES) : NES :=
  let s2 := set_PC_NEW (REG_PC_NEW (cpu s) + 1) s in
  let s3 := push ((REG_PC_NEW (cpu s2) >> 8) .& 0xff) s2 in
  let s4 := push (REG_PC_NEW (cpu s3) .& 0xff) s3 in
  let s5 := push status s4 in
  let c5 := cpu s5 in
  let s6 := with_cpu s5 (c5{{F_INTERRUPT_NEW := 1; F_BRK_NEW := 0}}) in
  let (lo, s7) := m_load mm 0xfffe s6 in
  let (hi, s8) := m_load mm 0xffff s7 in
  let s9 := set_PC_NEW (lo .| (hi << 8)) s8 in
  set_PC_NEW (REG_PC_NEW (cpu s9) - 1) s9.

(** The first part of [emulate()]: the interrupt gate, run before the
    instruction is fetched. *)
Definition interruptGate (s : NES) : NES :=
  if irqRequested (cpu s) then
    let temp := status_word (cpu s) in
    let c := cpu s in
    let s1 := with_cpu s (c{{REG_PC_NEW := REG_PC c;
                             F_INTERRUPT_NEW := F_INTERRUPT c}}) in
    let s2 :=
      match irqType (cpu s1) with
      | Some 0 => if negb (F_INTERRUPT (cpu s1) =? 0) then s1 else doIrq temp s1
      | Some 1 => doNonMaskableInterrupt temp s1
      | Some 2 => doResetInterrupt s1
      | _ => s1
      end in
    let c2 := cpu s2 in
    with_cpu s2 (c2{{REG_PC := REG_PC_NEW c2;
                     F_INTERRUPT := F_INTERRUPT_NEW c2;
                     F_BRK := F_BRK_NEW c2;
                     irqRequested := false}})
  else s.

(** The operand address and the page-crossing cycle of the addressing
    mode; [pc] is the local [REG_PC] after the instruction size was
    added. *)
Definition operand (addrMode opaddr pc : Z) (s : NES) : Z * Z * NES :=
  let crossed (a i : Z) : Z :=
    if (a .& 0xff00) =? ((a + i) .& 0xff00) then 0 else 1 in
  match addrMode with
  | 0 => let (a, s1) := load (opaddr + 2) s in (a, 0, s1)
  | 1 => let (a, s1) := load (opaddr + 2) s in
         (a + (if a <? 0x80 then pc else pc - 256), 0, s1)
  | 2 => (0, 0, s)
  | 3 => let (a, s1) := load16bit (opaddr + 2) s in (a, 0, s1)
  | 4 => (REG_ACC (cpu s), 0, s)
  | 5 => (pc, 0, s)
  | 6 => let (a, s1) := load (opaddr + 2) s in
         ((a + REG_X (cpu s1)) .& 0xff, 0, s1)
  | 7 => let (a, s1) := load (opaddr + 2) s in
         ((a + REG_Y (cpu s1)) .& 0xff, 0, s1)
  | 8 => let (a, s1) := load16bit (opaddr + 2) s in
         (a + REG_X (cpu s1), crossed a (REG_X (cpu s1)), s1)
  | 9 => let (a, s1) := load16bit (opaddr + 2) s in
         (a + REG_Y (cpu s1), crossed a (REG_Y (cpu s1)), s1)
  | 10 => let (a, s1) := load (opaddr + 2) s in
          let cycleAdd := crossed a (REG_X (cpu s1)) in
          let (a', s2) := load16bit ((a + REG_X (cpu s1)) .& 0xff) s1 in
          (a', cycleAdd, s2)
  | 11 => let (p, s1) := load (opaddr + 2) s in
          let (a, s2) := load16bit p s1 in
          (a + REG_Y (cpu s2), crossed a (REG_Y (cpu s2)), s2)
  | 12 => let (a, s1) := load16bit (opaddr + 2) s in
          let hiaddr := (a .& 0xff00) .| (((a .& 0xff) + 1) .& 0xff) in
          if a <? 0x1fff then
            (mem (cpu s1) (a .& 0x7ff) .| (mem (cpu s1) hiaddr << 8), 0, s1)
          else
            let (lo, s2) := m_load mm a s1 in
            let (hi, s3) := m_load mm hiaddr s2 in
            (lo .| (hi << 8), 0, s3)
  | _ => (0, 0, s)
  end.

(** [cycleCount += (opaddr & 0xff00) !== (addr & 0xff00) ? 2 : 1; this.REG_PC = addr] *)
Definition take_branch (opaddr addr cycleCount : Z) (s : NES) : Z * NES :=
  let c := cpu s in
  (cycleCount + (if (opaddr .& 0xff00) =? (addr .& 0xff00) then 1 else 2),
   with_cpu s (c{{REG_PC := addr}})).

(** [if (addrMode !== 11) cycleCount += cycleAdd] *)
Definition add_unless_postidx (addrMode cycleAdd cycleCount : Z) : Z :=
  if addrMode =? 11 then cycleCount else cycleCount + cycleAdd.

(** The pulled status byte spread over the flag fields by PLP and RTI (the
    two instructions write [F_ZERO] with the same value). *)
Definition pull_flags (temp : Z) (c : cpu_state) : cpu_state :=
  c{{F_CARRY := temp .& 1;
     F_ZERO := if ((temp >> 1) .& 1) =? 1 then 0 else 1;
     F_INTERRUPT := (temp >> 2) .& 1;
     F_DECIMAL := (temp >> 3) .& 1;
     F_BRK := (temp >> 4) .& 1;
     F_NOTUSED := (temp >> 5) .& 1;
     F_OVERFLOW := (temp >> 6) .& 1;
     F_SIGN := (temp >> 7) .& 1}}.

(** The second [switch] of [emulate()]: one instruction.  The result is
    the value [emulate] returns and the machine it leaves. *)
Definition execute (inst addrMode addr cycleAdd cycleCount opaddr : Z)
    (s : NES) : Z * NES :=
  let c := cpu s in
  match inst with
  | 0 => (* ADC *)
      let (val, s1) := load addr s in
      let c := cpu s1 in
      let temp := REG_ACC c + val + F_CARRY c in
      (cycleCount + cycleAdd,
       with_cpu s1
         (c{{F_OVERFLOW := if (((REG_ACC c .^ val) .& 0x80) =? 0)
                              && negb (((REG_ACC c .^ temp) .& 0x80) =? 0)
                           then 1 else 0;
             F_CARRY := if temp >? 255 then 1 else 0;
             F_SIGN := (temp >> 7) .& 1;
             F_ZERO := temp .& 0xff;
             REG_ACC := temp .& 0xff}}))
  | 1 => (* AND *)
      let acc := REG_ACC c in
      let (val, s1) := load addr s in
      let a := acc .& val in
      (add_unless_postidx addrMode cycleAdd cycleCount,
       with_cpu s1 ((cpu s1){{REG_ACC := a; F_SIGN := (a >> 7) .& 1; F_ZERO := a}}))
  | 2 => (* ASL *)
      if addrMode =? 4 then
        let a := (REG_ACC c << 1) .& 0xff in
        (cycleCount,
         with_cpu s (c{{F_CARRY := (REG_ACC c >> 7) .& 1; REG_ACC := a;
                        F_SIGN := (a >> 7) .& 1; F_ZERO := a}}))
      else
        let (t0, s1) := load addr s in
        let temp := (t0 << 1) .& 0xff in
        let s2 := with_cpu s1 ((cpu s1){{F_CARRY := (t0 >> 7) .& 1;
                                        F_SIGN := (temp >> 7) .& 1;
                                        F_ZERO := temp}}) in
        (cycleCount, write addr temp s2)
  | 3 => (* BCC *)
      if F_CARRY c =? 0 then take_branch opaddr addr cycleCount s
      else (cycleCount, s)
  | 4 => (* BCS *)
      if F_CARRY c =? 1 then take_branch opaddr addr cycleCount s
      else (cycleCount, s)
  | 5 => (* BEQ *)
      if F_ZERO c =? 0 then take_branch opaddr addr cycleCount s
      else (cycleCount, s)
  | 6 => (* BIT *)
      let (temp, s1) := load addr s in
      let c := cpu s1 in
      (cycleCount,
       with_cpu s1 (c{{F_SIGN := (temp >> 7) .& 1;
                       F_OVERFLOW := (temp >> 6) .& 1;
                       F_ZERO := temp .& REG_ACC c}}))
  | 7 => (* BMI *)
      if F_SIGN c =? 1 then (cycleCount + 1, with_cpu s (c{{REG_PC := addr}}))
      else (cycleCount, s)
  | 8 => (* BNE *)
      if negb (F_ZERO c =? 0) then take_branch opaddr addr cycleCount s
      else (cycleCount, s)
  | 9 => (* BPL *)
      if F_SIGN c =? 0 then take_branch opaddr addr cycleCount s
      else (cycleCount, s)
  | 10 => (* BRK *)
      let s1 := with_cpu s (c{{REG_PC := REG_PC c + 2}}) in
      let s2 := push ((REG_PC (cpu s1) >> 8) .& 0xff) s1 in
      let s3 := push (REG_PC (cpu s2) .& 0xff) s2 in
      let s4 := with_cpu s3 ((cpu s3){{F_BRK := 1}}) in
      let s5 := push (status_word (cpu s4)) s4 in
      let s6 := with_cpu s5 ((cpu s5){{F_INTERRUPT := 1}}) in
      let (v, s7) := load16bit 0xfffe s6 in
      (cycleCount, with_cpu s7 ((cpu s7){{REG_PC := v - 1}}))
  | 11 => (* BVC *)
      if F_OVERFLOW c =? 0 then take_branch opaddr addr cycleCount s
      else (cycleCount, s)
  | 12 => (* BVS *)
      if F_OVERFLOW c =? 1 then take_branch opaddr addr cycleCount s
      else (cycleCount, s)
  | 13 => (cycleCount, with_cpu s (c{{F_CARRY := 0}}))       (* CLC *)
  | 14 => (cycleCount, with_cpu s (c{{F_DECIMAL := 0}}))     (* CLD *)
  | 15 => (cycleCount, with_cpu s (c{{F_INTERRUPT := 0}}))   (* CLI *)
  | 16 => (cycleCount, with_cpu s (c{{F_OVERFLOW := 0}}))    (* CLV *)
  | 17 => (* CMP *)
      let acc := REG_ACC c in
      let (val, s1) := load addr s in
      let temp := acc - val in
      (cycleCount + cycleAdd,
       with_cpu s1 ((cpu s1){{F_CARRY := if temp >=? 0 then 1 else 0;
                              F_SIGN := (temp >> 7) .& 1;
                              F_ZERO := temp .& 0xff}}))
  | 18 => (* CPX *)
      let x := REG_X c in
      let (val, s1) := load addr s in
      let temp := x - val in
      (cycleCount,
       with_cpu s1 ((cpu s1){{F_CARRY := if temp >=? 0 then 1 else 0;
                              F_SIGN := (temp >> 7) .& 1;
                              F_ZERO := temp .& 0xff}}))
  | 19 => (* CPY *)
      let y := REG_Y c in
      let (val, s1) := load addr s in
      let temp := y - val in
      (cycleCount,
       with_cpu s1 ((cpu s1){{F_CARRY := if temp >=? 0 then 1 else 0;
                              F_SIGN := (temp >> 7) .& 1;
                              F_ZERO := temp .& 0xff}}))
  | 20 => (* DEC *)
      let (val, s1) := load addr s in
      let temp := (val - 1) .& 0xff in
      let s2 := with_cpu s1 ((cpu s1){{F_SIGN := (temp >> 7) .& 1; F_ZERO := temp}}) in
      (cycleCount, write addr temp s2)
  | 21 => (* DEX *)
      let x := (REG_X c - 1) .& 0xff in
      (cycleCount, with_cpu s (c{{REG_X := x; F_SIGN := (x >> 7) .& 1; F_ZERO := x}}))
  | 22 => (* DEY *)
      let y := (REG_Y c - 1) .& 0xff in
      (cycleCount, with_cpu s (c{{REG_Y := y; F_SIGN := (y >> 7) .& 1; F_ZERO := y}}))
  | 23 => (* EOR *)
      let (val, s1) := load addr s in
      let a := (val .^ REG_ACC (cpu s1)) .& 0xff in
      (cycleCount + cycleAdd,
       with_cpu s1 ((cpu s1){{REG_ACC := a; F_SIGN := (a >> 7) .& 1; F_ZERO := a}}))
  | 24 => (* INC *)
      let (val, s1) := load addr s in
      let temp := (val + 1) .& 0xff in
      let s2 := with_cpu s1 ((cpu s1){{F_SIGN := (temp >> 7) .& 1; F_ZERO := temp}}) in
      (cycleCount, write addr temp s2)
  | 25 => (* INX *)
      let x := (REG_X c + 1) .& 0xff in
      (cycleCount, with_cpu s (c{{REG_X := x; F_SIGN := (x >> 7) .& 1; F_ZERO := x}}))
  | 26 => (* INY *)
      let y := (REG_Y c + 1) .& 0xff in
      (cycleCount, with_cpu s (c{{REG_Y := y; F_SIGN := (y >> 7) .& 1; F_ZERO := y}}))
  | 27 => (* JMP *)
      (cycleCount, with_cpu s (c{{REG_PC := addr - 1}}))
  | 28 => (* JSR *)
      let s1 := push ((REG_PC c >> 8) .& 0xff) s in
      let s2 := push (REG_PC (cpu s1) .& 0xff) s1 in
      (cycleCount, with_cpu s2 ((cpu s2){{REG_PC := addr - 1}}))
  | 29 => (* LDA *)
      let (a, s1) := load addr s in
      (cycleCount + cycleAdd,
       with_cpu s1 ((cpu s1){{REG_ACC := a; F_SIGN := (a >> 7) .& 1; F_ZERO := a}}))
  | 30 => (* LDX *)
      let (x, s1) := load addr s in
      (cycleCount + cycleAdd,
       with_cpu s1 ((cpu s1){{REG_X := x; F_SIGN := (x >> 7) .& 1; F_ZERO := x}}))
  | 31 => (* LDY *)
      let (y, s1) := load addr s in
      (cycleCount + cycleAdd,
       with_cpu s1 ((cpu s1){{REG_Y := y; F_SIGN := (y >> 7) .& 1; F_ZERO := y}}))
  | 32 => (* LSR *)
      if addrMode =? 4 then
        let temp := REG_ACC c >> 1 in
        (cycleCount,
         with_cpu s (c{{F_CARRY := REG_ACC c .& 1; REG_ACC := temp;
                        F_SIGN := 0; F_ZERO := temp}}))
      else
        let (t0, s1) := load addr s in
        let temp := t0 >> 1 in
        let s2 := with_cpu s1 ((cpu s1){{F_CARRY := t0 .& 1}}) in
        let s3 := write addr temp s2 in
        (cycleCount, with_cpu s3 ((cpu s3){{F_SIGN := 0; F_ZERO := temp}}))
  | 33 => (cycleCount, s) (* NOP *)
  | 34 => (* ORA *)
      let (val, s1) := load addr s in
      let a := (val .| REG_ACC (cpu s1)) .& 0xff in
      (add_unless_postidx addrMode cycleAdd cycleCount,
       with_cpu s1 ((cpu s1){{REG_ACC := a; F_SIGN := (a >> 7) .& 1; F_ZERO := a}}))
  | 35 => (cycleCount, push (REG_ACC c) s) (* PHA *)
  | 36 => (* PHP *)
      let s1 := with_cpu s (c{{F_BRK := 1}}) in
      (cycleCount, push (status_word (cpu s1)) s1)
  | 37 => (* PLA *)
      let (a, s1) := pull s in
      (cycleCount,
       with_cpu s1 ((cpu s1){{REG_ACC := a; F_SIGN := (a >> 7) .& 1; F_ZERO := a}}))
  | 38 => (* PLP *)
      let (temp, s1) := pull s in
      (cycleCount, with_cpu s1 ((pull_flags temp (cpu s1)){{F_NOTUSED := 1}}))
  | 39 => (* ROL *)
      if addrMode =? 4 then
        let temp := ((REG_ACC c << 1) .& 0xff) + F_CARRY c in
        (cycleCount,
         with_cpu s (c{{F_CARRY := (REG_ACC c >> 7) .& 1; REG_ACC := temp;
                        F_SIGN := (temp >> 7) .& 1; F_ZERO := temp}}))
      else
        let (t0, s1) := load addr s in
        let temp := ((t0 << 1) .& 0xff) + F_CARRY (cpu s1) in
        let s2 := with_cpu s1 ((cpu s1){{F_CARRY := (t0 >> 7) .& 1}}) in
        let s3 := write addr temp s2 in
        (cycleCount,
         with_cpu s3 ((cpu s3){{F_SIGN := (temp >> 7) .& 1; F_ZERO := temp}}))
  | 40 => (* ROR *)
      if addrMode =? 4 then
        let temp := (REG_ACC c >> 1) + (F_CARRY c << 7) in
        (cycleCount,
         with_cpu s (c{{F_CARRY := REG_ACC c .& 1; REG_ACC := temp;
                        F_SIGN := (temp >> 7) .& 1; F_ZERO := temp}}))
      else
        let (t0, s1) := load addr s in
        let temp := (t0 >> 1) + (F_CARRY (cpu s1) << 7) in
        let s2 := with_cpu s1 ((cpu s1){{F_CARRY := t0 .& 1}}) in
        let s3 := write addr temp s2 in
        (cycleCount,
         with_cpu s3 ((cpu s3){{F_SIGN := (temp >> 7) .& 1; F_ZERO := temp}}))
  | 41 => (* RTI *)
      let (temp, s1) := pull s in
      let s2 := with_cpu s1 (pull_flags temp (cpu s1)) in
      let (lo, s3) := pull s2 in
      let s4 := with_cpu s3 ((cpu s3){{REG_PC := lo}}) in
      let pcl := REG_PC (cpu s4) in
      let (hi, s5) := pull s4 in
      let s6 := with_cpu s5 ((cpu s5){{REG_PC := pcl + (hi << 8)}}) in
      if REG_PC (cpu s6) =? 0xffff then (cycleCount, s6)
      else
        let c6 := cpu s6 in
        (cycleCount, with_cpu s6 (c6{{REG_PC := REG_PC c6 - 1; F_NOTUSED := 1}}))
  | 42 => (* RTS *)
      let (lo, s1) := pull s in
      let s2 := with_cpu s1 ((cpu s1){{REG_PC := lo}}) in
      let pcl := REG_PC (cpu s2) in
      let (hi, s3) := pull s2 in
      (cycleCount, with_cpu s3 ((cpu s3){{REG_PC := pcl + (hi << 8)}}))
  | 43 => (* SBC *)
      let (val, s1) := load addr s in
      let c := cpu s1 in
      let temp := REG_ACC c - val - (1 - F_CARRY c) in
      (add_unless_postidx addrMode cycleAdd cycleCount,
       with_cpu s1
         (c{{F_SIGN := (temp >> 7) .& 1;
             F_ZERO := temp .& 0xff;
             F_OVERFLOW := if negb (((REG_ACC c .^ temp) .& 0x80) =? 0)
                              && negb (((REG_ACC c .^ val) .& 0x80) =? 0)
                           then 1 else 0;
             F_CARRY := if temp <? 0 then 0 else 1;
             REG_ACC := temp .& 0xff}}))
  | 44 => (cycleCount, with_cpu s (c{{F_CARRY := 1}}))       (* SEC *)
  | 45 => (cycleCount, with_cpu s (c{{F_DECIMAL := 1}}))     (* SED *)
  | 46 => (cycleCount, with_cpu s (c{{F_INTERRUPT := 1}}))   (* SEI *)
  | 47 => (cycleCount, write addr (REG_ACC c) s)             (* STA *)
  | 48 => (cycleCount, write addr (REG_X c) s)               (* STX *)
  | 49 => (cycleCount, write addr (REG_Y c) s)               (* STY *)
  | 50 => (* TAX *)
      (cycleCount,
       with_cpu s (c{{REG_X := REG_ACC c; F_SIGN := (REG_ACC c >> 7) .& 1;
                      F_ZERO := REG_ACC c}}))
  | 51 => (* TAY *)
      (cycleCount,
       with_cpu s (c{{REG_Y := REG_ACC c; F_SIGN := (REG_ACC c >> 7) .& 1;
                      F_ZERO := REG_ACC c}}))
  | 52 => (* TSX *)
      (cycleCount,
       with_cpu s (c{{REG_X := REG_SP c .& 0xff; F_SIGN := (REG_SP c >> 7) .& 1;
                      F_ZERO := REG_SP c .& 0xff}}))
  | 53 => (* TXA *)
      (cycleCount,
       with_cpu s (c{{REG_ACC := REG_X c; F_SIGN := (REG_X c >> 7) .& 1;
                      F_ZERO := REG_X c}}))
  | 54 => (cycleCount, with_cpu s (c{{REG_SP := REG_X c .& 0xff}})) (* TXS *)
  | 55 => (* TYA *)
      (cycleCount,
       with_cpu s (c{{REG_ACC := REG_Y c; F_SIGN := (REG_Y c >> 7) .& 1;
                      F_ZERO := REG_Y c}}))
  | 56 => (* ALR *)
      let acc := REG_ACC c in
      let (val, s1) := load addr s in
      let temp := acc .& val in
      (cycleCount,
       with_cpu s1 ((cpu s1){{F_CARRY := temp .& 1; F_ZERO := temp >> 1;
                              REG_ACC := temp >> 1; F_SIGN := 0}}))
  | 57 => (* ANC *)
      let acc := REG_ACC c in
      let (val, s1) := load addr s in
      let a := acc .& val in
      (cycleCount,
       with_cpu s1 ((cpu s1){{F_ZERO := a; REG_ACC := a;
                              F_SIGN := (a >> 7) .& 1; F_CARRY := (a >> 7) .& 1}}))
  | 58 => (* ARR *)
      let acc := REG_ACC c in
      let (val, s1) := load addr s in
      let temp := acc .& val in
      let c1 := cpu s1 in
      let a := (temp >> 1) + (F_CARRY c1 << 7) in
      (cycleCount,
       with_cpu s1 (c1{{F_ZERO := a; REG_ACC := a; F_SIGN := F_CARRY c1;
                        F_CARRY := (temp >> 7) .& 1;
                        F_OVERFLOW := ((temp >> 7) .^ (temp >> 6)) .& 1}}))
  | 59 => (* AXS *)
      let (val, s1) := load addr s in
      let c := cpu s1 in
      let temp := (REG_X c .& REG_ACC c) - val in
      (cycleCount,
       with_cpu s1
         (c{{F_SIGN := (temp >> 7) .& 1;
             F_ZERO := temp .& 0xff;
             F_OVERFLOW := if negb (((REG_X c .^ temp) .& 0x80) =? 0)
                              && negb (((REG_X c .^ val) .& 0x80) =? 0)
                           then 1 else 0;
             F_CARRY := if temp <? 0 then 0 else 1;
             REG_X := temp .& 0xff}}))
  | 60 => (* LAX *)
      let (v, s1) := load addr s in
      (cycleCount + cycleAdd,
       with_cpu s1 ((cpu s1){{F_ZERO := v; REG_X := v; REG_ACC := v;
                              F_SIGN := (v >> 7) .& 1}}))
  | 61 => (cycleCount, write addr (REG_ACC c .& REG_X c) s) (* SAX *)
  | 62 => (* DCP *)
      let (val, s1) := load addr s in
      let t1 := (val - 1) .& 0xff in
      let s2 := write addr t1 s1 in
      let temp := REG_ACC (cpu s2) - t1 in
      (add_unless_postidx addrMode cycleAdd cycleCount,
       with_cpu s2 ((cpu s2){{F_CARRY := if temp >=? 0 then 1 else 0;
                              F_SIGN := (temp >> 7) .& 1;
                              F_ZERO := temp .& 0xff}}))
  | 63 => (* ISC *)
      let (v0, s1) := load addr s in
      let val := (v0 + 1) .& 0xff in
      let s2 := write addr val s1 in
      let c := cpu s2 in
      let temp := REG_ACC c - val - (1 - F_CARRY c) in
      (add_unless_postidx addrMode cycleAdd cycleCount,
       with_cpu s2
         (c{{F_SIGN := (temp >> 7) .& 1;
             F_ZERO := temp .& 0xff;
             F_OVERFLOW := if negb (((REG_ACC c .^ temp) .& 0x80) =? 0)
                              && negb (((REG_ACC c .^ val) .& 0x80) =? 0)
                           then 1 else 0;
             F_CARRY := if temp <? 0 then 0 else 1;
             REG_ACC := temp .& 0xff}}))
  | 64 => (* RLA *)
      let (t0, s1) := load addr s in
      let temp := ((t0 << 1) .& 0xff) + F_CARRY (cpu s1) in
      let s2 := with_cpu s1 ((cpu s1){{F_CARRY := (t0 >> 7) .& 1}}) in
      let s3 := write addr temp s2 in
      let a := REG_ACC (cpu s3) .& temp in
      (add_unless_postidx addrMode cycleAdd cycleCount,
       with_cpu s3 ((cpu s3){{REG_ACC := a; F_SIGN := (a >> 7) .& 1; F_ZERO := a}}))
  | 65 => (* RRA *)
      let (t0, s1) := load addr s in
      let val := (t0 >> 1) + (F_CARRY (cpu s1) << 7) in
      let s2 := with_cpu s1 ((cpu s1){{F_CARRY := t0 .& 1}}) in
      let s3 := write addr val s2 in
      let c := cpu s3 in
      let temp := REG_ACC c + val + F_CARRY c in
      (add_unless_postidx addrMode cycleAdd cycleCount,
       with_cpu s3
         (c{{F_OVERFLOW := if (((REG_ACC c .^ val) .& 0x80) =? 0)
                              && negb (((REG_ACC c .^ temp) .& 0x80) =? 0)
                           then 1 else 0;
             F_CARRY := if temp >? 255 then 1 else 0;
             F_SIGN := (temp >> 7) .& 1;
             F_ZERO := temp .& 0xff;
             REG_ACC := temp .& 0xff}}))
  | 66 => (* SLO *)
      let (t0, s1) := load addr s in
      let temp := (t0 << 1) .& 0xff in
      let s2 := with_cpu s1 ((cpu s1){{F_CARRY := (t0 >> 7) .& 1}}) in
      let s3 := write addr temp s2 in
      let a := REG_ACC (cpu s3) .| temp in
      (add_unless_postidx addrMode cycleAdd cycleCount,
       with_cpu s3 ((cpu s3){{REG_ACC := a; F_SIGN := (a >> 7) .& 1; F_ZERO := a}}))
  | 67 => (* SRE *)
      let (t0, s1) := load addr s in
      let temp := t0 >> 1 in
      let s2 := with_cpu s1 ((cpu s1){{F_CARRY := t0 .& 1}}) in
      let s3 := write addr temp s2 in
      let a := REG_ACC (cpu s3) .^ temp in
      (add_unless_postidx addrMode cycleAdd cycleCount,
       with_cpu s3 ((cpu s3){{REG_ACC := a; F_SIGN := (a >> 7) .& 1; F_ZERO := a}}))
  | 68 => (cycleCount, s) (* SKB *)
  | 69 => (* IGN *)
      let (_, s1) := load addr s in
      (add_unless_postidx addrMode cycleAdd cycleCount, s1)
  | _ =>
      let s1 := nes_stop dev s in
      (cycleCount, s1{{crashMessage := Some opaddr}})
  end.

(** [emulate()]: the interrupt gate, the fetch, the operand, the
    instruction; the result is the number of cycles returned. *)
Definition emulate (s : NES) : Z * NES :=
  let s0 := interruptGate s in
  match mmap s0 with
  | None => (32, s0)
  | Some _ =>
      let pc0 := REG_PC (cpu s0) in
      let (op, s1) := m_load mm (pc0 + 1) s0 in
      let opinf := num (OPDATA op) in
      let cycleCount := opinf >> 24 in
      let addrMode := (opinf >> 8) .& 0xff in
      let opaddr := pc0 in
      let pc := pc0 + ((opinf >> 16) .& 0xff) in
      let '(addr, cycleAdd, s2) := operand addrMode opaddr pc s1 in
      let addr := addr .& 0xffff in
      let s3 := with_cpu s2 ((cpu s2){{REG_PC := pc}}) in
      execute (opinf .& 0xff) addrMode addr cycleAdd cycleCount opaddr s3
  end.

(** [n] calls of [emulate()], with the cycles each one returned. *)
Fixpoint run (n : nat) (s : NES) : list Z * NES :=
  match n with
  | O => ([], s)
  | S k => let (cy, s1) := emulate s in
           let (l, s2) := run k s1 in (cy :: l, s2)
  end.

End Methods.
End CPU.

(** ** ppu.js: status register, sprite memory, VBlank, background scanline *)

Module PPU.

Definition STATUS_VRAMWRITE := 4.
Definition STATUS_SLSPRITECOUNT := 5.
Definition STATUS_SPRITE0HIT := 6.
Definition STATUS_VBLANK := 7.

(** [x !== 0] for a cell that can be [undefined]. *)
Definition nonzero (o : option Z) : bool :=
  match o with Some 0 => false | _ => true end.

(** The two pixel loops of [checkSprite0]: [cols] lists the tile columns in
    the order the loop visits them while [x] and [bufferIndex] advance; the
    result is the [bufferIndex] at which the loop returns [true]. *)
Fixpoint spr0_hit (p : ppu_state) (t : Tile.t) (toffset : Z) (cols : list Z)
    (x bufferIndex : Z) : option Z :=
  match cols with
  | [] => None
  | i :: rest =>
      if (0 <=? x) && (x <? 256) && (0 <=? bufferIndex) && (bufferIndex <? 61440)
         && nonzero (pixrendered p bufferIndex)
         && nonzero (cell (Tile.pix t) (toffset + i))
      then Some bufferIndex
      else spr0_hit p t toffset rest (x + 1) (bufferIndex + 1)
  end.

(** [checkSprite0(scan)]: the returned flag and the PPU with [spr0HitX] and
    [spr0HitY] set. *)
Definition checkSprite0 (scan : Z) (p : ppu_state) : bool * ppu_state :=
  let p0 := p{{spr0HitX := -1; spr0HitY := -1}} in
  let tIndexAdd := if f_spPatternTable p =? 0 then 0 else 256 in
  let height := if f_spriteSize p =? 0 then 8 else 16 in
  match sprX p 0, sprY p 0 with
  | Some x, Some y0 =>
      let y := y0 + 1 in
      if (y <=? scan) && (y + height >? scan) && (x >=? -7) && (x <? 256) then
        let flipped := vertFlip p 0 in
        let tile_and_row : option Tile.t * Z :=
          match sprTile p 0 with
          | None => (None, 0)
          | Some tl =>
              if f_spriteSize p =? 0 then
                (ptTile p (tl + tIndexAdd),
                 if flipped then 7 - (scan - y) else scan - y)
              else
                let toffset := if flipped then 15 - (scan - y) else scan - y in
                let odd := if negb ((tl .& 1) =? 0) then 255 else 0 in
                if toffset <? 8 then
                  (ptTile p (tl + (if flipped then 1 else 0) + odd), toffset)
                else
                  (ptTile p (tl + (if flipped then 0 else 1) + odd),
                   if flipped then 15 - toffset else toffset - 8)
          end in
        match tile_and_row with
        | (None, _) => (false, p0)
        | (Some t, row) =>
            let order := if horiFlip p 0 then [7; 6; 5; 4; 3; 2; 1; 0]
                         else [0; 1; 2; 3; 4; 5; 6; 7] in
            match spr0_hit p t (row * 8) order x (scan * 256 + x) with
            | Some bi => (true, p0{{spr0HitX := bi mod 256; spr0HitY := scan}})
            | None => (false, p0)
            end
        end
      else (false, p0)
  | _, _ => (false, p0)
  end.

(** [spriteRamWriteUpdate(address, value)] *)
Definition spriteRamWriteUpdate (address : Z) (value : option Z)
    (p : ppu_state) : ppu_state :=
  let tIndex := address / 4 in
  let p1 := if tIndex =? 0 then snd (checkSprite0 (scanline p - 20) p) else p in
  let r := address mod 4 in
  if r =? 0 then p1{{sprY := upd (sprY p1) tIndex value}}
  else if r =? 1 then p1{{sprTile := upd (sprTile p1) tIndex value}}
  else if r =? 2 then
    p1{{vertFlip := upd (vertFlip p1) tIndex (negb ((num value .& 0x80) =? 0));
        horiFlip := upd (horiFlip p1) tIndex (negb ((num value .& 0x40) =? 0));
        bgPriority := upd (bgPriority p1) tIndex (negb ((num value .& 0x20) =? 0));
        sprCol := upd (sprCol p1) tIndex (Some ((num value .& 3) << 2))}}
  else if r =? 3 then p1{{sprX := upd (sprX p1) tIndex value}}
  else p1.

Definition writeSRAMAddress (address : Z) (p : ppu_state) : ppu_state :=
  p{{sramAddress := address}}.

Definition sramLoad (p : ppu_state) : option Z := spriteMem p (sramAddress p).

Definition sramWrite (value : Z) (p : ppu_state) : ppu_state :=
  let p1 := p{{spriteMem := upd (spriteMem p) (sramAddress p) (Some value)}} in
  let p2 := spriteRamWriteUpdate (sramAddress p1) (Some value) p1 in
  p2{{sramAddress := (sramAddress p2 + 1) mod 0x100}}.

(** A read of the [Uint8Array] [cpu.mem]: [undefined] outside the array. *)
Definition mem_read (c : cpu_state) (i : Z) : option Z :=
  if (0 <=? i) && (i <? 0x10000) then Some (mem c i) else None.

Section Methods.
Context {Ext : Type}.
Local Abbreviation NES := (NES Ext).
Context (mm : MapperHooks Ext) (dev : Devices Ext).

Definition setStatusFlag (flag : Z) (value : bool) (s : NES) : NES :=
  let n := 1 << flag in
  let c := cpu s in
  with_cpu s
    (c{{mem := u8_store 0x10000 (mem c) 0x2002
                 ((mem c 0x2002 .& (255 - n)) .| (if value then n else 0))}}).

Definition readStatusRegister (s : NES) : Z * NES :=
  let tmp := mem (cpu s) 0x2002 in
  let s1 := with_ppu s ((ppu s){{firstWrite := true}}) in
  (tmp, setStatusFlag STATUS_VBLANK false s1).

(** One turn of the loop of [sramDMA]. *)
Definition sramDMA_step (baseAddress i : Z) (s : NES) : NES :=
  let data := mem_read (cpu s) (baseAddress + i) in
  let p := ppu s in
  let p1 := p{{spriteMem := upd (spriteMem p) i data}} in
  with_ppu s (spriteRamWriteUpdate i data p1).

(** [sramDMA(value)]: the loop runs from [sramAddress] to 255. *)
Definition sramDMA (value : Z) (s : NES) : NES :=
  let baseAddress := value * 0x100 in
  let start := sramAddress (ppu s) in
  let s1 := for_range start (Z.to_nat (256 - start)) (sramDMA_step baseAddress) s in
  CPU.haltCycles 513 s1.

(** [startVBlank()] *)
Definition startVBlank (s : NES) : NES :=
  let s1 := CPU.requestIrq CPU.IRQ_NMI s in
  let last := lastRenderedScanline (ppu s1) in
  let s2 := if last <? 239
            then ppu_renderFramePartially dev (last + 1) (240 - last) s1
            else s1 in
  let s3 := ppu_endFrame dev s2 in
  with_ppu s3 ((ppu s3){{lastRenderedScanline := -1}}).

(** *** Name-table mirroring *)

(** [defineMirrorRegion(fromStart, toStart, size)] *)
Definition defineMirrorRegion (fromStart toStart size : Z) (p : ppu_state)
    : ppu_state :=
  p{{vramMirrorTable :=
       fun j => if (fromStart <=? j) && (j <? fromStart + size)
                then Some (toStart + (j - fromStart))
                else vramMirrorTable p j}}.

(** [this.ntable1[0] = a; ... this.ntable1[3] = d] *)
Definition set_ntable1 (a b c d : Z) (p : ppu_state) : ppu_state :=
  p{{ntable1 := upd (upd (upd (upd (ntable1 p) 0 (Some a)) 1 (Some b))
                         2 (Some c)) 3 (Some d)}}.

(** [setMirroring(mirroring)].  It is called by the mappers, with a ROM in
    place: the mirroring constants are read from [this.nes.rom]. *)
Definition setMirroring (mirroring : Z) (s : NES) : NES :=
  if mirroring =? currentMirroring (ppu s) then s
  else
    let s1 := with_ppu s ((ppu s){{currentMirroring := mirroring}}) in
    let s2 := ppu_triggerRendering dev s1 in
    let p := ppu s2 in
    let p1 := p{{vramMirrorTable :=
                   fun j => if (0 <=? j) && (j <? 0x8000) then Some j
                            else vramMirrorTable p j}} in
    let p2 :=
      defineMirrorRegion 0x4000 0x0000 0x4000
        (defineMirrorRegion 0x3000 0x2000 0xf00
           (defineMirrorRegion 0x3fc0 0x3f00 0x20
              (defineMirrorRegion 0x3f80 0x3f00 0x20
                 (defineMirrorRegion 0x3f40 0x3f00 0x20
                    (defineMirrorRegion 0x3f20 0x3f00 0x20 p1))))) in
    let p3 :=
      if mirroring =? ROM.HORIZONTAL_MIRRORING then
        defineMirrorRegion 0x2c00 0x2800 0x400
          (defineMirrorRegion 0x2400 0x2000 0x400 (set_ntable1 0 0 1 1 p2))
      else if mirroring =? ROM.VERTICAL_MIRRORING then
        defineMirrorRegion 0x2c00 0x2400 0x400
          (defineMirrorRegion 0x2800 0x2000 0x400 (set_ntable1 0 1 0 1 p2))
      else if mirroring =? ROM.SINGLESCREEN_MIRRORING then
        defineMirrorRegion 0x2c00 0x2000 0x400
          (defineMirrorRegion 0x2800 0x2000 0x400
             (defineMirrorRegion 0x2400 0x2000 0x400 (set_ntable1 0 0 0 0 p2)))
      else if mirroring =? ROM.SINGLESCREEN_MIRRORING2 then
        defineMirrorRegion 0x2c00 0x2400 0x400
          (defineMirrorRegion 0x2800 0x2400 0x400
             (defineMirrorRegion 0x2400 0x2400 0x400 (set_ntable1 1 1 1 1 p2)))
      else set_ntable1 0 1 2 3 p2 in
    with_ppu s2 p3.

(** *** The background scanline *)

(** [var isMMC2 = this.nes.rom && this.nes.rom.mapperType === 9] *)
Definition isMMC2 (s : NES) : bool :=
  match rom s with
  | Some r => match ROM.mapperType r with Some 9 => true | _ => false end
  | None => false
  end.

(** [var tileCount = isMMC2 ? 34 : 32] *)
Definition tileCount (s : NES) : nat := if isMMC2 s then 34%nat else 32%nat.

(** [if (mmap && typeof mmap.notifyA12 === "function") mmap.notifyA12(v)] *)
Definition signalA12 (v : Z) (s : NES) : NES :=
  match mmap s, m_notifyA12 mm with
  | Some _, Some notifyA12 => notifyA12 v s
  | _, _ => s
  end.

(** [if (this.nes.mmap && this.nes.mmap.latchAccess) latchAccess(a)] *)
Definition signalLatch (a : Z) (s : NES) : NES :=
  match mmap s, m_latchAccess mm with
  | Some _, Some latchAccess => latchAccess a s
  | _, _ => s
  end.

Definition getTileIndex (nt : NameTable) (x y : Z) : Z := nt_tile nt (y * 32 + x).
Definition getAttrib (nt : NameTable) (x y : Z) : Z := nt_attrib nt (y * 32 + x).

(** [nameTable[this.curNt]]: [None] where the read gives [undefined]
    ([curNt] is unset, or there is no such table); the method call made on
    it then throws a TypeError. *)
Definition current_nameTable (p : ppu_state) : option NameTable :=
  match curNt p with
  | Some i => nameTable p i
  | None => None
  end.

(** [imgPalette[col + att]]; an [undefined] operand makes the index [NaN]. *)
Definition palette_entry (p : ppu_state) (col att : option Z) : option Z :=
  match col, att with
  | Some c, Some a => imgPalette p (c + a)
  | _, _ => None
  end.

(** One pixel of a tile row: the body of the two inner [for (; sx < 8; sx++)]
    loops, on the PPU and [destIndex]. *)
Definition bg_pixel (target_bg opaque_row : bool) (t : Tile.t)
    (att : option Z) (tscanoffset sx : Z) (st : ppu_state * Z)
    : ppu_state * Z :=
  let (p, destIndex) := st in
  let col := cell (Tile.pix t) (tscanoffset + sx) in
  if opaque_row || nonzero col then
    let v := palette_entry p col att in
    let p1 := if target_bg then p{{bgbuffer := upd (bgbuffer p) destIndex v}}
              else p{{buffer := upd (buffer p) destIndex v}} in
    (p1{{pixrendered := upd (pixrendered p1) destIndex
                            (Some (num (pixrendered p1 destIndex) .| 256))}},
     destIndex + 1)
  else (p, destIndex + 1).

(** "Render tile scanline": the part of the loop body after the fetch. *)
Definition bg_draw (target_bg : bool) (tile tscanoffset : Z) (t : Tile.t)
    (att : option Z) (st : ppu_state * Z) : ppu_state * Z :=
  let (p, destIndex) := st in
  let x := (tile << 3) - regFH p in
  if x >? -8 then
    let destIndex1 := if x <? 0 then destIndex - x else destIndex in
    let sx := if x <? 0 then - x else 0 in
    let opaque_row :=
      match cell (Tile.opaque t) (cntFV p) with Some true => true | _ => false end in
    for_range sx (Z.to_nat (8 - sx))
      (bg_pixel target_bg opaque_row t att tscanoffset) (p, destIndex1)
  else st.

(** "Increase Horizontal Tile Counter" *)
Definition bg_next_tile (p : ppu_state) : ppu_state :=
  let ht := cntHT p + 1 in
  if ht =? 32 then
    let h := (cntH p + 1) mod 2 in
    p{{cntHT := 0; cntH := h; curNt := ntable1 p ((cntV p << 1) + h)}}
  else p{{cntHT := ht}}.

(** One turn of [for (tile = 0; tile < tileCount; tile++)]; [continue]
    leaves the turn before the horizontal counter is advanced.  [None] is
    the TypeError of a method call on [nameTable[this.curNt]] when that is
    [undefined]. *)
Definition bg_tile (target_bg : bool) (scan baseTile tscanoffset tile : Z)
    (st : NES * Z) : option (NES * Z) :=
  let (s, destIndex) := st in
  let advance (s : NES) (destIndex : Z) : NES * Z :=
    (with_ppu s (bg_next_tile (ppu s)), destIndex) in
  if scan >=? 0 then
    if validTileData (ppu s) then
      match scantile (ppu s) tile with
      | None => Some (s, destIndex)
      | Some t =>
          let att := attrib (ppu s) tile in
          let (p1, d1) := bg_draw target_bg tile tscanoffset t att (ppu s, destIndex) in
          Some (advance (with_ppu s p1) d1)
      end
    else
      let p := ppu s in
      match current_nameTable p with
      | None => None
      | Some nt =>
          let tileIndex := getTileIndex nt (cntHT p) (cntVT p) in
          let t := ptTile p (baseTile + tileIndex) in
          let s1 := signalLatch ((if baseTile =? 0 then 0x0000 else 0x1000)
                                 + (tileIndex << 4)) s in
          match t with
          | None => Some (s1, destIndex)
          | Some t =>
              let p1 := ppu s1 in
              match current_nameTable p1 with
              | None => None
              | Some nt1 =>
                  let att := Some (getAttrib nt1 (cntHT p1) (cntVT p1)) in
                  let p2 := p1{{scantile := upd (scantile p1) tile (Some t);
                                attrib := upd (attrib p1) tile att}} in
                  let (p3, d3) :=
                    bg_draw target_bg tile tscanoffset t att (p2, destIndex) in
                  Some (advance (with_ppu s1 p3) d3)
              end
          end
      end
  else Some (advance s destIndex).

(** "update vertical scroll" *)
Definition bg_next_line (p : ppu_state) : ppu_state :=
  let fv := cntFV p + 1 in
  if fv =? 8 then
    let vt := cntVT p + 1 in
    let p1 :=
      if vt =? 30 then
        let v := (cntV p + 1) mod 2 in
        p{{cntFV := 0; cntVT := 0; cntV := v;
           curNt := ntable1 p ((v << 1) + cntH p)}}
      else if vt =? 32 then p{{cntFV := 0; cntVT := 0}}
      else p{{cntFV := 0; cntVT := vt}} in
    p1{{validTileData := false}}
  else p{{cntFV := fv}}.

(** [renderBgScanline(bgbuffer, scan)]; [None] when it throws. *)
Definition renderBgScanline (bgbuffer : bool) (scan : Z) (s : NES) : option NES :=
  let count := tileCount s in
  let baseTile := if regS (ppu s) =? 0 then 0 else 256 in
  let destIndex := (scan << 8) - regFH (ppu s) in
  let s1 := signalA12 (f_bgPatternTable (ppu s)) s in
  let p := ppu s1 in
  let p1 := p{{cntHT := regHT p; cntH := regH p;
               curNt := ntable1 p (cntV p + cntV p + regH p)}} in
  let s2 := with_ppu s1 p1 in
  let o3 :=
    if (scan <? 240) && (scan - cntFV p1 >=? 0) then
      match for_range_try 0 count (bg_tile bgbuffer scan baseTile (cntFV p1 << 3))
                          (s2, destIndex) with
      | Some (s', _) => Some (with_ppu s' ((ppu s'){{validTileData := true}}))
      | None => None
      end
    else Some s2 in
  option_map (fun s3 => with_ppu s3 (bg_next_line (ppu s3))) o3.

End Methods.
End PPU.

(** ** mappers.js: the base class [Mapper] (mapper 0) *)

Module Mapper.

(** [new Mapper(nes)] followed by [reset()], for an object of class [cls];
    the properties of the subclasses start at 0 and are set by their own
    constructors. *)
Definition constructor (cls : mapper_class) : mapper_state :=
  {| mclass := cls; hasLatch := false;
     joy1StrobeState := 0; joy2StrobeState := 0; joypadLastWrite := 0;
     zapperFired := false; zapperX := None; zapperY := None;
     shiftReg := 0; controlReg := 0; chrBank0 := 0; chrBank1 := 0;
     prgBank := 0; lastWriteCycle := 0;
     command := 0; prgAddressSelect := 0; chrAddressSelect := 0;
     pageNumber := 0; irqCounter := 0; irqLatchValue := 0; irqEnable := 0;
     irqReloadPending := false; prgAddressChanged := false; ppuA12Prev := 0;
     lastA12Cycle := 0; lastClockScanline := 0;
     latchLo := 0; latchHi := 0; chrBank2 := 0; chrBank3 := 0 |}.

Section Methods.
Context {Ext : Type}.
Local Abbreviation NES := (NES Ext).
Context (dev : Devices Ext).

Definition romCount (s : NES) : Z :=
  match rom s with Some r => num (ROM.romCount r) | None => 0 end.

Definition vromCount (s : NES) : Z :=
  match rom s with Some r => num (ROM.vromCount r) | None => 0 end.

(** [rom.rom[bank]], [rom.vrom[bank]] and [rom.vromTile[bank]] as arrays. *)
Definition rom_bank (s : NES) (bank : Z) : Z -> option Z :=
  fun j => match rom s with Some r => ROM.prg r bank j | None => None end.

Definition vrom_bank (s : NES) (bank : Z) : Z -> option Z :=
  fun j => match rom s with Some r => ROM.chr r bank j | None => None end.

Definition vromTile_bank (s : NES) (bank : Z) : Z -> option Tile.t :=
  fun j => match rom s with
           | Some r => match ROM.vromTile r with
                       | Some banks => match cell banks bank with
                                       | Some tiles => cell tiles j
                                       | None => None
                                       end
                       | None => None
                       end
           | None => None
           end.

(** [copyArrayElements] into the [Uint8Array] [cpu.mem]. *)
Definition copy_to_mem (src : Z -> option Z) (srcPos destPos length : Z)
    (s : NES) : NES :=
  let c := cpu s in
  with_cpu s
    (c{{mem := fun j =>
                 if (destPos <=? j) && (j <? destPos + length)
                    && (0 <=? j) && (j <? 0x10000)
                 then num (src (j - destPos + srcPos)) .& 255
                 else mem c j}}).

Definition joy1Read (s : NES) : Z * NES :=
  match mmap s with
  | None => (0, s)
  | Some m =>
      let st := joy1StrobeState m in
      let ret := if (0 <=? st) && (st <=? 7) then controller_state dev 1 st s
                 else if st =? 19 then 1 else 0 in
      let st' := st + 1 in
      (ret, with_mmap s (m{{joy1StrobeState := if st' =? 24 then 0 else st'}}))
  end.

Definition joy2Read (s : NES) : Z * NES :=
  match mmap s with
  | None => (0, s)
  | Some m =>
      let st := joy2StrobeState m in
      let ret := if (0 <=? st) && (st <=? 7) then controller_state dev 2 st s
                 else if st =? 19 then 1 else 0 in
      let st' := st + 1 in
      (ret, with_mmap s (m{{joy2StrobeState := if st' =? 24 then 0 else st'}}))
  end.

(** The light gun bits of a read of $4017. *)
Definition zapperRead (s : NES) : Z * NES :=
  match mmap s with
  | None => (0, s)
  | Some m =>
      let '(w, s1) :=
        match zapperX m, zapperY m with
        | Some zx, Some zy =>
            let (white, s') := ppu_isPixelWhite dev zx zy s in
            (if white then 0 else 1 << 3, s')
        | _, _ => (1 << 3, s)
        end in
      let w' := if zapperFired m then w .| (1 << 4) else w in
      let (j, s2) := joy2Read s1 in
      ((j .| w') .& 0xffff, s2)
  end.

Definition regLoad (address : Z) (s : NES) : Z * NES :=
  match address >> 12 with
  | 2 | 3 =>
      match address .& 0x7 with
      | 0 => (mem (cpu s) 0x2000, s)
      | 1 => (mem (cpu s) 0x2001, s)
      | 2 => PPU.readStatusRegister s
      | 3 => (0, s)
      | 4 => (num (PPU.sramLoad (ppu s)), s)
      | 5 => (0, s)
      | 6 => (0, s)
      | 7 => ppu_vramLoad dev s
      | _ => (0, s)
      end
  | 4 =>
      match address - 0x4015 with
      | 0 => papu_readReg dev address s
      | 1 => joy1Read s
      | 2 => zapperRead s
      | _ => (0, s)
      end
  | _ => (0, s)
  end.

Definition load (address : Z) (s : NES) : Z * NES :=
  let address := address .& 0xffff in
  if address >? 0x4017 then (mem (cpu s) address, s)
  else if address >=? 0x2000 then regLoad address s
  else (mem (cpu s) (address .& 0x7ff), s).

Definition mem_store (address value : Z) (s : NES) : NES :=
  let c := cpu s in
  with_cpu s (c{{mem := u8_store 0x10000 (mem c) address value}}).

Definition regWrite (address value : Z) (s : NES) : NES :=
  if address =? 0x2000 then ppu_updateControlReg1 dev value (mem_store address value s)
  else if address =? 0x2001 then ppu_updateControlReg2 dev value (mem_store address value s)
  else if address =? 0x2003 then with_ppu s (PPU.writeSRAMAddress value (ppu s))
  else if address =? 0x2004 then with_ppu s (PPU.sramWrite value (ppu s))
  else if address =? 0x2005 then ppu_scrollWrite dev value s
  else if address =? 0x2006 then ppu_writeVRAMAddress dev value s
  else if address =? 0x2007 then ppu_vramWrite dev value s
  else if address =? 0x4014 then PPU.sramDMA value s
  else if address =? 0x4015 then papu_writeReg dev address value s
  else if address =? 0x4016 then
    match mmap s with
    | None => s
    | Some m =>
        let m1 := if ((value .& 1) =? 0) && ((joypadLastWrite m .& 1) =? 1)
                  then m{{joy1StrobeState := 0; joy2StrobeState := 0}} else m in
        with_mmap s (m1{{joypadLastWrite := value}})
    end
  else if address =? 0x4017 then papu_writeReg dev address value s
  else if (address >=? 0x4000) && (address <=? 0x4017)
       then papu_writeReg dev address value s
  else s.

Definition write (address value : Z) (s : NES) : NES :=
  if address <? 0x2000 then mem_store (address .& 0x7ff) value s
  else if address >? 0x4017 then
    let s1 := mem_store address value s in
    if (address >=? 0x6000) && (address <? 0x8000)
    then onBatteryRamWrite dev address value s1 else s1
  else if (address >? 0x2007) && (address <? 0x4000)
       then regWrite (0x2000 + (address .& 0x7)) value s
  else regWrite address value s.

(** The bank loaders.  [%] is the remainder of JavaScript. *)
Definition loadRomBank (bank address : Z) (s : NES) : NES :=
  let bank := Z.rem bank (romCount s) in
  copy_to_mem (rom_bank s bank) 0 address 16384 s.

Definition load32kRomBank (bank address : Z) (s : NES) : NES :=
  let s1 := loadRomBank (Z.rem (bank * 2) (romCount s)) address s in
  loadRomBank (Z.rem (bank * 2 + 1) (romCount s1)) (address + 16384) s1.

(** [load8kRomBank(bank8k, address)]; [Math.floor(bank8k / 2)] is the
    quotient of [Z.div], [%] the remainder of [Z.rem]. *)
Definition load8kRomBank (bank8k address : Z) (s : NES) : NES :=
  let bank16k := Z.rem (bank8k / 2) (romCount s) in
  let offset := Z.rem bank8k 2 * 8192 in
  copy_to_mem (rom_bank s bank16k) offset address 8192 s.

Definition loadVromBank (bank address : Z) (s : NES) : NES :=
  if vromCount s =? 0 then s
  else
    let s1 := ppu_triggerRendering dev s in
    let b := Z.rem bank (vromCount s1) in
    let p := ppu s1 in
    with_ppu s1
      (p{{vramMem := copyArrayElements (vrom_bank s1 b) 0 (vramMem p) address 4096;
          ptTile := copyArrayElements (vromTile_bank s1 b) 0 (ptTile p)
                                      (address >> 4) 256}}).

Definition load8kVromBank (bank4kStart address : Z) (s : NES) : NES :=
  if vromCount s =? 0 then s
  else
    let s1 := ppu_triggerRendering dev s in
    let s2 := loadVromBank (Z.rem bank4kStart (vromCount s1)) address s1 in
    loadVromBank (Z.rem (bank4kStart + 1) (vromCount s2)) (address + 4096) s2.

Definition loadPRGROM (s : NES) : NES :=
  if romCount s >? 1 then loadRomBank 1 0xc000 (loadRomBank 0 0x8000 s)
  else loadRomBank 0 0xc000 (loadRomBank 0 0x8000 s).

Definition loadCHRROM (s : NES) : NES :=
  if vromCount s >? 0 then
    if vromCount s =? 1 then loadVromBank 0 0x1000 (loadVromBank 0 0x0000 s)
    else loadVromBank 1 0x1000 (loadVromBank 0 0x0000 s)
  else s.

(** [loadBatteryRam()]: [rom.batteryRam] holds the header flag, a boolean
    without [length], so nothing is copied. *)
Definition loadBatteryRam (s : NES) : NES := s.

Definition rom_valid (s : NES) : bool :=
  match rom s with Some r => ROM.valid r | None => false end.

(** [loadROM()]; [inl msg] is the thrown error. *)
Definition loadROM (s : NES) : string + NES :=
  if negb (rom_valid s) || (romCount s <? 1)
  then inl "NoMapper: Invalid ROM! Unable to load."%string
  else inr (CPU.requestIrq CPU.IRQ_RESET
              (loadBatteryRam (loadCHRROM (loadPRGROM s)))).

(** [latchAccess(address) {}] and [clockIrqCounter() {}] of the base class. *)
Definition latchAccess (address : Z) (s : NES) : NES := s.
Definition clockIrqCounter (s : NES) : NES := s.

Definition bus : MapperBus Ext := {| m_load := load; m_write := write |}.

Definition hooks : MapperHooks Ext :=
  {| m_latchAccess := Some latchAccess; m_notifyA12 := None |}.

End Methods.
End Mapper.

(** ** mappers.js: [Mapper1] (MMC1) *)

Module Mapper1.

Definition constructor : mapper_state :=
  (Mapper.constructor Mapper1)
    {{shiftReg := 0x10; controlReg := 0x0C; chrBank0 := 0; chrBank1 := 0;
      prgBank := 0; lastWriteCycle := 0}}.

Section Methods.
Context {Ext : Type}.
Local Abbreviation NES := (NES Ext).
Context (dev : Devices Ext).

Definition updateMirroring (m : mapper_state) (s : NES) : NES :=
  match controlReg m .& 3 with
  | 0 => PPU.setMirroring dev ROM.SINGLESCREEN_MIRRORING s
  | 1 => PPU.setMirroring dev ROM.SINGLESCREEN_MIRRORING2 s
  | 2 => PPU.setMirroring dev ROM.VERTICAL_MIRRORING s
  | _ => PPU.setMirroring dev ROM.HORIZONTAL_MIRRORING s
  end.

Definition updatePrgBanks (m : mapper_state) (s : NES) : NES :=
  let prgMode := (controlReg m >> 2) .& 3 in
  let bank := prgBank m .& 0x0F in
  match prgMode with
  | 0 | 1 => Mapper.load32kRomBank (bank >> 1) 0x8000 s
  | 2 => Mapper.loadRomBank bank 0xC000 (Mapper.loadRomBank 0 0x8000 s)
  | _ => Mapper.loadRomBank (Mapper.romCount s - 1) 0xC000
           (Mapper.loadRomBank bank 0x8000 s)
  end.

Definition updateChrBanks (m : mapper_state) (s : NES) : NES :=
  let chrMode := (controlReg m >> 4) .& 1 in
  if Mapper.vromCount s =? 0 then s
  else if chrMode =? 0 then Mapper.load8kVromBank dev (chrBank0 m .& 0x1E) 0x0000 s
  else Mapper.loadVromBank dev (chrBank1 m) 0x1000
         (Mapper.loadVromBank dev (chrBank0 m) 0x0000 s).

(** [this.nes.cpu.cycles || 0] *)
Definition currentCycle (s : NES) : Z :=
  match cycles (cpu s) with Some c => c | None => 0 end.

(** [write(address, value)].  The bank loaders called at the end do not
    touch the mapper object. *)
Definition write (address value : Z) (s : NES) : NES :=
  if address <? 0x8000 then Mapper.write dev address value s
  else
    match mmap s with
    | None => s
    | Some m =>
        let cur := currentCycle s in
        if (cur >? 0) && (cur - lastWriteCycle m <=? 1) then s
        else
          let m1 := m{{lastWriteCycle := cur}} in
          if negb ((value .& 0x80) =? 0) then
            let m2 := m1{{shiftReg := 0x10; controlReg := controlReg m1 .| 0x0C}} in
            updatePrgBanks m2 (with_mmap s m2)
          else
            let bit := value .& 1 in
            let full := negb ((shiftReg m1 .& 1) =? 0) in
            let m2 := m1{{shiftReg := (shiftReg m1 >> 1) .| (bit << 4)}} in
            if full then
              let regValue := shiftReg m2 in
              let regType := (address >> 13) .& 3 in
              let m3 := m2{{shiftReg := 0x10}} in
              match regType with
              | 0 =>
                  let m4 := m3{{controlReg := regValue}} in
                  updatePrgBanks m4
                    (updateChrBanks m4 (updateMirroring m4 (with_mmap s m4)))
              | 1 =>
                  let m4 := m3{{chrBank0 := regValue}} in
                  updateChrBanks m4 (with_mmap s m4)
              | 2 =>
                  let m4 := m3{{chrBank1 := regValue}} in
                  updateChrBanks m4 (with_mmap s m4)
              | _ =>
                  let m4 := m3{{prgBank := regValue}} in
                  updatePrgBanks m4 (with_mmap s m4)
              end
            else with_mmap s m2
    end.

Definition bus : MapperBus Ext := {| m_load := Mapper.load dev; m_write := write |}.

(** [reset()]: the fields of the base class and of MMC1 as after the
    constructor, then the two bank updates. *)
Definition reset (s : NES) : NES :=
  match mmap s with
  | None => s
  | Some m =>
      let m1 := m{{joy1StrobeState := 0; joy2StrobeState := 0;
                   joypadLastWrite := 0; zapperFired := false;
                   zapperX := None; zapperY := None;
                   shiftReg := 0x10; controlReg := 0x0C; chrBank0 := 0;
                   chrBank1 := 0; prgBank := 0; lastWriteCycle := 0}} in
      updateChrBanks m1 (updatePrgBanks m1 (with_mmap s m1))
  end.

(** [loadROM()]; [inl msg] is the thrown error. *)
Definition loadROM (s : NES) : string + NES :=
  if negb (Mapper.rom_valid s) then inl "MMC1: Invalid ROM!"%string
  else inr (CPU.requestIrq CPU.IRQ_RESET
              (Mapper.loadBatteryRam (Mapper.loadCHRROM dev (reset s)))).

End Methods.
End Mapper1.

(** ** mappers.js: the scanline counter of [Mapper4] (MMC3) *)

Module Mapper4.

Definition constructor : mapper_state :=
  (Mapper.constructor Mapper4)
    {{irqCounter := 0; irqLatchValue := 0; irqEnable := 0;
      irqReloadPending := false; prgAddressChanged := false; ppuA12Prev := 0;
      lastA12Cycle := 0; lastClockScanline := -1}}.

Section Methods.
Context {Ext : Type}.
Local Abbreviation NES := (NES Ext).

Definition clockIrqCounter (s : NES) : NES :=
  match mmap s with
  | None => s
  | Some m =>
      if (irqCounter m =? 0) || irqReloadPending m then
        with_mmap s (m{{irqCounter := irqLatchValue m; irqReloadPending := false}})
      else
        let m1 := m{{irqCounter := irqCounter m - 1}} in
        let s1 := with_mmap s m1 in
        if (irqCounter m1 =? 0) && negb (irqEnable m1 =? 0)
        then CPU.requestIrq CPU.IRQ_NORMAL s1
        else s1
  end.

Definition set_lastClockScanline (v : Z) (s : NES) : NES :=
  match mmap s with
  | None => s
  | Some m => with_mmap s (m{{lastClockScanline := v}})
  end.

Definition set_ppuA12Prev (v : Z) (s : NES) : NES :=
  match mmap s with
  | None => s
  | Some m => with_mmap s (m{{ppuA12Prev := v}})
  end.

Definition notifyA12 (value : Z) (s : NES) : NES :=
  match mmap s with
  | None => s
  | Some m =>
      let s1 :=
        if (value =? 1) && (ppuA12Prev m =? 0) then
          let isRendering :=
            (f_bgVisibility (ppu s) =? 1) || (f_spVisibility (ppu s) =? 1) in
          if isRendering then
            let currentScanline := scanline (ppu s) in
            if negb (lastClockScanline m =? currentScanline) then
              set_lastClockScanline currentScanline (clockIrqCounter s)
            else s
          else s
        else s in
      set_ppuA12Prev value s1
  end.

(** A sequence of calls of [notifyA12], one per A12 level the PPU
    presents. *)
Definition notifyAll (values : list Z) (s : NES) : NES :=
  fold_left (fun acc v => notifyA12 v acc) values s.

Definition hooks : MapperHooks Ext :=
  {| m_latchAccess := Some Mapper.latchAccess; m_notifyA12 := Some notifyA12 |}.

End Methods.
End Mapper4.

(** ** mappers.js: the CHR latches of [Mapper9] (MMC2) and [Mapper10] (MMC4) *)

Module Mapper9.

Definition constructor : mapper_state :=
  (Mapper.constructor Mapper9)
    {{hasLatch := true; latchLo := 0; latchHi := 0; chrBank0 := 0;
      chrBank1 := 0; chrBank2 := 0; chrBank3 := 0; prgBank := 0}}.

Section Methods.
Context {Ext : Type}.
Local Abbreviation NES := (NES Ext).

(** The copies of [safeSwitchBank]: 4 KiB of CHR into [vramMem], the 256
    decoded tiles into [ptTile] when [rom.vromTile[bank]] exists, and
    [validTileData = false]. *)
Definition switch_bank (bank address : Z) (s : NES) : NES :=
  let p := ppu s in
  let tiles := Mapper.vromTile_bank s bank in
  let has_tiles :=
    match rom s with
    | Some r => match ROM.vromTile r with
                | Some banks => match cell banks bank with Some _ => true | None => false end
                | None => false
                end
    | None => false
    end in
  with_ppu s
    (p{{vramMem := copyArrayElements (Mapper.vrom_bank s bank) 0 (vramMem p) address 4096;
        ptTile := if has_tiles
                  then copyArrayElements tiles 0 (ptTile p) (address >> 4) 256
                  else ptTile p;
        validTileData := false}}).

Definition safeSwitchBank (bank address : Z) (s : NES) : NES :=
  let n := Mapper.vromCount s in
  if n =? 0 then s
  else
    let bank := if bank >=? n then Z.rem bank n else bank in
    switch_bank bank address s.

Definition latchAccess (address : Z) (s : NES) : NES :=
  match mmap s with
  | None => s
  | Some m =>
      let masked := address .& 0x1FF0 in
      if address >=? 0x2000 then s
      else if (address .& 0x1000) =? 0 then
        if masked =? 0x0FD0 then
          if negb (latchLo m =? 0)
          then safeSwitchBank (chrBank0 m) 0x0000 (with_mmap s (m{{latchLo := 0}}))
          else s
        else if masked =? 0x0FE0 then
          if negb (latchLo m =? 1)
          then safeSwitchBank (chrBank1 m) 0x0000 (with_mmap s (m{{latchLo := 1}}))
          else s
        else s
      else
        let masked := address .& 0x0FF0 in
        if masked =? 0x0FD0 then
          if negb (latchHi m =? 0)
          then safeSwitchBank (chrBank2 m) 0x1000 (with_mmap s (m{{latchHi := 0}}))
          else s
        else if masked =? 0x0FE0 then
          if negb (latchHi m =? 1)
          then safeSwitchBank (chrBank3 m) 0x1000 (with_mmap s (m{{latchHi := 1}}))
          else s
        else s
  end.

Definition hooks : MapperHooks Ext :=
  {| m_latchAccess := Some latchAccess; m_notifyA12 := None |}.

(** [loadROM()]; [inl msg] is the thrown error. *)
Definition loadROM (dev : Devices Ext) (s : NES) : string + NES :=
  if negb (Mapper.rom_valid s)
  then inl "MMC2: Invalid ROM! Unable to load."%string
  else
    let s1 := Mapper.load8kRomBank 0 0x8000 s in
    let numBanks := Mapper.romCount s1 * 2 in
    let s2 := Mapper.load8kRomBank (numBanks - 3) 0xA000 s1 in
    let s3 := Mapper.load8kRomBank (numBanks - 2) 0xC000 s2 in
    let s4 := Mapper.load8kRomBank (numBanks - 1) 0xE000 s3 in
    let s5 := match mmap s4 with
              | Some m => with_mmap s4 (m{{latchLo := 0; latchHi := 0}})
              | None => s4
              end in
    let bank0 := match mmap s5 with Some m => chrBank0 m | None => 0 end in
    let s6 := safeSwitchBank bank0 0x0000 s5 in
    let bank2 := match mmap s6 with Some m => chrBank2 m | None => 0 end in
    let s7 := safeSwitchBank bank2 0x1000 s6 in
    let s8 := PPU.setMirroring dev ROM.VERTICAL_MIRRORING s7 in
    inr (CPU.requestIrq CPU.IRQ_RESET s8).

End Methods.
End Mapper9.

Module Mapper10.

Definition constructor : mapper_state :=
  (Mapper.constructor Mapper10)
    {{hasLatch := true; latchLo := 0; latchHi := 0; chrBank0 := 0;
      chrBank1 := 0; chrBank2 := 0; chrBank3 := 0; prgBank := 0}}.

Section Methods.
Context {Ext : Type}.
Local Abbreviation NES := (NES Ext).

(** [safeSwitchBank] of MMC4 adds guards: no ROM, no [rom.vrom], no
    [rom.vrom[bank]] all return early ([bank] is always a number here). *)
Definition safeSwitchBank (bank address : Z) (s : NES) : NES :=
  match rom s with
  | None => s
  | Some r =>
      let n := Mapper.vromCount s in
      match ROM.vrom r with
      | None => s
      | Some banks =>
          if n =? 0 then s
          else
            let bank := if bank >=? n then Z.rem bank n else bank in
            match cell banks bank with
            | None => s
            | Some _ => Mapper9.switch_bank bank address s
            end
      end
  end.

Definition latchAccess (address : Z) (s : NES) : NES :=
  match mmap s with
  | None => s
  | Some m =>
      if address >=? 0x2000 then s
      else
        let masked := address .& 0x0FF0 in
        if (address .& 0x1000) =? 0 then
          if masked =? 0x0FD0 then
            if negb (latchLo m =? 0)
            then safeSwitchBank (chrBank0 m) 0x0000 (with_mmap s (m{{latchLo := 0}}))
            else s
          else if masked =? 0x0FE0 then
            if negb (latchLo m =? 1)
            then safeSwitchBank (chrBank1 m) 0x0000 (with_mmap s (m{{latchLo := 1}}))
            else s
          else s
        else
          if masked =? 0x0FD0 then
            if negb (latchHi m =? 0)
            then safeSwitchBank (chrBank2 m) 0x1000 (with_mmap s (m{{latchHi := 0}}))
            else s
          else if masked =? 0x0FE0 then
            if negb (latchHi m =? 1)
            then safeSwitchBank (chrBank3 m) 0x1000 (with_mmap s (m{{latchHi := 1}}))
            else s
          else s
  end.

Definition hooks : MapperHooks Ext :=
  {| m_latchAccess := Some latchAccess; m_notifyA12 := None |}.

(** [loadROM()]; [inl msg] is the thrown error. *)
Definition loadROM (dev : Devices Ext) (s : NES) : string + NES :=
  if negb (Mapper.rom_valid s)
  then inl "MMC4: Invalid ROM! Unable to load."%string
  else
    let s1 := Mapper.loadRomBank 0 0x8000 s in
    let s2 := Mapper.loadRomBank (Mapper.romCount s1 - 1) 0xC000 s1 in
    let s3 := match mmap s2 with
              | Some m => with_mmap s2 (m{{latchLo := 0; latchHi := 0}})
              | None => s2
              end in
    let bank0 := match mmap s3 with Some m => chrBank0 m | None => 0 end in
    let s4 := safeSwitchBank bank0 0x0000 s3 in
    let bank2 := match mmap s4 with Some m => chrBank2 m | None => 0 end in
    let s5 := safeSwitchBank bank2 0x1000 s4 in
    let s6 := PPU.setMirroring dev ROM.VERTICAL_MIRRORING s5 in
    inr (CPU.requestIrq CPU.IRQ_RESET s6).

End Methods.
End Mapper10.

(** ** The machine assembled *)

Module Console.

(** [ROM.createMapper()]: [new Mappers[mapperType](nes)] for the classes
    embedded here; [None] for every other mapper number. *)
Definition createMapper (r : ROM.t) : option mapper_state :=
  match ROM.mapperType r with
  | Some 0 => Some (Mapper.constructor Mapper0)
  | Some 1 => Some Mapper1.constructor
  | Some 4 => Some Mapper4.constructor
  | Some 9 => Some Mapper9.constructor
  | Some 10 => Some Mapper10.constructor
  | _ => None
  end.

(** The state [PPU.reset()] leaves in the fields of [ppu_state]: arrays
    made with [fill(0)] hold 0, those made with [new Array(n)] are unset
    ([ntable1] among them, until [setMirroring] fills it), [curNt] is
    [null], 512 fresh tiles, four empty name tables, the identity in
    [vramMirrorTable]; the palette entries are those [updateControlReg2(0)]
    reads for colour 0 of the NTSC table. *)
Definition PPU_reset : ppu_state :=
  let filled (n : Z) : Z -> option Z :=
    fun i => if (0 <=? i) && (i <? n) then Some 0 else None in
  let unset {A : Type} : Z -> option A := fun _ => None in
  {| vramMem := filled 0x8000; spriteMem := filled 0x100;
     firstWrite := true; sramAddress := 0; requestEndFrame := false;
     nmiCounter := 0; validTileData := false;
     f_nmiOnVblank := 0; f_spriteSize := 0; f_bgPatternTable := 0;
     f_spPatternTable := 0; f_addrInc := 0; f_nTblAddress := 0;
     f_color := 0; f_spVisibility := 0; f_bgVisibility := 0;
     f_spClipping := 0; f_bgClipping := 0; f_dispType := 0;
     cntFV := 0; cntV := 0; cntH := 0; cntVT := 0; cntHT := 0;
     regFV := 0; regV := 0; regH := 0; regVT := 0; regHT := 0; regFH := 0;
     regS := 0; curNt := None;
     attrib := unset; buffer := unset; bgbuffer := unset;
     pixrendered := unset; scantile := unset;
     scanline := 0; lastRenderedScanline := -1;
     sprX := unset; sprY := unset; sprTile := unset; sprCol := unset;
     vertFlip := fun _ => false; horiFlip := fun _ => false;
     bgPriority := fun _ => false;
     spr0HitX := 0; spr0HitY := 0; hitSpr0 := false;
     imgPalette := fun i => if (0 <=? i) && (i <? 16) then Some 0x525252 else None;
     ptTile := fun i => if (0 <=? i) && (i <? 512) then Some Tile.new else None;
     ntable1 := unset;
     nameTable := fun i => if (0 <=? i) && (i <? 4)
                           then Some (mkNameTable (fun _ => 0) (fun _ => 0))
                           else None;
     currentMirroring := -1;
     vramMirrorTable := fun i => if (0 <=? i) && (i <? 0x8000) then Some i else None |}.

Section Machine.
Context {Ext : Type}.
Local Abbreviation NES := (NES Ext).
Context (dev : Devices Ext).

(** The method tables of a mapper object, by its class. *)
Definition hooks_of (cls : mapper_class) : MapperHooks Ext :=
  match cls with
  | Mapper4 => Mapper4.hooks
  | Mapper9 => Mapper9.hooks
  | Mapper10 => Mapper10.hooks
  | _ => Mapper.hooks
  end.

(** [new NES()]: a reset CPU and PPU, no cartridge. *)
Definition new (e : Ext) : NES :=
  {| cpu := CPU.reset; ppu := PPU_reset; mmap := None; rom := None;
     crashMessage := None; ext := e |}.

(** One [cpu.emulate()] of a machine with a cartridge of class [Mapper]
    (mapper 0). *)
Definition step : NES -> Z * NES := CPU.emulate (Mapper.bus dev) dev.

Definition run (n : nat) : NES -> list Z * NES := CPU.run (Mapper.bus dev) dev n.

End Machine.

(** Devices that do nothing, for the examples that run a machine: no
    APU, no controller, no renderer behind the registers. *)
Definition quiet : Devices unit :=
  {| papu_readReg := fun _ s => (0, s);
     papu_writeReg := fun _ _ s => s;
     controller_state := fun _ _ _ => 0x40;
     onBatteryRamWrite := fun _ _ s => s;
     nes_stop := fun s => s;
     ppu_endFrame := fun s => s;
     ppu_updateControlReg1 := fun _ s => s;
     ppu_updateControlReg2 := fun _ s => s;
     ppu_scrollWrite := fun _ s => s;
     ppu_writeVRAMAddress := fun _ s => s;
     ppu_vramLoad := fun s => (0, s);
     ppu_vramWrite := fun _ s => s;
     ppu_isPixelWhite := fun _ _ s => (false, s);
     ppu_triggerRendering := fun s => s;
     ppu_renderFramePartially := fun _ _ s => s |}.

(** A 16 KiB PRG bank holding [code] at offset [at_] (CPU address
    [0x8000 + at_], mirrored at [0xC000 + at_]), NOPs elsewhere, and the
    three vectors [nmi], [reset], [irq] in its last six bytes. *)
Definition prg_bank (at_ : Z) (code : list Z) (nmi reset irq : Z)
    : list (option Z) :=
  map (fun j =>
         Some (if (at_ <=? j) && (j <? at_ + Z.of_nat (List.length code))
               then nth (Z.to_nat (j - at_)) code 0xEA
               else if j =? 0x3ffa then nmi .& 0xff
               else if j =? 0x3ffb then nmi >> 8
               else if j =? 0x3ffc then reset .& 0xff
               else if j =? 0x3ffd then reset >> 8
               else if j =? 0x3ffe then irq .& 0xff
               else if j =? 0x3fff then irq >> 8
               else 0xEA))
      (zrange 0 (Z.to_nat 16384)).

(** The [ROM] object of an image with that single PRG bank, no CHR, and
    mapper number [mapper] in a clean header. *)
Definition cartridge (mapper : Z) (bank : list (option Z)) : ROM.t :=
  {| ROM.header := Some [78; 69; 83; 26; 1; 0; (mapper .& 0xf) << 4;
                         mapper .& 0xf0; 0; 0; 0; 0; 0; 0; 0; 0];
     ROM.rom := Some [bank]; ROM.vrom := Some []; ROM.vromTile := Some [];
     ROM.romCount := Some 1; ROM.vromCount := Some 0;
     ROM.mirroring := Some 0; ROM.batteryRam := Some false;
     ROM.trainer := Some false; ROM.fourScreen := Some false;
     ROM.mapperType := Some mapper; ROM.valid := true |}.

(** Modelled from the spec: nes.js is not among the sources.  Loading a
    ROM into a new machine creates the mapper object of the ROM's class and
    runs its [loadROM()], which copies the PRG banks into CPU memory and
    requests the reset interrupt.  Cartridges of the classes [Mapper]
    (mapper 0), [Mapper1], [Mapper9] and [Mapper10] are inserted here. *)
Definition insert (r : ROM.t) : option (NES unit) :=
  match createMapper r with
  | None => None
  | Some m =>
      let s := (new tt){{rom := Some r; mmap := Some m}} in
      let loaded :=
        match mclass m with
        | Mapper0 => Some (Mapper.loadROM quiet s)
        | Mapper1 => Some (Mapper1.loadROM quiet s)
        | Mapper9 => Some (Mapper9.loadROM quiet s)
        | Mapper10 => Some (Mapper10.loadROM quiet s)
        | Mapper4 => None
        end in
      match loaded with
      | Some (inr s') => Some s'
      | _ => None
      end
  end.

End Console.

(** ** Concrete inputs used by the examples below *)

Module Examples.

Definition string_of_bytes (l : list Z) : string :=
  string_of_list_ascii (map (fun b => ascii_of_N (Z.to_N b)) l).

(** An iNES header and nothing else: the magic, one PRG bank and no CHR
    declared, mapper 0; the 16384 PRG bytes are missing. *)
Definition header_only : string :=
  string_of_bytes [78; 69; 83; 26; 1; 0; 0; 0; 0; 0; 0; 0; 0; 0; 0; 0].

(** The same bytes behind one stray byte: the magic is at offset 1. *)
Definition shifted_header : string :=
  string_of_bytes [0; 78; 69; 83; 26; 1; 0; 0; 0; 0; 0; 0; 0; 0; 0; 0; 0].

(** Three bytes: no magic at all. *)
Definition no_magic : string := string_of_bytes [78; 69; 83].

(** *** MMC1 *)

(** A machine with a new MMC1 object. *)
Definition mmc1_machine : NES unit := with_mmap (Console.new tt) Mapper1.constructor.

(** *** CPU programs *)

(** A mapper 0 cartridge with [code] at CPU address [0x8000 + at_], where
    the reset vector points; [after n] runs [n] calls of [emulate()]. *)
Definition boot (at_ : Z) (code : list Z) : option (NES unit) :=
  Console.insert
    (Console.cartridge 0 (Console.prg_bank at_ code 0x8000 (0x8000 + at_) 0x8000)).

Definition after (n : nat) (o : option (NES unit)) : option (list Z * NES unit) :=
  option_map (Console.run Console.quiet n) o.

(** *** Sprite DMA after a write to $2003 *)

(** [LDA #$01; STA $2003; LDA #$00; STA $4014]: the sprite-memory address
    is set to 1, then page 0, which holds 0xFF after reset, is copied.
    [oam_addr_1] is the machine that is about to execute the last
    instruction, [oam_dma_page0] the machine its write to $4014 leaves. *)
Definition oam_program : option (NES unit) :=
  boot 0 [0xA9; 0x01; 0x8D; 0x03; 0x20; 0xA9; 0x00; 0x8D; 0x14; 0x40].

Definition oam_addr_1 : NES unit :=
  match after 3 oam_program with
  | Some r => snd r
  | None => Console.new tt
  end.

Definition oam_dma_page0 : NES unit :=
  CPU.write (Mapper.bus Console.quiet) 0x4014 0 oam_addr_1.

(** *** Two writes to MMC1 *)




(** [LDA #$80; BMI +$20] at $80EF: the branch at $80F1 is taken to $8113,
    in the next page. *)
Definition bmi_across_page : option (NES unit) := boot 0xEF [0xA9; 0x80; 0x30; 0x20].

(** [LDA #$00; BPL +$20] at the same addresses. *)
Definition bpl_across_page : option (NES unit) := boot 0xEF [0xA9; 0x00; 0x10; 0x20].

(** [LDA #$80; BMI +$10] at $8000: the branch at $8002 is taken to $8014,
    in the same page. *)
Definition bmi_same_page : option (NES unit) := boot 0 [0xA9; 0x80; 0x30; 0x10].

(** [LDA #$34; STA $FF; LDA #$12; STA $00; JMP ($08FF)]: the pointer lies
    at the end of page $08, a mirror of the RAM page $00. *)
Definition jmp_through_08FF : option (NES unit) :=
  boot 0 [0xA9; 0x34; 0x85; 0xFF; 0xA9; 0x12; 0x85; 0x00; 0x6C; 0xFF; 0x08].

(** The same program with [JMP ($00FF)]. *)
Definition jmp_through_00FF : option (NES unit) :=
  boot 0 [0xA9; 0x34; 0x85; 0xFF; 0xA9; 0x12; 0x85; 0x00; 0x6C; 0xFF; 0x00].

(** The machine that is about to execute the [JMP ($00FF)]. *)
Definition before_jmp_00FF : NES unit :=
  match after 4 jmp_through_00FF with
  | Some r => snd r
  | None => Console.new tt
  end.

(** [LDA #$08; STA $00; LDA #$FF; PHA; PHA; LDA #$00; PHA; RTI]: the RTI
    pulls the status byte $00 and the return address $FFFF; the byte $08
    left at $0000 is the opcode of PHP. *)
Definition rti_to_FFFF : option (NES unit) :=
  boot 0 [0xA9; 0x08; 0x85; 0x00; 0xA9; 0xFF; 0x48; 0x48; 0xA9; 0x00; 0x48; 0x40].

(** [LDA #$00; PHA; PLP]: the PLP pulls a status byte with bit 4 clear.
    [vblank_after_plp] is the machine after these three instructions and a
    [startVBlank()] of the PPU; nothing was written to $2000. *)
Definition plp_clears_brk : option (NES unit) := boot 0 [0xA9; 0x00; 0x48; 0x28].

Definition vblank_after_plp : option (NES unit) :=
  option_map (fun r => PPU.startVBlank Console.quiet (snd r)) (after 3 plp_clears_brk).

(** *** Background rendering with a latch mapper *)

(** A new machine holding the mapper object [m] and a ROM whose header
    gives the mapper number [mapper]. *)
Definition latch_machine (mapper : Z) (m : mapper_state) : NES unit :=
  (Console.new tt){{rom := Some (Console.cartridge mapper []); mmap := Some m}}.

Definition mmc2_machine : NES unit := latch_machine 9 Mapper9.constructor.
Definition mmc4_machine : NES unit := latch_machine 10 Mapper10.constructor.

(** The [ROM] object of an image with two PRG banks filled with NOP
    ($EA), no CHR, and mapper number [mapper] in a clean header;
    [mmc2_loaded] and [mmc4_loaded] are the machines after such a cartridge
    of mapper 9 and of mapper 10 was loaded. *)
Definition latch_cartridge (mapper : Z) : ROM.t :=
  let bank := repeat (Some 0xEA) (Z.to_nat 16384) in
  {| ROM.header := Some [78; 69; 83; 26; 2; 0; (mapper .& 0xf) << 4;
                         mapper .& 0xf0; 0; 0; 0; 0; 0; 0; 0; 0];
     ROM.rom := Some [bank; bank]; ROM.vrom := Some []; ROM.vromTile := Some [];
     ROM.romCount := Some 2; ROM.vromCount := Some 0;
     ROM.mirroring := Some 0; ROM.batteryRam := Some false;
     ROM.trainer := Some false; ROM.fourScreen := Some false;
     ROM.mapperType := Some mapper; ROM.valid := true |}.

Definition mmc2_loaded : option (NES unit) := Console.insert (latch_cartridge 9).
Definition mmc4_loaded : option (NES unit) := Console.insert (latch_cartridge 10).

(** [renderBgScanline(false, 0)], the call [endScanline()] makes on
    scanline 20 when the background is visible, on a loaded machine whose
    mapper object is of class [cls]. *)
Definition render_line0 (cls : mapper_class) (o : option (NES unit))
    : option (NES unit) :=
  match o with
  | Some s => PPU.renderBgScanline (Console.hooks_of cls) false 0 s
  | None => None
  end.

End Examples.


(** ** cpu.js: the status byte of the save state *)

Module Status.

(** [getStatus()]: the flag fields packed as they are stored, [F_ZERO]
    included. *)
Definition getStatus (c : cpu_state) : Z :=
  F_CARRY c
  .| (F_ZERO c << 1)
  .| (F_INTERRUPT c << 2)
  .| (F_DECIMAL c << 3)
  .| (F_BRK c << 4)
  .| (F_NOTUSED c << 5)
  .| (F_OVERFLOW c << 6)
  .| (F_SIGN c << 7).

End Status.

(** ** ppu.js: the VRAM address registers *)

Module VRAMAddress.

(** [vramAddress] and [vramTmpAddress] are not among the fields of
    [ppu_state]: the two packing functions return the address they store,
    and the two unpacking functions take the address they read. *)

(** [regsFromAddress()] *)
Definition regsFromAddress (vramTmpAddress : Z) (p : ppu_state) : ppu_state :=
  let address := (vramTmpAddress >> 8) .& 0xff in
  let p1 := p{{regFV := (address >> 4) .& 7;
               regV := (address >> 3) .& 1;
               regH := (address >> 2) .& 1;
               regVT := (regVT p .& 7) .| ((address .& 3) << 3)}} in
  let address := vramTmpAddress .& 0xff in
  let p2 := p1{{regVT := (regVT p1 .& 24) .| ((address >> 5) .& 7)}} in
  p2{{regHT := address .& 31}}.

(** [cntsFromAddress()] *)
Definition cntsFromAddress (vramAddress : Z) (p : ppu_state) : ppu_state :=
  let address := (vramAddress >> 8) .& 0xff in
  let p1 := p{{cntFV := (address >> 4) .& 3;
               cntV := (address >> 3) .& 1;
               cntH := (address >> 2) .& 1;
               cntVT := (cntVT p .& 7) .| ((address .& 3) << 3)}} in
  let address := vramAddress .& 0xff in
  let p2 := p1{{cntVT := (cntVT p1 .& 24) .| ((address >> 5) .& 7)}} in
  p2{{cntHT := address .& 31}}.

(** [regsToAddress()]: the new [vramTmpAddress]. *)
Definition regsToAddress (p : ppu_state) : Z :=
  let b1 := (regFV p .& 7) << 4 in
  let b1 := b1 .| ((regV p .& 1) << 3) in
  let b1 := b1 .| ((regH p .& 1) << 2) in
  let b1 := b1 .| ((regVT p >> 3) .& 3) in
  let b2 := (regVT p .& 7) << 5 in
  let b2 := b2 .| (regHT p .& 31) in
  ((b1 << 8) .| b2) .& 0x7fff.

(** [cntsToAddress()]: the new [vramAddress]. *)
Definition cntsToAddress (p : ppu_state) : Z :=
  let b1 := (cntFV p .& 7) << 4 in
  let b1 := b1 .| ((cntV p .& 1) << 3) in
  let b1 := b1 .| ((cntH p .& 1) << 2) in
  let b1 := b1 .| ((cntVT p >> 3) .& 3) in
  let b2 := (cntVT p .& 7) << 5 in
  let b2 := b2 .| (cntHT p .& 31) in
  ((b1 << 8) .| b2) .& 0x7fff.

End VRAMAddress.

(** ** Further concrete inputs *)

Module Cases.

(** [NOP] followed by the byte $02, which is no entry of the opcode
    table; the machine after the NOP. *)
Definition before_invalid_opcode : NES unit :=
  match Examples.after 1 (Examples.boot 0 [0xEA; 0x02]) with
  | Some r => snd r
  | None => Console.new tt
  end.

(** [LDA #$00; BPL +$20] at $80EF; the machine after the LDA, about to
    execute the branch at $80F1. *)
Definition before_bpl_across_page : NES unit :=
  match Examples.after 1 Examples.bpl_across_page with
  | Some r => snd r
  | None => Console.new tt
  end.

(** [n] CPU reads of the address [addr] in a row, with the values
    read. *)
Fixpoint reads {Ext : Type} (mm : MapperBus Ext) (addr : Z) (n : nat)
    (s : NES Ext) : list Z * NES Ext :=
  match n with
  | O => ([], s)
  | S k => let (v, s1) := CPU.load mm addr s in
           let (l, s2) := reads mm addr k s1 in (v :: l, s2)
  end.

(** A new machine with a cartridge in place, before [loadROM()]: the
    [ROM] object of a clean one-bank image and the mapper object of its
    class, [Mapper] for mapper 0 and [Mapper1] for mapper 1. *)
Definition nrom_machine : NES unit :=
  Examples.latch_machine 0 (Mapper.constructor Mapper0).

(** The same machine with a cartridge whose single PRG bank is [bank]. *)
Definition nrom_with (bank : list (option Z)) : NES unit :=
  (Console.new tt){{rom := Some (Console.cartridge 0 bank);
                    mmap := Some (Mapper.constructor Mapper0)}}.

Definition mmc1_cartridge : NES unit :=
  Examples.latch_machine 1 Mapper1.constructor.

End Cases.

(* ================================================================== *)
(** * Properties *)

(** ** Arrays *)

Lemma upd_same {A : Type} (a : Z -> A) (i : Z) (v : A) : upd a i v i = v.
Proof. unfold upd. rewrite Z.eqb_refl. reflexivity. Qed.

Lemma upd_other {A : Type} (a : Z -> A) (i j : Z) (v : A) :
  j <> i -> upd a i v j = a j.
Proof.
  intros H. unfold upd. destruct (Z.eqb_spec j i); [contradiction | reflexivity].
Qed.

Lemma u8_store_same (size : Z) (a : Z -> Z) (i v : Z) :
  0 <= i < size -> u8_store size a i v i = v .& 255.
Proof.
  intros H. unfold u8_store.
  destruct (Z.leb_spec 0 i); [|lia]. destruct (Z.ltb_spec i size); [|lia].
  apply upd_same.
Qed.

Lemma u8_store_other (size : Z) (a : Z -> Z) (i j v : Z) :
  j <> i -> u8_store size a i v j = a j.
Proof.
  intros H. unfold u8_store.
  destruct ((0 <=? i) && (i <? size)); [apply upd_other; assumption | reflexivity].
Qed.

(** ** Reading a field of an updated machine *)

Section Fields.
Context {Ext : Type}.
Implicit Types (s : NES Ext) (c : cpu_state) (p : ppu_state) (m : mapper_state).

Lemma cpu_with_cpu s c : cpu (with_cpu s c) = c.
Proof. reflexivity. Qed.
Lemma ppu_with_cpu s c : ppu (with_cpu s c) = ppu s.
Proof. reflexivity. Qed.
Lemma mmap_with_cpu s c : mmap (with_cpu s c) = mmap s.
Proof. reflexivity. Qed.
Lemma rom_with_cpu s c : rom (with_cpu s c) = rom s.
Proof. reflexivity. Qed.
Lemma cpu_with_ppu s p : cpu (with_ppu s p) = cpu s.
Proof. reflexivity. Qed.
Lemma ppu_with_ppu s p : ppu (with_ppu s p) = p.
Proof. reflexivity. Qed.
Lemma mmap_with_ppu s p : mmap (with_ppu s p) = mmap s.
Proof. reflexivity. Qed.
Lemma rom_with_ppu s p : rom (with_ppu s p) = rom s.
Proof. reflexivity. Qed.
Lemma cpu_with_mmap s m : cpu (with_mmap s m) = cpu s.
Proof. reflexivity. Qed.
Lemma ppu_with_mmap s m : ppu (with_mmap s m) = ppu s.
Proof. reflexivity. Qed.
Lemma mmap_with_mmap s m : mmap (with_mmap s m) = Some m.
Proof. reflexivity. Qed.
Lemma rom_with_mmap s m : rom (with_mmap s m) = rom s.
Proof. reflexivity. Qed.

End Fields.

(** Pushes the field reads through [with_cpu], [with_ppu], [with_mmap]. *)
Ltac fields :=
  repeat rewrite ?cpu_with_cpu, ?ppu_with_cpu, ?mmap_with_cpu, ?rom_with_cpu,
    ?cpu_with_ppu, ?ppu_with_ppu, ?mmap_with_ppu, ?rom_with_ppu,
    ?cpu_with_mmap, ?ppu_with_mmap, ?mmap_with_mmap, ?rom_with_mmap.

(** [CPU.requestIrq] only writes to the CPU object. *)
Lemma requestIrq_frame {Ext} (type : Z) (s : NES Ext) :
  ppu (CPU.requestIrq type s) = ppu s
  /\ mmap (CPU.requestIrq type s) = mmap s
  /\ mem (cpu (CPU.requestIrq type s)) = mem (cpu s).
Proof.
  unfold CPU.requestIrq.
  destruct (irqRequested (cpu s) && (type =? CPU.IRQ_NORMAL)); repeat split.
Qed.

Lemma requestIrq_with_mmap {Ext} (type : Z) (s : NES Ext) (m : mapper_state) :
  CPU.requestIrq type (with_mmap s m) = with_mmap (CPU.requestIrq type s) m.
Proof.
  unfold CPU.requestIrq. fields.
  destruct (irqRequested (cpu s) && (type =? CPU.IRQ_NORMAL)); reflexivity.
Qed.

(** ** Bytes *)

(** A boolean property checked on the numbers below [n] holds of each of
    them; in particular of every byte. *)
Lemma range_cases (n : nat) (P : Z -> bool) :
  forallb P (zrange 0 n) = true -> forall x, 0 <= x < Z.of_nat n -> P x = true.
Proof.
  intros H x Hx. rewrite forallb_forall in H. apply H.
  unfold zrange. apply in_map_iff. exists (Z.to_nat x).
  split; [cbv beta; lia | apply in_seq; lia].
Qed.

Lemma byte_cases (P : Z -> bool) :
  forallb P (zrange 0 256) = true -> forall x, 0 <= x <= 255 -> P x = true.
Proof. intros H x Hx. apply (range_cases 256 P H). lia. Qed.

Lemma land_255_range (x : Z) : 0 <= x .& 255 <= 255.
Proof.
  assert (H : x .& 255 = x mod 256)
    by (change 255 with (Z.ones 8); rewrite Z.land_ones by lia; reflexivity).
  rewrite H. pose proof (Z.mod_pos_bound x 256 eq_refl). lia.
Qed.

Lemma land_255_idem (x : Z) : (x .& 255) .& 255 = x .& 255.
Proof. rewrite <- Z.land_assoc. reflexivity. Qed.

Lemma stack_address (sp : Z) : 0 <= sp <= 255 -> sp .| 0x100 = 0x100 + sp.
Proof.
  intros H. apply Z.eqb_eq.
  apply (byte_cases (fun x => (x .| 0x100) =? 0x100 + x)); [reflexivity | exact H].
Qed.

Lemma stack_address_masked (sp : Z) :
  0 <= sp <= 255 -> (0x100 + sp) .& 0x7ff = 0x100 + sp.
Proof.
  intros H. change 0x7ff with (Z.ones 11). rewrite Z.land_ones by lia.
  apply Z.mod_small. lia.
Qed.

(** The stack pointer after one, two and three pushes. *)
Lemma stack_down (sp : Z) :
  0 <= sp <= 255 ->
  ((sp - 1) .& 255 - 1) .& 255 = (sp - 2) .& 255
  /\ ((sp - 2) .& 255 - 1) .& 255 = (sp - 3) .& 255
  /\ (sp - 1) .& 255 <> sp
  /\ (sp - 2) .& 255 <> sp
  /\ (sp - 2) .& 255 <> (sp - 1) .& 255.
Proof.
  intros H.
  pose proof (byte_cases
    (fun x => (((x - 1) .& 255 - 1) .& 255 =? (x - 2) .& 255)
              && (((x - 2) .& 255 - 1) .& 255 =? (x - 3) .& 255)
              && negb ((x - 1) .& 255 =? x)
              && negb ((x - 2) .& 255 =? x)
              && negb ((x - 2) .& 255 =? (x - 1) .& 255))
    ltac:(vm_compute; reflexivity) sp H) as Hb.
  cbv beta in Hb.
  repeat (apply andb_true_iff in Hb; destruct Hb as [Hb ?]).
  repeat match goal with
         | H : negb _ = true |- _ => apply negb_true_iff, Z.eqb_neq in H
         | H : (_ =? _) = true |- _ => apply Z.eqb_eq in H
         end.
  repeat split; assumption.
Qed.

Section BaseLoads.
Context {Ext : Type} (dev : Devices Ext).
Implicit Types (s : NES Ext).

(** Reads of the mapper base class outside the register window. *)
Lemma load_ram (a : Z) s :
  0 <= a < 0x2000 -> Mapper.load dev a s = (mem (cpu s) (a .& 0x7ff), s).
Proof.
  intros Ha. unfold Mapper.load.
  assert (Hm : a .& 0xffff = a).
  { change 0xffff with (Z.ones 16). rewrite Z.land_ones by lia.
    apply Z.mod_small. lia. }
  rewrite Hm. rewrite Z.gtb_ltb.
  replace (16407 <? a) with false by (symmetry; apply Z.ltb_ge; lia).
  replace (a >=? 8192) with false; [reflexivity|].
  symmetry. rewrite Z.geb_leb. apply Z.leb_gt. lia.
Qed.

Lemma load_high (a : Z) s :
  0x4017 < a <= 0xffff -> Mapper.load dev a s = (mem (cpu s) a, s).
Proof.
  intros Ha. unfold Mapper.load.
  assert (Hm : a .& 0xffff = a).
  { change 0xffff with (Z.ones 16). rewrite Z.land_ones by lia.
    apply Z.mod_small. lia. }
  rewrite Hm. rewrite Z.gtb_ltb.
  replace (16407 <? a) with true by (symmetry; apply Z.ltb_lt; lia).
  reflexivity.
Qed.

(** Where the CPU reads a cell of [cpu.mem] at its own address: the RAM
    pages $00-$07 and, through the mapper base class, the pages $41-$FF. *)
Lemma cpu_reads_the_cell (v i : Z) s :
  0 <= v <= 7 \/ 0x41 <= v <= 255 -> 0 <= i < 256 ->
  CPU.load (Mapper.bus dev) (v * 256 + i) s = (mem (cpu s) (v * 256 + i), s).
Proof.
  intros [Hv | Hv] Hi; unfold CPU.load.
  - replace (v * 256 + i <? 8192) with true by (symmetry; apply Z.ltb_lt; lia).
    replace ((v * 256 + i) .& 2047) with (v * 256 + i); [reflexivity|].
    symmetry. change 2047 with (Z.ones 11). rewrite Z.land_ones by lia.
    apply Z.mod_small. lia.
  - replace (v * 256 + i <? 8192) with false by (symmetry; apply Z.ltb_ge; lia).
    change (m_load (Mapper.bus dev)) with (Mapper.load dev).
    apply load_high. lia.
Qed.

End BaseLoads.

(** ** The iNES parser *)

(** Cell [k] of a bank read from [offset + j]: the image byte when the
    image reaches that far, unset otherwise. *)
Lemma read_bank_nth data len offset n : forall j k, (k < n)%nat ->
  nth_error (ROM.read_bank data len offset j n) k =
  Some (if (len <=? offset + j + k)%nat then None
        else Some (ROM.byteAt data (offset + j + k))).
Proof.
  induction n as [|n IH]; intros j k Hk; [lia|].
  cbn [ROM.read_bank].
  destruct (Nat.leb_spec len (offset + j)) as [Hle|Hgt].
  - rewrite nth_error_repeat by lia.
    destruct (Nat.leb_spec len (offset + j + k)); [reflexivity|lia].
  - destruct k as [|k].
    + cbn. rewrite Nat.add_0_r.
      destruct (Nat.leb_spec len (offset + j)); [lia|reflexivity].
    + cbn [nth_error]. rewrite IH by lia.
      replace (offset + S j + k)%nat with (offset + j + S k)%nat by lia.
      reflexivity.
Qed.

Lemma read_bank_length data len offset n : forall j,
  List.length (ROM.read_bank data len offset j n) = n.
Proof.
  induction n as [|n IH]; intros j; [reflexivity|].
  cbn [ROM.read_bank]. destruct (len <=? offset + j)%nat.
  - apply repeat_length.
  - cbn. now rewrite IH.
Qed.

Lemma read_banks_snd data len size count : forall offset,
  snd (ROM.read_banks data len size offset count) = (offset + count * size)%nat.
Proof.
  induction count as [|c IH]; intros offset; cbn [ROM.read_banks].
  - cbn. lia.
  - specialize (IH (offset + size)%nat).
    destruct (ROM.read_banks data len size (offset + size) c) as [rest off'].
    cbn in *. lia.
Qed.

Lemma read_banks_nth data len size count : forall offset i, (i < count)%nat ->
  nth_error (fst (ROM.read_banks data len size offset count)) i =
  Some (ROM.read_bank data len (offset + i * size) 0 size).
Proof.
  induction count as [|c IH]; intros offset i Hi; [lia|].
  cbn [ROM.read_banks].
  specialize (IH (offset + size)%nat).
  destruct (ROM.read_banks data len size (offset + size) c) as [rest off'].
  destruct i as [|i]; cbn.
  - now rewrite Nat.add_0_r.
  - cbn in IH. rewrite IH by lia. f_equal. f_equal. lia.
Qed.

Lemma prefix_index s data : String.prefix s data = true -> s <> EmptyString -> String.index 0 s data = Some 0%nat.
Proof.
  intros H Hs. destruct data as [|c d].
  - destruct s; [congruence|discriminate].
  - cbn [String.index]. now rewrite H.
Qed.

Lemma bank_cell data len offset size (j : Z) :
  0 <= j < Z.of_nat size ->
  cellO (ROM.read_bank data len offset 0 size) j =
  if (len <=? offset + Z.to_nat j)%nat then None
  else Some (ROM.byteAt data (offset + Z.to_nat j)).
Proof.
  intros Hj. unfold cellO, cell.
  destruct (Z.ltb_spec j 0); [lia|].
  rewrite read_bank_nth by lia. rewrite Nat.add_0_r.
  now destruct (len <=? offset + Z.to_nat j)%nat.
Qed.

Lemma banks_cell data len size count offset (i j : Z) :
  len = String.length data ->
  0 <= i < Z.of_nat count -> 0 <= j < Z.of_nat size ->
  match cell (fst (ROM.read_banks data len size offset count)) i with
  | Some b => cellO b j | None => None end =
  ROM.image_byte data (Z.of_nat offset + Z.of_nat size * i + j).
Proof.
  intros -> Hi Hj. unfold cell at 1.
  destruct (Z.ltb_spec i 0); [lia|].
  rewrite read_banks_nth by lia. rewrite bank_cell by lia.
  unfold ROM.image_byte.
  rewrite <- (Z2Nat.id i), <- (Z2Nat.id j) by lia.
  rewrite !Nat2Z.id.
  generalize (Z.to_nat i) (Z.to_nat j); intros i' j'.
  replace (Z.of_nat offset + Z.of_nat size * Z.of_nat i' + Z.of_nat j')
    with (Z.of_nat (offset + i' * size + j')).
  2:{ rewrite !Nat2Z.inj_add, Nat2Z.inj_mul. ring. }
  rewrite Nat2Z.id.
  destruct (Nat.leb_spec (String.length data) (offset + i' * size + j'));
    destruct (Z.leb_spec (Z.of_nat (String.length data)) (Z.of_nat (offset + i' * size + j')));
    try reflexivity; lia.
Qed.

Lemma byteAt_range data i : 0 <= ROM.byteAt data i <= 255.
Proof.
  unfold ROM.byteAt.
  replace (num (ROM.charCodeAt data i) .& 255)
    with (num (ROM.charCodeAt data i) mod 2 ^ 8)
    by (symmetry; apply (Z.land_ones _ 8); lia).
  pose proof (Z.mod_pos_bound (num (ROM.charCodeAt data i)) (2 ^ 8) ltac:(lia)). lia.
Qed.

(** C9 (amended): [ROM.load] fails, leaving the object untouched, when
    the magic "NES\x1a" occurs nowhere in the input.  An input that
    begins with the magic is accepted whatever its length: [valid] is set,
    the bank counts are those of the header (CHR doubled), and cell [j] of
    PRG bank [i] (CHR bank [i]) is byte [16 + 16384 i + j]
    ([16 + 16384 romCount + 4096 i + j]) of the image when the image is
    that long and is left unset when it is shorter. *)
Theorem C9_load_accepts_truncated_images (data : string) (r0 : ROM.t) :
  match String.index 0 ROM.magic data with
  | None => ROM.load data r0 = inl "Not a valid NES ROM."%string
  | Some _ =>
      String.prefix ROM.magic data = true ->
      exists r, ROM.load data r0 = inr r
        /\ ROM.valid r = true
        /\ ROM.romCount r = Some (ROM.byteAt data 4)
        /\ ROM.vromCount r = Some (ROM.byteAt data 5 * 2)
        /\ (forall i j, 0 <= i < ROM.byteAt data 4 -> 0 <= j < 16384 ->
              ROM.prg r i j = ROM.image_byte data (16 + 16384 * i + j))
        /\ (forall i j, 0 <= i < ROM.byteAt data 5 * 2 -> 0 <= j < 4096 ->
              ROM.chr r i j =
              ROM.image_byte data (16 + 16384 * ROM.byteAt data 4 + 4096 * i + j))
  end.
Proof.
  unfold ROM.load.
  destruct (String.index 0 ROM.magic data) as [n|] eqn:Hidx; [|reflexivity].
  intros _.
  change (nth 4 (map (ROM.byteAt data) (seq 0 16)) 0) with (ROM.byteAt data 4).
  change (nth 5 (map (ROM.byteAt data) (seq 0 16)) 0) with (ROM.byteAt data 5).
  pose proof (byteAt_range data 4) as H4. pose proof (byteAt_range data 5) as H5.
  pose proof (banks_cell data (String.length data) (Z.to_nat 16384) (Z.to_nat (ROM.byteAt data 4)) 16) as Hprg.
  pose proof (read_banks_snd data (String.length data) (Z.to_nat 16384) (Z.to_nat (ROM.byteAt data 4)) 16) as Hoff.
  destruct (ROM.read_banks data (String.length data) (Z.to_nat 16384) 16 (Z.to_nat (ROM.byteAt data 4))) as [prg off].
  cbn [fst snd] in Hprg, Hoff.
  pose proof (banks_cell data (String.length data) (Z.to_nat 4096) (Z.to_nat (ROM.byteAt data 5 * 2)) off) as Hchr.
  destruct (ROM.read_banks data (String.length data) (Z.to_nat 4096) off (Z.to_nat (ROM.byteAt data 5 * 2))) as [chr off2].
  cbn [fst] in Hchr.
  eexists. split; [reflexivity|].
  cbn [ROM.valid ROM.romCount ROM.vromCount].
  repeat split.
  - intros i j Hi Hj. unfold ROM.prg. cbn [ROM.rom].
    rewrite Hprg by lia. f_equal; lia.
  - intros i j Hi Hj. unfold ROM.chr. cbn [ROM.vrom].
    rewrite Hchr by lia. subst off. f_equal; lia.
Qed.

(** C9, witness: the header-only image begins with the magic; it is
    accepted with one PRG bank whose first cell is unset. *)
Lemma C9_witness_header_only :
  exists r, ROM.load Examples.header_only ROM.constructor = inr r
    /\ ROM.valid r = true
    /\ ROM.romCount r = Some 1
    /\ ROM.prg r 0 0 = None.
Proof.
  pose proof (C9_load_accepts_truncated_images Examples.header_only ROM.constructor) as H.
  change (String.index 0 ROM.magic Examples.header_only) with (Some 0%nat) in H.
  destruct (H eq_refl) as (r & Hload & Hvalid & Hcount & _ & Hprg & _).
  exists r. repeat split; try assumption.
  rewrite (Hprg 0 0) by (vm_compute; split; congruence).
  reflexivity.
Defined.

(** C9, counterexample: the specification says that loading fails for an input
    that is too short for the payload its header declares, and for an
    input that does not begin with the magic.  The header-only image
    declares one PRG bank and holds none of its 16384 bytes, yet [load]
    returns normally with [valid = true]; so does the image whose magic
    stands at offset 1. *)
Lemma C9_counterexample_truncated_image_accepted :
  ROM.truncated Examples.header_only = true
  /\ (exists r, ROM.load Examples.header_only ROM.constructor = inr r
                /\ ROM.valid r = true /\ ROM.prg r 0 0 = None)
  /\ String.prefix ROM.magic Examples.shifted_header = false
  /\ (exists r, ROM.load Examples.shifted_header ROM.constructor = inr r
                /\ ROM.valid r = true).
Proof.
  split; [reflexivity|]. split.
  - eexists. split; [reflexivity|]. split; reflexivity.
  - split; [reflexivity|]. eexists. split; reflexivity.
Qed.

(** ** The scanline counter of MMC3 *)

Section MMC3.
Context {Ext : Type}.
Implicit Types (s : NES Ext) (m : mapper_state).

(** [clockIrqCounter] on a machine whose mapper object is [m]. *)
Lemma clockIrqCounter_eq s m :
  Mapper4.clockIrqCounter (with_mmap s m) =
  if (irqCounter m =? 0) || irqReloadPending m then
    with_mmap s (m{{irqCounter := irqLatchValue m; irqReloadPending := false}})
  else if (irqCounter m - 1 =? 0) && negb (irqEnable m =? 0) then
    with_mmap (CPU.requestIrq CPU.IRQ_NORMAL s) (m{{irqCounter := irqCounter m - 1}})
  else with_mmap s (m{{irqCounter := irqCounter m - 1}}).
Proof.
  unfold Mapper4.clockIrqCounter. fields.
  destruct ((irqCounter m =? 0) || irqReloadPending m); [reflexivity|].
  change (irqCounter (m{{irqCounter := irqCounter m - 1}})) with (irqCounter m - 1).
  change (irqEnable (m{{irqCounter := irqCounter m - 1}})) with (irqEnable m).
  destruct ((irqCounter m - 1 =? 0) && negb (irqEnable m =? 0)); [|reflexivity].
  change (with_mmap (with_mmap s m) ?x) with (with_mmap s x).
  apply requestIrq_with_mmap.
Qed.

(** A call made when the counter was already clocked in the current
    scanline changes nothing but the remembered A12 level. *)
Lemma notifyA12_same_scanline value s m :
  lastClockScanline m = scanline (ppu s) ->
  Mapper4.notifyA12 value (with_mmap s m)
  = with_mmap s (m{{ppuA12Prev := value}}).
Proof.
  intros Hsame. unfold Mapper4.notifyA12.
  rewrite mmap_with_mmap, ppu_with_mmap, Hsame, Z.eqb_refl. cbn [negb].
  destruct ((value =? 1) && (ppuA12Prev m =? 0));
    [destruct ((f_bgVisibility (ppu s) =? 1) || (f_spVisibility (ppu s) =? 1))|];
    reflexivity.
Qed.

Lemma notifyAll_same_scanline (values : list Z) : forall s m,
  lastClockScanline m = scanline (ppu s) ->
  exists m', Mapper4.notifyAll values (with_mmap s m) = with_mmap s m'
    /\ irqCounter m' = irqCounter m
    /\ irqReloadPending m' = irqReloadPending m
    /\ lastClockScanline m' = lastClockScanline m.
Proof.
  induction values as [|v values IH]; intros s m Hsame.
  - exists m. repeat split.
  - cbn [Mapper4.notifyAll fold_left].
    rewrite notifyA12_same_scanline by assumption.
    assert (Hsame' : lastClockScanline (m{{ppuA12Prev := v}}) = scanline (ppu s))
      by exact Hsame.
    destruct (IH s _ Hsame') as (m' & Heq & Hc & Hp & Hl).
    exists m'. split; [exact Heq|]. repeat split; assumption.
Qed.

(** C2: a call [notifyA12(value)] on a machine with an MMC3 object [m].
    The IRQ counter is clocked exactly when [value] is 1 after a remembered
    level 0, background or sprites are visible, and the counter was not yet
    clocked in the current scanline.  A clock records the scanline and
    reloads the counter from the latch when the counter is 0 or a reload is
    pending; otherwise it decrements the counter and calls
    [cpu.requestIrq(IRQ_NORMAL)] exactly when the decrement reaches 0 with
    IRQs enabled.  Without a clock the counter, the reload flag and the CPU
    are untouched.  Once clocked in a scanline, no sequence of further calls
    in that scanline changes the counter again. *)
Theorem C2_mmc3_counter_clocked_once_per_scanline_on_rising_a12 s m value :
  let s1 := Mapper4.notifyA12 value (with_mmap s m) in
  let edge := (value =? 1) && (ppuA12Prev m =? 0) in
  let rendering := (f_bgVisibility (ppu s) =? 1) || (f_spVisibility (ppu s) =? 1) in
  let fresh := negb (lastClockScanline m =? scanline (ppu s)) in
  exists m1,
    mmap s1 = Some m1 /\ ppuA12Prev m1 = value /\ ppu s1 = ppu s
    /\ (if edge && rendering && fresh then
          lastClockScanline m1 = scanline (ppu s)
          /\ (if (irqCounter m =? 0) || irqReloadPending m then
                irqCounter m1 = irqLatchValue m
                /\ irqReloadPending m1 = false
                /\ cpu s1 = cpu s
              else
                irqCounter m1 = irqCounter m - 1
                /\ irqReloadPending m1 = irqReloadPending m
                /\ cpu s1 = if (irqCounter m - 1 =? 0) && negb (irqEnable m =? 0)
                            then cpu (CPU.requestIrq CPU.IRQ_NORMAL s)
                            else cpu s)
        else
          irqCounter m1 = irqCounter m
          /\ irqReloadPending m1 = irqReloadPending m
          /\ lastClockScanline m1 = lastClockScanline m
          /\ cpu s1 = cpu s)
    /\ (forall values,
          lastClockScanline m1 = scanline (ppu s1) ->
          exists m2, mmap (Mapper4.notifyAll values s1) = Some m2
            /\ irqCounter m2 = irqCounter m1
            /\ irqReloadPending m2 = irqReloadPending m1
            /\ cpu (Mapper4.notifyAll values s1) = cpu s1).
Proof.
  cbv zeta.
  assert (Hlater : forall s1 m1, mmap s1 = Some m1 ->
            forall values, lastClockScanline m1 = scanline (ppu s1) ->
            exists m2, mmap (Mapper4.notifyAll values s1) = Some m2
              /\ irqCounter m2 = irqCounter m1
              /\ irqReloadPending m2 = irqReloadPending m1
              /\ cpu (Mapper4.notifyAll values s1) = cpu s1).
  { intros s1 m1 Hm values Hsame.
    assert (Hs1 : s1 = with_mmap s1 m1) by (destruct s1; cbn in *; now subst).
    rewrite Hs1 in Hsame |- *. rewrite ppu_with_mmap in Hsame.
    destruct (notifyAll_same_scanline values s1 m1 Hsame) as (m2 & Heq & Hc & Hp & _).
    exists m2. rewrite Heq. repeat split; assumption. }
  unfold Mapper4.notifyA12. fields.
  destruct ((value =? 1) && (ppuA12Prev m =? 0)); cbn [andb].
  2:{ eexists. split; [reflexivity|]. repeat split. apply Hlater. reflexivity. }
  destruct ((f_bgVisibility (ppu s) =? 1) || (f_spVisibility (ppu s) =? 1)); cbn [andb].
  2:{ eexists. split; [reflexivity|]. repeat split. apply Hlater. reflexivity. }
  destruct (negb (lastClockScanline m =? scanline (ppu s))).
  2:{ eexists. split; [reflexivity|]. repeat split. apply Hlater. reflexivity. }
  rewrite clockIrqCounter_eq.
  destruct ((irqCounter m =? 0) || irqReloadPending m).
  { eexists. split; [reflexivity|]. repeat split. apply Hlater. reflexivity. }
  destruct ((irqCounter m - 1 =? 0) && negb (irqEnable m =? 0)).
  - eexists. split; [reflexivity|]. repeat split.
    + apply (requestIrq_frame CPU.IRQ_NORMAL s).
    + apply Hlater. reflexivity.
  - eexists. split; [reflexivity|]. repeat split. apply Hlater. reflexivity.
Qed.

End MMC3.

(** ** Reads of PPUSTATUS *)

Section Status.
Context {Ext : Type} (dev : Devices Ext).
Implicit Types (s : NES Ext).

(** The addresses $2002, $200A, ..., $3FFA decode to register 2 of the
    PPU. *)
Lemma status_mirror_decode (k : Z) :
  0 <= k < 1024 ->
  let a := 0x2002 + 8 * k in
  a .& 0xffff = a /\ (a >> 12 = 2 \/ a >> 12 = 3) /\ a .& 0x7 = 2.
Proof.
  intros Hk a. subst a. repeat split.
  - change 0xffff with (Z.ones 16). rewrite Z.land_ones by lia.
    apply Z.mod_small. lia.
  - rewrite Z.shiftr_div_pow2 by lia. change (2 ^ 12) with 4096.
    assert (2 <= (8194 + 8 * k) / 4096 < 4).
    { split; [apply Z.div_le_lower_bound | apply Z.div_lt_upper_bound]; lia. }
    lia.
  - change 0x7 with (Z.ones 3). rewrite Z.land_ones by lia.
    change (2 ^ 3) with 8.
    replace (8194 + 8 * k) with (2 + (1024 + k) * 8) by ring.
    rewrite Z.mod_add by lia. reflexivity.
Qed.

Lemma regLoad_status (a : Z) s :
  (a >> 12 = 2 \/ a >> 12 = 3) -> a .& 0x7 = 2 ->
  Mapper.regLoad dev a s = PPU.readStatusRegister s.
Proof.
  intros Hpage Hreg. unfold Mapper.regLoad. rewrite Hreg.
  destruct Hpage as [-> | ->]; reflexivity.
Qed.

(** Bit [i] of the status byte after [readStatusRegister]. *)
Lemma status_bits_after_read (old i : Z) :
  0 <= i ->
  Z.testbit (((old .& (255 - (1 << PPU.STATUS_VBLANK))) .| 0) .& 255) i
  = if i <? 7 then Z.testbit old i else false.
Proof.
  intros Hi. rewrite Z.lor_0_r, <- Z.land_assoc.
  change ((255 - (1 << PPU.STATUS_VBLANK)) .& 255) with (Z.ones 7).
  rewrite Z.land_spec. destruct (Z.ltb_spec i 7).
  - rewrite Z.ones_spec_low by lia. apply andb_true_r.
  - rewrite Z.ones_spec_high by lia. apply andb_false_r.
Qed.

(** C6: a CPU read at $2002 or at one of its mirrors $2002 + 8k below
    $4000, through the [load] of the mapper base class, returns the status
    byte as it was before the read (so bit 7 of the result is the VBlank
    flag as it stood), leaves [firstWrite] set to [true] (the toggle reset)
    and bit 7 of the stored status byte clear; the other seven bits of the
    status byte and all other memory cells are as before. *)
Theorem C6_status_read_clears_toggle_and_vblank_returns_prior (k : Z) s :
  0 <= k < 1024 ->
  let r := CPU.load (Mapper.bus dev) (0x2002 + 8 * k) s in
  fst r = mem (cpu s) 0x2002
  /\ Z.testbit (fst r) 7 = Z.testbit (mem (cpu s) 0x2002) 7
  /\ firstWrite (ppu (snd r)) = true
  /\ Z.testbit (mem (cpu (snd r)) 0x2002) 7 = false
  /\ (forall i, 0 <= i < 7 ->
        Z.testbit (mem (cpu (snd r)) 0x2002) i = Z.testbit (mem (cpu s) 0x2002) i)
  /\ (forall a, a <> 0x2002 -> mem (cpu (snd r)) a = mem (cpu s) a).
Proof.
  intros Hk r.
  destruct (status_mirror_decode k Hk) as (Hmask & Hpage & Hreg).
  assert (Hr : r = PPU.readStatusRegister s).
  { subst r. unfold CPU.load.
    replace (8194 + 8 * k <? 8192) with false by (symmetry; apply Z.ltb_ge; lia).
    change (m_load (Mapper.bus dev)) with (Mapper.load dev).
    unfold Mapper.load. rewrite Hmask.
    rewrite Z.gtb_ltb.
    replace (16407 <? 8194 + 8 * k) with false by (symmetry; apply Z.ltb_ge; lia).
    replace (8194 + 8 * k >=? 8192) with true by (symmetry; apply Z.geb_le; lia).
    apply regLoad_status; assumption. }
  rewrite Hr. unfold PPU.readStatusRegister, PPU.setStatusFlag.
  cbn [fst snd]. fields.
  change (mem ((cpu s){{mem := ?f}})) with f.
  change (firstWrite ((ppu s){{firstWrite := true}})) with true.
  repeat split.
  - rewrite u8_store_same by lia. rewrite status_bits_after_read by lia.
    reflexivity.
  - intros i Hi. rewrite u8_store_same by lia.
    rewrite status_bits_after_read by lia.
    replace (i <? 7) with true by (symmetry; apply Z.ltb_lt; lia). reflexivity.
  - intros a Ha. apply u8_store_other. exact Ha.
Qed.

End Status.

Lemma C6_witness_mirror_3FFA :
  0 <= 1023 < 1024
  /\ fst (CPU.load (Mapper.bus Console.quiet) 0x3FFA (Console.new tt))
     = 0
  /\ firstWrite (ppu (snd (CPU.load (Mapper.bus Console.quiet) 0x3FFA
                             (Console.new tt)))) = true.
Proof.
  split; [lia|].
  pose proof (C6_status_read_clears_toggle_and_vblank_returns_prior
                Console.quiet 1023 (Console.new tt) ltac:(lia)) as H.
  cbv zeta in H. destruct H as (H1 & _ & H3 & _).
  split; [exact H1 | exact H3].
Defined.

(** ** Sprite DMA *)

Lemma zrange_S (lo : Z) (n : nat) : zrange lo (S n) = lo :: zrange (lo + 1) n.
Proof.
  unfold zrange. cbn [seq map]. f_equal; [lia|].
  rewrite <- seq_shift, map_map. apply map_ext. intros k. lia.
Qed.

Lemma for_range_S {S : Type} (lo : Z) (n : nat) (body : Z -> S -> S) (s : S) :
  for_range lo (Datatypes.S n) body s = for_range (lo + 1) n body (body lo s).
Proof. unfold for_range. rewrite zrange_S. reflexivity. Qed.

Ltac case_matches :=
  repeat match goal with
         | |- context [match ?x with _ => _ end] => destruct x
         end.

(** [checkSprite0] and [spriteRamWriteUpdate] leave the sprite memory and
    its address register alone. *)
Lemma checkSprite0_frame (scan : Z) (p : ppu_state) :
  spriteMem (snd (PPU.checkSprite0 scan p)) = spriteMem p
  /\ sramAddress (snd (PPU.checkSprite0 scan p)) = sramAddress p.
Proof. unfold PPU.checkSprite0. case_matches; split; reflexivity. Qed.

Lemma spriteRamWriteUpdate_frame (address : Z) (value : option Z) (p : ppu_state) :
  spriteMem (PPU.spriteRamWriteUpdate address value p) = spriteMem p
  /\ sramAddress (PPU.spriteRamWriteUpdate address value p) = sramAddress p.
Proof.
  unfold PPU.spriteRamWriteUpdate.
  destruct (checkSprite0_frame (scanline p - 20) p) as [Hm Ha].
  destruct (address / 4 =? 0), (address mod 4 =? 0), (address mod 4 =? 1),
    (address mod 4 =? 2), (address mod 4 =? 3); split;
    first [exact Hm | exact Ha | reflexivity].
Qed.

Section DMA.
Context {Ext : Type} (dev : Devices Ext).
Implicit Types (s : NES Ext).

Lemma sramDMA_step_spec (base i : Z) s :
  cpu (PPU.sramDMA_step base i s) = cpu s
  /\ sramAddress (ppu (PPU.sramDMA_step base i s)) = sramAddress (ppu s)
  /\ spriteMem (ppu (PPU.sramDMA_step base i s))
     = upd (spriteMem (ppu s)) i (PPU.mem_read (cpu s) (base + i)).
Proof.
  unfold PPU.sramDMA_step. fields.
  match goal with
  | |- context [PPU.spriteRamWriteUpdate ?a ?v ?p] =>
      destruct (spriteRamWriteUpdate_frame a v p) as [Hm Ha]; rewrite Hm, Ha
  end.
  repeat split.
Qed.

Lemma sramDMA_loop (base : Z) (n : nat) : forall (lo : Z) s,
  let s' := for_range lo n (PPU.sramDMA_step base) s in
  cpu s' = cpu s
  /\ sramAddress (ppu s') = sramAddress (ppu s)
  /\ forall i, spriteMem (ppu s') i
               = if (lo <=? i) && (i <? lo + Z.of_nat n)
                 then PPU.mem_read (cpu s) (base + i)
                 else spriteMem (ppu s) i.
Proof.
  induction n as [|n IH]; intros lo s.
  - cbn zeta. unfold for_range. cbn [zrange seq map fold_left].
    repeat split. intros i.
    replace ((lo <=? i) && (i <? lo + Z.of_nat 0)) with false; [reflexivity|].
    symmetry. apply andb_false_iff.
    destruct (Z.leb_spec lo i); [right; apply Z.ltb_ge; lia | left; reflexivity].
  - cbn zeta. rewrite for_range_S.
    destruct (sramDMA_step_spec base lo s) as (Hc & Ha & Hm).
    destruct (IH (lo + 1) (PPU.sramDMA_step base lo s)) as (Hc' & Ha' & Hm').
    rewrite Hc', Ha', Hc, Ha. repeat split. intros i.
    rewrite Hm', Hc, Hm.
    destruct (Z.eq_dec i lo) as [-> | Hne].
    + rewrite upd_same.
      replace ((lo + 1 <=? lo) && (lo <? lo + 1 + Z.of_nat n)) with false
        by (symmetry; apply andb_false_iff; left; apply Z.leb_gt; lia).
      replace ((lo <=? lo) && (lo <? lo + Z.of_nat (S n))) with true
        by (symmetry; apply andb_true_iff; split;
            [apply Z.leb_le | apply Z.ltb_lt]; lia).
      reflexivity.
    + rewrite upd_other by assumption.
      replace ((lo + 1 <=? i) && (i <? lo + 1 + Z.of_nat n))
        with ((lo <=? i) && (i <? lo + Z.of_nat (S n))); [reflexivity|].
      destruct (Z.leb_spec lo i), (Z.leb_spec (lo + 1) i),
        (Z.ltb_spec i (lo + Z.of_nat (S n))),
        (Z.ltb_spec i (lo + 1 + Z.of_nat n)); try reflexivity; lia.
Qed.

(** C7: on a machine with a mapper, a CPU write to $4014 of a page number
    [v] whose cells the CPU reads at their own address ($00-$07 and
    $41-$FF) copies the bytes the CPU reads on page [v] into sprite memory
    from the current sprite-memory address [sramAddress] up to cell 255,
    leaves the cells below [sramAddress] as they were, keeps CPU memory and
    [sramAddress], and adds 513 to the cycles the CPU has to halt.  All 256
    cells are copied exactly when [sramAddress] is 0. *)
Theorem C7_oam_dma_copies_from_current_oam_address (v : Z) s :
  mmap s <> None ->
  0 <= v <= 7 \/ 0x41 <= v <= 255 ->
  0 <= sramAddress (ppu s) <= 255 ->
  let s' := CPU.write (Mapper.bus dev) 0x4014 v s in
  (forall i, 0 <= i < 256 ->
     spriteMem (ppu s') i
     = if sramAddress (ppu s) <=? i
       then Some (fst (CPU.load (Mapper.bus dev) (v * 256 + i) s))
       else spriteMem (ppu s) i)
  /\ cyclesToHalt (cpu s') = cyclesToHalt (cpu s) + 513
  /\ mem (cpu s') = mem (cpu s)
  /\ sramAddress (ppu s') = sramAddress (ppu s).
Proof.
  intros _ Hv Ha s'.
  assert (Hs' : s' = PPU.sramDMA v s) by reflexivity.
  rewrite Hs'. unfold PPU.sramDMA, CPU.haltCycles. fields.
  destruct (sramDMA_loop (v * 256) (Z.to_nat (256 - sramAddress (ppu s)))
              (sramAddress (ppu s)) s) as (Hc & Hadr & Hm).
  cbv zeta in Hc, Hadr, Hm.
  repeat split.
  - intros i Hi. rewrite Hm. rewrite Z2Nat.id by lia.
    replace (i <? sramAddress (ppu s) + (256 - sramAddress (ppu s))) with true
      by (symmetry; apply Z.ltb_lt; lia).
    rewrite andb_true_r. destruct (sramAddress (ppu s) <=? i); [|reflexivity].
    rewrite (cpu_reads_the_cell dev v i s Hv Hi). cbn [fst].
    unfold PPU.mem_read.
    replace ((0 <=? v * 256 + i) && (v * 256 + i <? 65536)) with true;
      [reflexivity|].
    symmetry. apply andb_true_iff. split; [apply Z.leb_le | apply Z.ltb_lt]; lia.
  - change (cyclesToHalt (?c{{cyclesToHalt := ?x}})) with x.
    rewrite Hc. reflexivity.
  - change (mem (?c{{cyclesToHalt := ?x}})) with (mem c).
    rewrite Hc. reflexivity.
  - exact Hadr.
Qed.

End DMA.

(** [LDA #$01; STA $2003; LDA #$00] have run on a mapper 0 cartridge and
    [STA $4014] writes 0: the sprite-memory address is 1, cells 1 to 255
    receive what the CPU reads on page 0, cell 0 stays, and the CPU halts
    513 cycles. *)
Lemma C7_witness_dma_after_oam_address_1 :
  spriteMem (ppu Examples.oam_dma_page0) 1
  = Some (fst (CPU.load (Mapper.bus Console.quiet) 1 Examples.oam_addr_1))
  /\ spriteMem (ppu Examples.oam_dma_page0) 0
     = spriteMem (ppu Examples.oam_addr_1) 0
  /\ cyclesToHalt (cpu Examples.oam_dma_page0)
     = cyclesToHalt (cpu Examples.oam_addr_1) + 513.
Proof.
  assert (Hmap : mmap Examples.oam_addr_1 <> None)
    by (vm_compute; discriminate).
  assert (Hadr : 0 <= sramAddress (ppu Examples.oam_addr_1) <= 255)
    by (vm_compute; split; discriminate).
  pose proof (C7_oam_dma_copies_from_current_oam_address Console.quiet 0
                Examples.oam_addr_1 Hmap ltac:(lia) Hadr) as H.
  cbv zeta in H. destruct H as (Hcells & Hhalt & _).
  pose proof (Hcells 1 ltac:(lia)) as H1.
  pose proof (Hcells 0 ltac:(lia)) as H0.
  replace (sramAddress (ppu Examples.oam_addr_1)) with 1 in H1, H0
    by (vm_compute; reflexivity).
  split; [exact H1 |]. split; [exact H0 | exact Hhalt].
Defined.

(** The whole program [LDA #$01; STA $2003; LDA #$00; STA $4014] on a
    mapper 0 cartridge: the four instructions take 2, 4, 2 and 4 cycles;
    byte 0 of page 0 is 0xFF (RAM after reset) and cell 0 of sprite memory
    still holds 0, while cell 1 holds 0xFF: not all 256 bytes were
    copied. *)
Lemma C7_counterexample_dma_skips_cells_below_oam_address :
  option_map
    (fun r => (fst r, mem (cpu (snd r)) 0, sramAddress (ppu (snd r)),
               spriteMem (ppu (snd r)) 0, spriteMem (ppu (snd r)) 1,
               cyclesToHalt (cpu (snd r))))
    (Examples.after 4 Examples.oam_program)
  = Some ([2; 4; 2; 4], 0xFF, 1, Some 0, Some 0xFF, 513).
Proof. vm_compute. reflexivity. Qed.

(** ** The serial port of MMC1 *)

Section MMC1.
Context {Ext : Type} (dev : Devices Ext).
Implicit Types (s : NES Ext) (m : mapper_state).

Lemma with_mmap_eta s m : mmap s = Some m -> with_mmap s m = s.
Proof. destruct s as [c p mo r cm e]. cbn. intros ->. reflexivity. Qed.

Lemma loadRomBank_mmap (bank address : Z) s :
  mmap (Mapper.loadRomBank bank address s) = mmap s.
Proof. reflexivity. Qed.

Lemma updatePrgBanks_mmap m s : mmap (Mapper1.updatePrgBanks m s) = mmap s.
Proof.
  unfold Mapper1.updatePrgBanks. cbv zeta.
  destruct ((controlReg m >> 2) .& 3) as [|[q|q|]|]; try reflexivity;
    destruct q; reflexivity.
Qed.






End MMC1.



(** ** Cycles of the branch instructions *)

(** C3: BMI adds one cycle when it is taken, whatever the pages of the
    instruction and of its target, and none when it is not taken.  The
    program [LDA #$80; BMI +$20] placed at $80EF branches from $80F1 to
    $8113, in the next page, and [emulate()] returns 2 + 1 = 3 cycles for the
    BMI; [LDA #$00; BPL +$20] at the same addresses returns 2 + 2 = 4 for
    the BPL.  Within a page both return 3. *)
Theorem C3_bmi_taken_across_pages_adds_one_cycle :
  (forall (Ext : Type) (mm : MapperBus Ext) (dev : Devices Ext)
          (addrMode addr cycleAdd cycleCount opaddr : Z) (s : NES Ext),
      fst (CPU.execute mm dev CPU.INS_BMI addrMode addr cycleAdd cycleCount opaddr s)
      = if F_SIGN (cpu s) =? 1 then cycleCount + 1 else cycleCount)
  /\ (forall (Ext : Type) (mm : MapperBus Ext) (dev : Devices Ext)
             (addrMode addr cycleAdd cycleCount opaddr : Z) (s : NES Ext),
         fst (CPU.execute mm dev CPU.INS_BPL addrMode addr cycleAdd cycleCount opaddr s)
         = if F_SIGN (cpu s) =? 0
           then cycleCount + (if (opaddr .& 0xff00) =? (addr .& 0xff00) then 1 else 2)
           else cycleCount)
  /\ option_map (fun r => (fst r, REG_PC (cpu (snd r)) + 1))
       (Examples.after 2 Examples.bmi_across_page) = Some ([2; 3], 0x8113)
  /\ option_map (fun r => (fst r, REG_PC (cpu (snd r)) + 1))
       (Examples.after 2 Examples.bpl_across_page) = Some ([2; 4], 0x8113)
  /\ option_map (fun r => (fst r, REG_PC (cpu (snd r)) + 1))
       (Examples.after 2 Examples.bmi_same_page) = Some ([2; 3], 0x8014).
Proof.
  split; [|split].
  - intros. unfold CPU.execute, CPU.INS_BMI. cbv iota zeta.
    destruct (F_SIGN (cpu s) =? 1); reflexivity.
  - intros. unfold CPU.execute, CPU.INS_BPL, CPU.take_branch. cbv iota zeta.
    destruct (F_SIGN (cpu s) =? 0); reflexivity.
  - repeat split; vm_compute; reflexivity.
Qed.

(** ** The indirect jump *)

(** C4: [JMP ($08FF)] after $34 was stored at $00FF and $12 at $0000.
    Page $08 mirrors page $00, so the CPU reads $34 at $08FF and $12 at
    $0800, and the page-wrapped target would be $1234.  The instruction takes
    the low byte through the mirror mask and the high byte from the raw cell
    $0800 of the memory array, which no store reaches and which still holds
    the $FF of reset: it jumps to $FF34.  The same program with
    [JMP ($00FF)] jumps to $1234. *)
Theorem C4_jmp_indirect_in_ram_mirror_reads_unmirrored_high_byte :
  option_map (fun r => (fst (CPU.load (Mapper.bus Console.quiet) 0x08FF (snd r)),
                        fst (CPU.load (Mapper.bus Console.quiet) 0x0800 (snd r)),
                        mem (cpu (snd r)) 0x0800))
    (Examples.after 4 Examples.jmp_through_08FF) = Some (0x34, 0x12, 0xFF)
  /\ option_map (fun r => REG_PC (cpu (snd r)) + 1)
       (Examples.after 5 Examples.jmp_through_08FF) = Some 0xFF34
  /\ option_map (fun r => REG_PC (cpu (snd r)) + 1)
       (Examples.after 5 Examples.jmp_through_00FF) = Some 0x1234.
Proof. repeat split; vm_compute; reflexivity. Qed.

(** ** The unused flag in pushed status bytes *)

(** C5: the program [LDA #$08; STA $00; LDA #$FF; PHA; PHA; LDA #$00; PHA;
    RTI].  The RTI pulls the status byte $00 and the address $FFFF and
    returns before it sets the unused flag again: after eight calls of
    [emulate()] the program counter field is $FFFF and [F_NOTUSED] is 0.
    The ninth call fetches the opcode at address 0, the $08 of PHP, and
    pushes the status byte $10 to $01FF: bit 5 of a pushed status byte is
    clear.  The stack pointer stays a byte. *)
Theorem C5_php_after_rti_to_FFFF_pushes_status_with_bit5_clear :
  option_map (fun r => (REG_PC (cpu (snd r)), F_NOTUSED (cpu (snd r)),
                        REG_SP (cpu (snd r)),
                        num (CPU.OPDATA (mem (cpu (snd r)) 0)) .& 0xff))
    (Examples.after 8 Examples.rti_to_FFFF) = Some (0xFFFF, 0, 0xFF, CPU.INS_PHP)
  /\ option_map (fun r => (REG_SP (cpu (snd r)), mem (cpu (snd r)) 0x1FF,
                           Z.testbit (mem (cpu (snd r)) 0x1FF) 5))
       (Examples.after 9 Examples.rti_to_FFFF) = Some (0xFE, 0x10, false).
Proof. repeat split; vm_compute; reflexivity. Qed.

(** ** VBlank and the non-maskable interrupt *)

Section NMI.
Context {Ext : Type} (dev : Devices Ext).
Implicit Types (s : NES Ext).

Lemma push_spec (value : Z) s :
  0 <= REG_SP (cpu s) <= 255 ->
  CPU.push (Mapper.bus dev) value s
  = with_cpu s ((cpu s){{mem := u8_store 0x10000 (mem (cpu s))
                                  (0x100 + REG_SP (cpu s)) value;
                         REG_SP := (REG_SP (cpu s) - 1) .& 0xff}}).
Proof.
  intros Hsp. unfold CPU.push.
  change (m_write (Mapper.bus dev)) with (Mapper.write dev).
  unfold Mapper.write. rewrite stack_address by exact Hsp.
  replace (256 + REG_SP (cpu s) <? 8192) with true
    by (symmetry; apply Z.ltb_lt; lia).
  rewrite stack_address_masked by exact Hsp.
  reflexivity.
Qed.

(** The memory after the three pushes of an interrupt entry. *)
Lemma doNonMaskableInterrupt_spec (status : Z) s :
  mmap s <> None ->
  0 <= REG_SP (cpu s) <= 255 ->
  CPU.doNonMaskableInterrupt (Mapper.bus dev) status s
  = if negb ((mem (cpu s) 0x2000 .& 128) =? 0) then
      let c := cpu s in
      let sp1 := (REG_SP c - 1) .& 0xff in
      let sp2 := (sp1 - 1) .& 0xff in
      let m1 := u8_store 0x10000 (mem c) (0x100 + REG_SP c)
                  (((REG_PC_NEW c + 1) >> 8) .& 0xff) in
      let m2 := u8_store 0x10000 m1 (0x100 + sp1) ((REG_PC_NEW c + 1) .& 0xff) in
      let m3 := u8_store 0x10000 m2 (0x100 + sp2) status in
      with_cpu s (c{{mem := m3;
                     REG_SP := (sp2 - 1) .& 0xff;
                     REG_PC_NEW := (m3 0xfffa .| (m3 0xfffb << 8)) - 1}})
    else s.
Proof.
  intros Hmap Hsp. unfold CPU.doNonMaskableInterrupt.
  destruct (mmap s) as [m|]; [|contradiction].
  change (m_load (Mapper.bus dev) 8192 s) with (mem (cpu s) 8192, s).
  cbv iota beta.
  destruct (negb ((mem (cpu s) 8192 .& 128) =? 0)); [|reflexivity].
  cbv zeta. unfold CPU.set_PC_NEW.
  rewrite (push_spec _ (with_cpu s _)) by exact Hsp.
  rewrite (push_spec _ (with_cpu (with_cpu s _) _)) by exact (land_255_range _).
  rewrite (push_spec _ (with_cpu (with_cpu (with_cpu s _) _) _))
    by exact (land_255_range _).
  change (m_load (Mapper.bus dev) 65530 ?x) with (mem (cpu x) 65530, x).
  cbv iota beta.
  change (m_load (Mapper.bus dev) 65531 ?x) with (mem (cpu x) 65531, x).
  cbv iota beta.
  reflexivity.
Qed.

(** The gate when an NMI is pending. *)
Lemma interruptGate_nmi s :
  irqRequested (cpu s) = true ->
  irqType (cpu s) = Some CPU.IRQ_NMI ->
  CPU.interruptGate (Mapper.bus dev) s
  = let c := cpu s in
    let s2 := CPU.doNonMaskableInterrupt (Mapper.bus dev) (CPU.status_word c)
                (with_cpu s (c{{REG_PC_NEW := REG_PC c;
                                F_INTERRUPT_NEW := F_INTERRUPT c}})) in
    let c2 := cpu s2 in
    with_cpu s2 (c2{{REG_PC := REG_PC_NEW c2;
                     F_INTERRUPT := F_INTERRUPT_NEW c2;
                     F_BRK := F_BRK_NEW c2;
                     irqRequested := false}}).
Proof.
  intros Hreq Htype. unfold CPU.interruptGate. rewrite Hreq. cbv zeta. fields.
  change (irqType ((cpu s){{REG_PC_NEW := REG_PC (cpu s);
                            F_INTERRUPT_NEW := F_INTERRUPT (cpu s)}}))
    with (irqType (cpu s)).
  rewrite Htype. reflexivity.
Qed.

Lemma gate_nmi s :
  irqRequested (cpu s) = true ->
  irqType (cpu s) = Some CPU.IRQ_NMI ->
  mmap s <> None ->
  0 <= REG_SP (cpu s) <= 255 ->
  let c := cpu s in
  let c' := cpu (CPU.interruptGate (Mapper.bus dev) s) in
  irqRequested c' = false
  /\ F_BRK c' = F_BRK_NEW c
  /\ (F_CARRY c', F_ZERO c', F_INTERRUPT c', F_DECIMAL c', F_NOTUSED c',
      F_OVERFLOW c', F_SIGN c')
     = (F_CARRY c, F_ZERO c, F_INTERRUPT c, F_DECIMAL c, F_NOTUSED c,
        F_OVERFLOW c, F_SIGN c)
  /\ if negb ((mem c 0x2000 .& 128) =? 0) then
       REG_SP c' = (REG_SP c - 3) .& 0xff
       /\ REG_PC c' = (mem c 0xfffa .| (mem c 0xfffb << 8)) - 1
       /\ mem c' (0x100 + REG_SP c) = ((REG_PC c + 1) >> 8) .& 0xff
       /\ mem c' (0x100 + (REG_SP c - 1) .& 0xff) = (REG_PC c + 1) .& 0xff
       /\ mem c' (0x100 + (REG_SP c - 2) .& 0xff) = CPU.status_word c .& 0xff
     else
       REG_PC c' = REG_PC c /\ REG_SP c' = REG_SP c
       /\ forall a, mem c' a = mem c a.
Proof.
  intros Hreq Htype Hmap Hsp c c'. subst c c'.
  destruct (stack_down _ Hsp) as (Hd2 & Hd3 & Hn1 & Hn2 & Hn21).
  rewrite interruptGate_nmi by assumption. cbv zeta.
  rewrite doNonMaskableInterrupt_spec by assumption.
  change (mem (cpu (with_cpu s ?x)) 8192) with (mem (cpu s) 8192).
  destruct (negb ((mem (cpu s) 8192 .& 128) =? 0)).
  - destruct s as [c p m r cm e].
    destruct c as [mem0 a x y sp pc pcn st fc fd fi fin fo fs fz fn fnn fb fbn
                   halt cr irq ty cy].
    cbn -[Z.land Z.lor Z.shiftl Z.shiftr Z.eqb u8_store CPU.status_word Z.add Z.sub] in *.
    unfold constant. rewrite Hd2, Hd3.
    pose proof (land_255_range (sp - 1)) as Hr1.
    pose proof (land_255_range (sp - 2)) as Hr2.
    repeat split.
    + rewrite !u8_store_other by lia. reflexivity.
    + rewrite !u8_store_other by lia. rewrite u8_store_same by lia.
      apply land_255_idem.
    + rewrite u8_store_other by lia. rewrite u8_store_same by lia.
      apply land_255_idem.
    + rewrite u8_store_same by lia. reflexivity.
  - destruct s as [c p m r cm e].
    destruct c as [mem0 a x y sp pc pcn st fc fd fi fin fo fs fz fn fnn fb fbn
                   halt cr irq ty cy].
    cbn -[Z.land Z.lor Z.shiftl Z.shiftr Z.eqb u8_store CPU.status_word Z.add Z.sub] in *.
    repeat split.
Qed.

Lemma requestIrq_nmi s :
  irqRequested (cpu (CPU.requestIrq CPU.IRQ_NMI s)) = true
  /\ irqType (cpu (CPU.requestIrq CPU.IRQ_NMI s)) = Some CPU.IRQ_NMI.
Proof.
  unfold CPU.requestIrq. change (CPU.IRQ_NMI =? CPU.IRQ_NORMAL) with false.
  rewrite andb_false_r. split; reflexivity.
Qed.

(** C10: [startVBlank()] leaves an NMI request pending whatever the
    NMI-on-VBlank flag of the PPU says (the renderer calls that follow the
    request are assumed to keep a pending NMI).  The gate of the next
    [emulate()], on a machine with a mapper and a stack pointer in a byte,
    then clears the request and: if bit 7 of the byte at $2000 is set,
    pushes the high and low byte of the return address and the status byte
    on the stack and continues at the vector of $FFFA; otherwise leaves the
    program counter, the stack pointer and memory as they were.  In both
    cases the seven flags C, Z, I, D, unused, V, N keep their values and the
    B flag [F_BRK] is overwritten with [F_BRK_NEW]. *)
Theorem C10_vblank_nmi_taken_iff_ctrl_bit7_else_dropped s :
  (forall a b s0,
      irqRequested (cpu s0) = true /\ irqType (cpu s0) = Some CPU.IRQ_NMI ->
      irqRequested (cpu (ppu_renderFramePartially dev a b s0)) = true
      /\ irqType (cpu (ppu_renderFramePartially dev a b s0)) = Some CPU.IRQ_NMI) ->
  (forall s0,
      irqRequested (cpu s0) = true /\ irqType (cpu s0) = Some CPU.IRQ_NMI ->
      irqRequested (cpu (ppu_endFrame dev s0)) = true
      /\ irqType (cpu (ppu_endFrame dev s0)) = Some CPU.IRQ_NMI) ->
  let s1 := PPU.startVBlank dev s in
  let c := cpu s1 in
  let c' := cpu (CPU.interruptGate (Mapper.bus dev) s1) in
  (irqRequested c = true /\ irqType c = Some CPU.IRQ_NMI)
  /\ (mmap s1 <> None -> 0 <= REG_SP c <= 255 ->
      irqRequested c' = false
      /\ F_BRK c' = F_BRK_NEW c
      /\ (F_CARRY c', F_ZERO c', F_INTERRUPT c', F_DECIMAL c', F_NOTUSED c',
          F_OVERFLOW c', F_SIGN c')
         = (F_CARRY c, F_ZERO c, F_INTERRUPT c, F_DECIMAL c, F_NOTUSED c,
            F_OVERFLOW c, F_SIGN c)
      /\ if negb ((mem c 0x2000 .& 128) =? 0) then
           REG_SP c' = (REG_SP c - 3) .& 0xff
           /\ REG_PC c' = (mem c 0xfffa .| (mem c 0xfffb << 8)) - 1
           /\ mem c' (0x100 + REG_SP c) = ((REG_PC c + 1) >> 8) .& 0xff
           /\ mem c' (0x100 + (REG_SP c - 1) .& 0xff) = (REG_PC c + 1) .& 0xff
           /\ mem c' (0x100 + (REG_SP c - 2) .& 0xff) = CPU.status_word c .& 0xff
         else
           REG_PC c' = REG_PC c /\ REG_SP c' = REG_SP c
           /\ forall a, mem c' a = mem c a).
Proof.
  intros Hrender Hend s1 c c'.
  assert (Hpending : irqRequested c = true /\ irqType c = Some CPU.IRQ_NMI).
  { subst c s1. unfold PPU.startVBlank. cbv zeta. rewrite cpu_with_ppu.
    apply Hend.
    destruct (lastRenderedScanline (ppu (CPU.requestIrq CPU.IRQ_NMI s)) <? 239);
      [apply Hrender|]; apply requestIrq_nmi. }
  split; [exact Hpending|]. intros Hmap Hsp.
  destruct Hpending as [Hreq Htype].
  exact (gate_nmi s1 Hreq Htype Hmap Hsp).
Qed.

End NMI.

(** A new machine with an MMC1 object: VBlank, then the gate; nothing was
    written to $2000, so the NMI is dropped. *)
Lemma C10_witness_new_machine :
  irqType (cpu (PPU.startVBlank Console.quiet Examples.mmc1_machine))
  = Some CPU.IRQ_NMI
  /\ irqRequested
       (cpu (CPU.interruptGate (Mapper.bus Console.quiet)
               (PPU.startVBlank Console.quiet Examples.mmc1_machine))) = false.
Proof.
  pose proof (C10_vblank_nmi_taken_iff_ctrl_bit7_else_dropped
                Console.quiet Examples.mmc1_machine
                (fun _ _ _ H => H) (fun _ H => H)) as H.
  cbv zeta in H. destruct H as ((_ & Htype) & Hgate).
  split; [exact Htype|].
  apply Hgate; [discriminate | vm_compute; split; discriminate].
Defined.

(** After [LDA #$00; PHA; PLP] the B flag is clear.  VBlank comes with
    bit 7 of $2000 clear: the gate drops the NMI and sets the B flag. *)
Lemma C10_counterexample_dropped_nmi_sets_brk_flag :
  option_map
    (fun s => (irqRequested (cpu s), irqType (cpu s),
               negb ((mem (cpu s) 0x2000 .& 128) =? 0),
               F_BRK (cpu s),
               F_BRK (cpu (CPU.interruptGate (Mapper.bus Console.quiet) s)),
               CPU.status_word (cpu s),
               CPU.status_word (cpu (CPU.interruptGate (Mapper.bus Console.quiet) s))))
    Examples.vblank_after_plp
  = Some (true, Some CPU.IRQ_NMI, false, 0, 1, 0x20, 0x30).
Proof. vm_compute. reflexivity. Qed.

(** ** The PPU and the mapper number *)

(** C1: [renderBgScanline] fetches 34 tiles when the mapper number in the
    ROM header is 9 and 32 otherwise.  A cartridge of mapper 9 (MMC2) and a
    cartridge of mapper 10 (MMC4) with the same banks are loaded: the two
    mapper objects have the capability flag [hasLatch] set, both have a
    [latchAccess] method and neither has [notifyA12], and the PPU is in the
    same state.  [latchAccess(0)], the call the empty name table gives for
    every tile, does nothing in either class, and
    [renderBgScanline(false, 0)] leaves both mapper objects as they were;
    yet it renders differently: with mapper 9 the horizontal tile counter
    ends at 2 and tiles 32 and 33 of the scanline are fetched; with mapper
    10 the counter ends at 0 and they are not. *)
Theorem C1_tile_count_is_selected_by_rom_mapper_number :
  (forall (Ext : Type) (s : NES Ext) (r : ROM.t),
      rom s = Some r ->
      PPU.tileCount s
      = match ROM.mapperType r with Some 9 => 34%nat | _ => 32%nat end)
  /\ (option_map (fun s => option_map (fun m => (mclass m, hasLatch m)) (mmap s))
                 Examples.mmc2_loaded = Some (Some (Mapper9, true))
      /\ option_map (fun s => option_map (fun m => (mclass m, hasLatch m)) (mmap s))
                    Examples.mmc4_loaded = Some (Some (Mapper10, true)))
  /\ (forall cls, cls = Mapper9 \/ cls = Mapper10 ->
      m_latchAccess (Console.hooks_of (Ext := unit) cls) <> None
      /\ m_notifyA12 (Console.hooks_of (Ext := unit) cls) = None)
  /\ option_map ppu Examples.mmc2_loaded = option_map ppu Examples.mmc4_loaded
  /\ (forall (Ext : Type) (s : NES Ext),
      Mapper9.latchAccess 0 s = s /\ Mapper10.latchAccess 0 s = s)
  /\ (option_map mmap (Examples.render_line0 Mapper9 Examples.mmc2_loaded)
      = option_map mmap Examples.mmc2_loaded
      /\ option_map mmap (Examples.render_line0 Mapper10 Examples.mmc4_loaded)
         = option_map mmap Examples.mmc4_loaded)
  /\ option_map (fun s => (cntHT (ppu s), scantile (ppu s) 32, scantile (ppu s) 33))
                (Examples.render_line0 Mapper9 Examples.mmc2_loaded)
     = Some (2, Some Tile.new, Some Tile.new)
  /\ option_map (fun s => (cntHT (ppu s), scantile (ppu s) 32, scantile (ppu s) 33))
                (Examples.render_line0 Mapper10 Examples.mmc4_loaded)
     = Some (0, None, None).
Proof.
  split.
  - intros Ext s r Hrom. unfold PPU.tileCount, PPU.isMMC2. rewrite Hrom.
    destruct (ROM.mapperType r) as [[|q|q]|]; try reflexivity.
    do 4 (destruct q; try reflexivity).
  - split; [split; vm_compute; reflexivity|].
    split; [intros cls [-> | ->]; split; (discriminate || reflexivity)|].
    split; [reflexivity|].
    split; [intros Ext s; unfold Mapper9.latchAccess, Mapper10.latchAccess;
            destruct (mmap s); split; reflexivity|].
    split; [split; vm_compute; reflexivity|].
    split; vm_compute; reflexivity.
Qed.

(** ** Further properties of the CPU *)

Section Branches.
Context {Ext : Type} (mm : MapperBus Ext) (dev : Devices Ext).
Implicit Types (s : NES Ext).

(** X2: [push] leaves the stack pointer in a byte whatever the mapper does
    with the write, and so does TXS. *)
Theorem push_and_txs_keep_stack_pointer_in_a_byte
    (value addrMode addr cycleAdd cycleCount opaddr : Z) s :
  0 <= REG_SP (cpu (CPU.push mm value s)) <= 255
  /\ 0 <= REG_SP (cpu (snd (CPU.execute mm dev CPU.INS_TXS addrMode addr
                              cycleAdd cycleCount opaddr s))) <= 255.
Proof.
  split.
  - unfold CPU.push. cbv zeta. rewrite cpu_with_cpu.
    exact (land_255_range _).
  - unfold CPU.execute, CPU.INS_TXS. cbv iota zeta. cbn [snd].
    rewrite cpu_with_cpu. exact (land_255_range _).
Qed.

End Branches.

Section BaseBus.
Context {Ext : Type} (dev : Devices Ext).
Implicit Types (s : NES Ext).

(** X3: [pull], reading through the mapper base class, leaves the stack
    pointer in a byte. *)
Theorem pull_keeps_stack_pointer_in_a_byte s :
  0 <= REG_SP (cpu (snd (CPU.pull (Mapper.bus dev) s))) <= 255.
Proof.
  unfold CPU.pull. cbv zeta. rewrite cpu_with_cpu.
  change (m_load (Mapper.bus dev)) with (Mapper.load dev).
  change (REG_SP ((cpu s){{REG_SP := ?x}})) with x.
  pose proof (land_255_range (REG_SP (cpu s) + 1)) as Hr.
  rewrite Z.lor_comm, stack_address by exact Hr.
  rewrite load_ram by lia. cbn [snd]. rewrite cpu_with_cpu. exact Hr.
Qed.

(** A pointer [a] at the end of a page of the RAM proper. *)
Lemma page_start (a : Z) :
  0 <= a < 0x800 -> a .& 0xff = 0xff ->
  (a .& 0xff00) .| (((a .& 0xff) + 1) .& 0xff) = a - 0xff
  /\ a .& 0x7ff = a /\ (a - 0xff) .& 0x7ff = a - 0xff.
Proof.
  intros Ha Hlow.
  pose proof (range_cases 2048
    (fun x => implb (x .& 0xff =? 0xff)
                ((((x .& 0xff00) .| (((x .& 0xff) + 1) .& 0xff)) =? x - 0xff)
                 && (x .& 0x7ff =? x) && ((x - 0xff) .& 0x7ff =? x - 0xff)))
    ltac:(vm_compute; reflexivity) a ltac:(lia)) as Hb.
  cbv beta in Hb. rewrite Hlow in Hb. cbn [Z.eqb Pos.eqb implb] in Hb.
  change (255 =? 255) with true in Hb. cbn [implb] in Hb.
  apply andb_true_iff in Hb. destruct Hb as [Hb H3].
  apply andb_true_iff in Hb. destruct Hb as [H1 H2].
  apply Z.eqb_eq in H1, H2, H3. rewrite Hlow. repeat split; assumption.
Qed.

(** X4: [JMP (a)] fetched from ROM with the pointer [a] at the end of a page
    of the RAM proper ($00FF, $01FF, ..., $07FF): the target is made of the
    byte the CPU reads at [a] and the byte it reads at the start of the same
    page, [a - $FF]. *)
Theorem jmp_indirect_wraps_within_the_page_in_ram (opaddr pc : Z) s :
  0x4017 < opaddr + 2 -> opaddr + 3 <= 0xffff ->
  let a := mem (cpu s) (opaddr + 2) .| (mem (cpu s) (opaddr + 2 + 1) << 8) in
  0 <= a < 0x800 -> a .& 0xff = 0xff ->
  CPU.operand (Mapper.bus dev) CPU.ADDR_INDABS opaddr pc s
  = (fst (CPU.load (Mapper.bus dev) a s)
     .| (fst (CPU.load (Mapper.bus dev) (a - 0xff) s) << 8), 0, s).
Proof.
  intros Hlo Hhi a Ha Hlow.
  destruct (page_start a Ha Hlow) as (Hpage & Hm & Hm').
  unfold CPU.operand, CPU.ADDR_INDABS. cbv iota zeta.
  unfold CPU.load16bit, CPU.load.
  replace (opaddr + 2 <? 8191) with false by (symmetry; apply Z.ltb_ge; lia).
  change (m_load (Mapper.bus dev)) with (Mapper.load dev).
  rewrite load_high by lia. rewrite load_high by lia.
  fold a.
  replace (a <? 8191) with true by (symmetry; apply Z.ltb_lt; lia).
  replace (a <? 8192) with true by (symmetry; apply Z.ltb_lt; lia).
  replace (a - 255 <? 8192) with true by (symmetry; apply Z.ltb_lt; lia).
  cbn [fst]. rewrite Hpage, Hm, Hm'. reflexivity.
Qed.

End BaseBus.

(** The program of [Examples.jmp_through_00FF] before its jump: the
    pointer $00FF is read from $8009, and the target is $1234. *)
Lemma jmp_indirect_witness_00FF :
  REG_PC (cpu Examples.before_jmp_00FF) = 0x8007
  /\ CPU.operand (Mapper.bus Console.quiet) CPU.ADDR_INDABS 0x8007 0x800A
       Examples.before_jmp_00FF
     = (0x1234, 0, Examples.before_jmp_00FF).
Proof.
  split; [vm_compute; reflexivity|].
  etransitivity;
    [apply (jmp_indirect_wraps_within_the_page_in_ram Console.quiet 0x8007 0x800A
              Examples.before_jmp_00FF);
       [lia | lia | vm_compute; split; [discriminate | reflexivity]
       | vm_compute; reflexivity]
    | ].
  apply (f_equal (fun t => (t, 0, Examples.before_jmp_00FF))).
  vm_compute. reflexivity.
Defined.

(** ** The branch instructions through [emulate()] *)

Section BranchCycles.
Context {Ext : Type} (dev : Devices Ext).
Implicit Types (s : NES Ext).

(** X1: a whole [emulate()] of one of the branches BCC, BCS, BEQ, BNE, BPL,
    BVC and BVS, fetched from $4018-$FFFF through the mapper base class
    with no interrupt pending.  [emulate()] returns 2 cycles when the
    branch is not taken, 3 when it is taken and the target has the high
    byte of the address before the opcode, and 4 when it is taken and the
    high bytes differ; the program counter goes to the target (the offset
    byte taken as signed, added to the address of the offset byte, in 16
    bits), or past the two bytes of the instruction.  Nothing else of the
    machine changes. *)
Theorem branch_through_emulate_takes_2_3_or_4_cycles (taken : bool) s :
  let pc := REG_PC (cpu s) in
  let op := mem (cpu s) (pc + 1) in
  let off := mem (cpu s) (pc + 2) in
  let c := cpu s in
  irqRequested c = false ->
  mmap s <> None ->
  0x4017 < pc + 1 -> pc + 2 <= 0xffff ->
  In (op, taken)
     [(0x90, F_CARRY c =? 0); (0xB0, F_CARRY c =? 1); (0xF0, F_ZERO c =? 0);
      (0xD0, negb (F_ZERO c =? 0)); (0x10, F_SIGN c =? 0);
      (0x50, F_OVERFLOW c =? 0); (0x70, F_OVERFLOW c =? 1)] ->
  let target := (off + (if off <? 0x80 then pc + 2 else pc + 2 - 256)) .& 0xffff in
  CPU.emulate (Mapper.bus dev) dev s
  = if taken
    then (if (pc .& 0xff00) =? (target .& 0xff00) then 3 else 4,
          with_cpu s (c{{REG_PC := target}}))
    else (2, with_cpu s (c{{REG_PC := pc + 2}})).
Proof.
  intros pc op off c Hreq Hmap Hlo Hhi Hin target.
  unfold CPU.emulate, CPU.interruptGate. fold c. rewrite Hreq.
  destruct (mmap s) as [m|]; [|contradiction].
  change (m_load (Mapper.bus dev)) with (Mapper.load dev).
  fold pc. rewrite load_high by lia. fold op.
  assert (Hoff : CPU.load (Mapper.bus dev) (pc + 2) s = (off, s)).
  { unfold CPU.load.
    replace (pc + 2 <? 8192) with false by (symmetry; apply Z.ltb_ge; lia).
    change (m_load (Mapper.bus dev)) with (Mapper.load dev).
    apply load_high. lia. }
  assert (Hpc : with_cpu (with_cpu s ((cpu s){{REG_PC := pc + 2}}))
                 (((cpu s){{REG_PC := pc + 2}}){{REG_PC := target}})
               = with_cpu s (c{{REG_PC := target}})).
  { subst c. destruct s as [c0 p mo r cm e]. destruct c0. reflexivity. }
  clearbody op. cbn [In] in Hin.
  do 7 (destruct Hin as [Hin | Hin];
          [injection Hin as <- <-;
           match goal with
           | |- context [CPU.OPDATA ?n] =>
               let v := eval vm_compute in (num (CPU.OPDATA n)) in
               replace (num (CPU.OPDATA n)) with v by (vm_compute; reflexivity);
               let i := eval vm_compute in (v .& 255) in
               change (v .& 255) with i;
               change (v >> 24) with 2; change ((v >> 8) .& 255) with 1;
               change ((v >> 16) .& 255) with 2
           end;
           unfold CPU.operand; cbv iota; rewrite Hoff; fold target;
           unfold CPU.execute, CPU.take_branch; cbv iota zeta;
           rewrite cpu_with_cpu;
           change (F_CARRY ((cpu s){{REG_PC := pc + 2}})) with (F_CARRY c);
           change (F_ZERO ((cpu s){{REG_PC := pc + 2}})) with (F_ZERO c);
           change (F_SIGN ((cpu s){{REG_PC := pc + 2}})) with (F_SIGN c);
           change (F_OVERFLOW ((cpu s){{REG_PC := pc + 2}})) with (F_OVERFLOW c);
           match goal with
           | |- (if ?b then _ else _) = _ =>
               destruct b; [rewrite Hpc; destruct (_ =? _); reflexivity
                           | reflexivity]
           end|]).
  destruct Hin.
Qed.

End BranchCycles.

(** [LDA #$00] has run at $80EF and the BPL at $80F1 is taken to $8113, in
    the next page: four cycles. *)
Lemma branch_witness_bpl_across_page :
  CPU.emulate (Mapper.bus Console.quiet) Console.quiet Cases.before_bpl_across_page
  = (4, with_cpu Cases.before_bpl_across_page
          ((cpu Cases.before_bpl_across_page){{REG_PC := 0x8112}})).
Proof.
  pose proof (branch_through_emulate_takes_2_3_or_4_cycles Console.quiet true
                Cases.before_bpl_across_page) as H.
  cbv zeta in H.
  replace (REG_PC (cpu Cases.before_bpl_across_page)) with 0x80F0 in H
    by (vm_compute; reflexivity).
  replace (mem (cpu Cases.before_bpl_across_page) (0x80F0 + 2)) with 0x20 in H
    by (vm_compute; reflexivity).
  apply H; [ vm_compute; reflexivity | vm_compute; discriminate | lia | lia | ].
  replace (mem (cpu Cases.before_bpl_across_page) (0x80F0 + 1)) with 0x10
    by (vm_compute; reflexivity).
  replace (F_SIGN (cpu Cases.before_bpl_across_page)) with 0
    by (vm_compute; reflexivity).
  cbn [In]. right. right. right. right. left. reflexivity.
Defined.

(** ** CPU memory and the stack *)

Lemma land_7ff_mod (a : Z) : a .& 0x7ff = a mod 0x800.
Proof. change 0x7ff with (Z.ones 11). apply Z.land_ones. lia. Qed.

Section RAM.
Context {Ext : Type} (mm : MapperBus Ext).
Implicit Types (s : NES Ext).

(** X5: the 2 KiB of RAM are visible four times below $2000.  After a CPU
    write of [v] at [a], a CPU read at [a'] returns the low byte of [v] when
    [a'] is [a] or one of its mirrors, and what it returned before
    otherwise; the read changes nothing.  The mapper is not consulted. *)
Theorem ram_write_then_read_through_mirrors (a a' v : Z) s :
  0 <= a < 0x2000 -> 0 <= a' < 0x2000 ->
  CPU.load mm a' (CPU.write mm a v s)
  = (if a' mod 0x800 =? a mod 0x800 then v .& 255 else fst (CPU.load mm a' s),
     CPU.write mm a v s).
Proof.
  intros Ha Ha'. unfold CPU.load, CPU.write.
  replace (a <? 8192) with true by (symmetry; apply Z.ltb_lt; lia).
  replace (a' <? 8192) with true by (symmetry; apply Z.ltb_lt; lia).
  cbv zeta. rewrite cpu_with_cpu.
  change (mem ((cpu s){{mem := ?f}})) with f.
  rewrite !land_7ff_mod. cbn [fst].
  pose proof (Z.mod_pos_bound a 2048 eq_refl) as Hr.
  destruct (Z.eqb_spec (a' mod 2048) (a mod 2048)) as [-> | Hne].
  - rewrite u8_store_same by lia. reflexivity.
  - rewrite u8_store_other by exact Hne. reflexivity.
Qed.

End RAM.

Lemma ram_mirror_witness :
  CPU.load (Mapper.bus Console.quiet) 0x1802
    (CPU.write (Mapper.bus Console.quiet) 0x0002 0x1234 (Console.new tt))
  = (0x34, CPU.write (Mapper.bus Console.quiet) 0x0002 0x1234 (Console.new tt)).
Proof.
  exact (ram_write_then_read_through_mirrors (Mapper.bus Console.quiet)
           0x0002 0x1802 0x1234 (Console.new tt) ltac:(lia) ltac:(lia)).
Defined.

Section Stack.
Context {Ext : Type} (dev : Devices Ext).
Implicit Types (s : NES Ext).

Lemma pull_spec s :
  CPU.pull (Mapper.bus dev) s
  = (mem (cpu s) (0x100 + (REG_SP (cpu s) + 1) .& 0xff),
     with_cpu s ((cpu s){{REG_SP := (REG_SP (cpu s) + 1) .& 0xff}})).
Proof.
  unfold CPU.pull. cbv zeta. rewrite cpu_with_cpu.
  change (m_load (Mapper.bus dev)) with (Mapper.load dev).
  change (REG_SP ((cpu s){{REG_SP := ?x}})) with x.
  pose proof (land_255_range (REG_SP (cpu s) + 1)) as Hr.
  rewrite Z.lor_comm, stack_address by exact Hr.
  rewrite load_ram by lia. rewrite stack_address_masked by exact Hr.
  reflexivity.
Qed.

Lemma stack_up (sp : Z) :
  0 <= sp <= 255 ->
  ((sp - 1) .& 255 + 1) .& 255 = sp
  /\ ((sp - 2) .& 255 + 1) .& 255 = (sp - 1) .& 255.
Proof.
  intros H.
  pose proof (byte_cases
    (fun x => ((((x - 1) .& 255 + 1) .& 255) =? x)
              && ((((x - 2) .& 255 + 1) .& 255) =? (x - 1) .& 255))
    ltac:(vm_compute; reflexivity) sp H) as Hb.
  cbv beta in Hb. apply andb_true_iff in Hb. destruct Hb as [H1 H2].
  apply Z.eqb_eq in H1, H2. split; assumption.
Qed.

(** X6: on a machine with a mapper, a pull after a push returns the low byte
    of the pushed value and restores the stack pointer; only the stack cell
    $0100 + SP of memory has changed. *)
Theorem pull_after_push_returns_the_byte (value : Z) s :
  mmap s <> None ->
  0 <= REG_SP (cpu s) <= 255 ->
  let r := CPU.pull (Mapper.bus dev) (CPU.push (Mapper.bus dev) value s) in
  fst r = value .& 255
  /\ REG_SP (cpu (snd r)) = REG_SP (cpu s)
  /\ (forall a, a <> 0x100 + REG_SP (cpu s) ->
        mem (cpu (snd r)) a = mem (cpu s) a).
Proof.
  intros _ Hsp r. subst r.
  destruct (stack_up _ Hsp) as [Hup _].
  rewrite push_spec by exact Hsp. rewrite pull_spec. cbn [fst snd].
  rewrite !cpu_with_cpu.
  change (REG_SP ((cpu s){{mem := ?f; REG_SP := ?x}})) with x.
  change (mem ((cpu s){{mem := ?f; REG_SP := ?x}})) with f.
  rewrite Hup.
  change (REG_SP (?c{{REG_SP := ?x}})) with x.
  change (mem (?c{{REG_SP := ?x}})) with (mem c).
  change (mem ((cpu s){{mem := ?f; REG_SP := ?x}})) with f.
  repeat split.
  - apply u8_store_same. lia.
  - intros a Ha. apply u8_store_other. exact Ha.
Qed.

End Stack.

Lemma pull_after_push_witness :
  fst (CPU.pull (Mapper.bus Console.quiet)
         (CPU.push (Mapper.bus Console.quiet) 0x1AB Cases.nrom_machine)) = 0xAB.
Proof.
  apply (pull_after_push_returns_the_byte Console.quiet 0x1AB Cases.nrom_machine).
  - discriminate.
  - vm_compute. split; discriminate.
Defined.

(** ** Subroutine calls *)

Lemma word_of_bytes (pc : Z) :
  0 <= pc <= 0xffff -> (pc .& 255) + (((pc >> 8) .& 255) << 8) = pc.
Proof.
  intros H. change 255 with (Z.ones 8). rewrite !Z.land_ones by lia.
  rewrite Z.shiftr_div_pow2, Z.shiftl_mul_pow2 by lia.
  change (2 ^ 8) with 256.
  rewrite (Z.mod_small (pc / 256) 256).
  - pose proof (Z.div_mod pc 256 ltac:(lia)). lia.
  - split; [apply Z.div_pos; lia | apply Z.div_lt_upper_bound; lia].
Qed.

Section Calls.
Context {Ext : Type} (dev : Devices Ext).
Implicit Types (s : NES Ext).

(** X7: on a machine with a mapper, JSR pushes the two bytes of the program
    counter and continues at [addr]; an RTS executed on the machine JSR
    leaves pulls them again, so that the program counter and the stack
    pointer are those JSR found. *)
Theorem rts_undoes_jsr
    (addrMode addr cycleAdd cycleCount opaddr addrMode' addr' cycleAdd'
     cycleCount' opaddr' : Z) s :
  mmap s <> None ->
  0 <= REG_SP (cpu s) <= 255 ->
  0 <= REG_PC (cpu s) <= 0xffff ->
  let s1 := snd (CPU.execute (Mapper.bus dev) dev CPU.INS_JSR addrMode addr
                   cycleAdd cycleCount opaddr s) in
  let s2 := snd (CPU.execute (Mapper.bus dev) dev CPU.INS_RTS addrMode' addr'
                   cycleAdd' cycleCount' opaddr' s1) in
  REG_PC (cpu s1) = addr - 1
  /\ REG_SP (cpu s1) = (REG_SP (cpu s) - 2) .& 0xff
  /\ REG_PC (cpu s2) = REG_PC (cpu s)
  /\ REG_SP (cpu s2) = REG_SP (cpu s).
Proof.
  intros _ Hsp Hpc s1 s2.
  destruct (stack_down _ Hsp) as (Hd2 & _ & Hn1 & _ & _).
  destruct (stack_up _ Hsp) as (Hu1 & Hu2).
  pose proof (word_of_bytes _ Hpc) as Hword.
  pose proof (land_255_range (REG_SP (cpu s) - 1)) as Hr1.
  pose proof (eq_refl : s1 = s1) as E1. unfold s1 at 2 in E1. clearbody s1.
  pose proof (eq_refl : s2 = s2) as E2. unfold s2 at 2 in E2. clearbody s2.
  unfold CPU.execute, CPU.INS_JSR in E1. cbv iota zeta in E1. cbn [snd] in E1.
  unfold CPU.execute, CPU.INS_RTS in E2. cbv iota zeta in E2.
  destruct s as [c p m r cm e].
  destruct c as [mem0 a x y sp pc pcn st fc fd fi fin fo fs fz fn fnn fb fbn
                 halt cr irq ty cy].
  cbn [cpu REG_SP REG_PC] in Hsp, Hpc, Hd2, Hn1, Hu1, Hu2, Hword, Hr1.
  rewrite (push_spec dev _ {| cpu := _ |}) in E1 by exact Hsp.
  cbn -[Z.land Z.lor Z.shiftl Z.shiftr Z.eqb u8_store Z.add Z.sub CPU.push CPU.pull] in E1.
  unfold constant in E1.
  rewrite push_spec in E1 by exact Hr1.
  cbn -[Z.land Z.lor Z.shiftl Z.shiftr Z.eqb u8_store Z.add Z.sub CPU.push CPU.pull] in E1.
  unfold constant in E1. rewrite Hd2 in E1.
  subst s1.
  rewrite pull_spec in E2.
  cbn -[Z.land Z.lor Z.shiftl Z.shiftr Z.eqb u8_store Z.add Z.sub CPU.push CPU.pull] in E2.
  unfold constant in E2. rewrite Hu2 in E2.
  rewrite pull_spec in E2.
  cbn -[Z.land Z.lor Z.shiftl Z.shiftr Z.eqb u8_store Z.add Z.sub CPU.push CPU.pull] in E2.
  unfold constant in E2. rewrite Hu1 in E2.
  subst s2.
  cbn -[Z.land Z.lor Z.shiftl Z.shiftr Z.eqb u8_store Z.add Z.sub].
  repeat split.
  rewrite u8_store_same by lia.
  rewrite u8_store_other by lia. rewrite u8_store_same by lia.
  rewrite !land_255_idem. exact Hword.
Qed.

End Calls.

Lemma rts_undoes_jsr_witness :
  REG_PC (cpu (snd (CPU.execute (Mapper.bus Console.quiet) Console.quiet
                      CPU.INS_RTS 2 0 0 6 0
                      (snd (CPU.execute (Mapper.bus Console.quiet) Console.quiet
                              CPU.INS_JSR 3 0x9000 0 6 0x7FFF Cases.nrom_machine)))))
  = REG_PC (cpu Cases.nrom_machine).
Proof.
  apply (rts_undoes_jsr Console.quiet 3 0x9000 0 6 0x7FFF 2 0 0 6 0 Cases.nrom_machine);
    [discriminate | vm_compute; split; discriminate ..].
Defined.

(** ** Arithmetic instructions *)

(** The two's-complement value of a byte, written out where it is used:
    [x] below 128 stands for itself, [x] from 128 for [x - 256]. *)

Lemma adc_overflow_cases (A v C : Z) :
  0 <= A <= 255 -> 0 <= v <= 255 -> 0 <= C <= 1 ->
  (if (((A .^ v) .& 0x80) =? 0) && negb (((A .^ (A + v + C)) .& 0x80) =? 0)
   then 1 else 0)
  = (let sum := (if A <? 128 then A else A - 256)
                + (if v <? 128 then v else v - 256) + C in
     if (-128 <=? sum) && (sum <=? 127) then 0 else 1).
Proof.
  intros HA Hv HC.
  pose proof (byte_cases
    (fun A => forallb (fun v => forallb (fun C =>
       (if (((A .^ v) .& 0x80) =? 0) && negb (((A .^ (A + v + C)) .& 0x80) =? 0)
        then 1 else 0)
       =? (let sum := (if A <? 128 then A else A - 256)
                      + (if v <? 128 then v else v - 256) + C in
           if (-128 <=? sum) && (sum <=? 127) then 0 else 1))
       (zrange 0 2)) (zrange 0 256))
    ltac:(vm_compute; reflexivity) A HA) as Hb.
  cbv beta in Hb.
  pose proof (byte_cases _ Hb v Hv) as Hb'. cbv beta in Hb'.
  pose proof (range_cases 2 _ Hb' C ltac:(lia)) as Hb''. cbv beta in Hb''.
  apply Z.eqb_eq in Hb''. exact Hb''.
Qed.

Lemma sbc_overflow_cases (A v C : Z) :
  0 <= A <= 255 -> 0 <= v <= 255 -> 0 <= C <= 1 ->
  (if negb (((A .^ (A - v - (1 - C))) .& 0x80) =? 0) && negb (((A .^ v) .& 0x80) =? 0)
   then 1 else 0)
  = (let diff := (if A <? 128 then A else A - 256)
                 - (if v <? 128 then v else v - 256) - (1 - C) in
     if (-128 <=? diff) && (diff <=? 127) then 0 else 1).
Proof.
  intros HA Hv HC.
  pose proof (byte_cases
    (fun A => forallb (fun v => forallb (fun C =>
       (if negb (((A .^ (A - v - (1 - C))) .& 0x80) =? 0)
           && negb (((A .^ v) .& 0x80) =? 0)
        then 1 else 0)
       =? (let diff := (if A <? 128 then A else A - 256)
                       - (if v <? 128 then v else v - 256) - (1 - C) in
           if (-128 <=? diff) && (diff <=? 127) then 0 else 1))
       (zrange 0 2)) (zrange 0 256))
    ltac:(vm_compute; reflexivity) A HA) as Hb.
  cbv beta in Hb.
  pose proof (byte_cases _ Hb v Hv) as Hb'. cbv beta in Hb'.
  pose proof (range_cases 2 _ Hb' C ltac:(lia)) as Hb''. cbv beta in Hb''.
  apply Z.eqb_eq in Hb''. exact Hb''.
Qed.

Lemma low_byte_and_sign (t : Z) :
  t .& 0xff = t mod 256 /\ (t >> 7) .& 1 = (t mod 256) / 128.
Proof.
  split.
  - change 0xff with (Z.ones 8). apply Z.land_ones. lia.
  - change 1 with (Z.ones 1) at 1. rewrite Z.land_ones by lia.
    rewrite Z.shiftr_div_pow2 by lia. change (2 ^ 7) with 128.
    change (2 ^ 1) with 2.
    pose proof (Z.div_mod t 128 ltac:(lia)).
    pose proof (Z.mod_pos_bound t 128 ltac:(lia)).
    pose proof (Z.div_mod t 256 ltac:(lia)).
    pose proof (Z.mod_pos_bound t 256 ltac:(lia)).
    pose proof (Z.div_mod (t / 128) 2 ltac:(lia)).
    pose proof (Z.mod_pos_bound (t / 128) 2 ltac:(lia)).
    pose proof (Z.div_mod (t mod 256) 128 ltac:(lia)).
    pose proof (Z.mod_pos_bound (t mod 256) 128 ltac:(lia)).
    lia.
Qed.

Section Arithmetic.
Context {Ext : Type} (mm : MapperBus Ext) (dev : Devices Ext).
Implicit Types (s : NES Ext).

(** X8: ADC on a byte accumulator, a byte operand and a carry bit.  The new
    accumulator and carry are the 9-bit sum of the three; the sign flag is
    bit 7 of the result, [F_ZERO] holds the result (the zero flag is set
    when it is 0), and the overflow flag is 1 exactly when the signed sum
    leaves -128..127. *)
Theorem adc_adds_accumulator_operand_and_carry
    (addrMode addr cycleAdd cycleCount opaddr : Z) s :
  let val := fst (CPU.load mm addr s) in
  let c := cpu (snd (CPU.load mm addr s)) in
  let c' := cpu (snd (CPU.execute mm dev CPU.INS_ADC addrMode addr cycleAdd
                        cycleCount opaddr s)) in
  0 <= val <= 255 -> 0 <= REG_ACC c <= 255 -> 0 <= F_CARRY c <= 1 ->
  REG_ACC c' + 256 * F_CARRY c' = REG_ACC c + val + F_CARRY c
  /\ 0 <= REG_ACC c' <= 255 /\ 0 <= F_CARRY c' <= 1
  /\ F_SIGN c' = REG_ACC c' / 128
  /\ F_ZERO c' = REG_ACC c'
  /\ F_OVERFLOW c'
     = (let sum := (if REG_ACC c <? 128 then REG_ACC c else REG_ACC c - 256)
                   + (if val <? 128 then val else val - 256) + F_CARRY c in
        if (-128 <=? sum) && (sum <=? 127) then 0 else 1).
Proof.
  cbv zeta. unfold CPU.execute, CPU.INS_ADC. cbv iota zeta.
  destruct (CPU.load mm addr s) as [val s1]. cbn [fst snd].
  rewrite cpu_with_cpu.
  destruct (cpu s1) as [mem0 A x y sp pc pcn st C fd fi fin fo fs fz fn fnn fb fbn
                        halt cr irq ty cy].
  cbn -[Z.land Z.lor Z.lxor Z.shiftl Z.shiftr Z.eqb Z.add Z.sub Z.mul Z.div
        Z.gtb Z.ltb Z.leb].
  unfold constant. intros Hv HA HC.
  destruct (low_byte_and_sign (A + val + C)) as [Hlow Hsign].
  rewrite Hlow, Hsign.
  pose proof (Z.div_mod (A + val + C) 256 ltac:(lia)) as Hdm.
  pose proof (Z.mod_pos_bound (A + val + C) 256 ltac:(lia)) as Hmb.
  rewrite adc_overflow_cases by assumption.
  destruct (Z.gtb_spec (A + val + C) 255); repeat split; try lia.
Qed.

(** X9: SBC on a byte accumulator, a byte operand and a carry bit: the
    accumulator minus the operand minus the borrow (1 - carry), modulo 256;
    the new carry is 0 exactly when the subtraction borrowed, and the
    overflow flag is 1 exactly when the signed difference leaves -128..127. *)
Theorem sbc_subtracts_operand_and_borrow
    (addrMode addr cycleAdd cycleCount opaddr : Z) s :
  let val := fst (CPU.load mm addr s) in
  let c := cpu (snd (CPU.load mm addr s)) in
  let c' := cpu (snd (CPU.execute mm dev CPU.INS_SBC addrMode addr cycleAdd
                        cycleCount opaddr s)) in
  0 <= val <= 255 -> 0 <= REG_ACC c <= 255 -> 0 <= F_CARRY c <= 1 ->
  REG_ACC c' - 256 * (1 - F_CARRY c') = REG_ACC c - val - (1 - F_CARRY c)
  /\ 0 <= REG_ACC c' <= 255 /\ 0 <= F_CARRY c' <= 1
  /\ F_SIGN c' = REG_ACC c' / 128
  /\ F_ZERO c' = REG_ACC c'
  /\ F_OVERFLOW c'
     = (let diff := (if REG_ACC c <? 128 then REG_ACC c else REG_ACC c - 256)
                    - (if val <? 128 then val else val - 256) - (1 - F_CARRY c) in
        if (-128 <=? diff) && (diff <=? 127) then 0 else 1).
Proof.
  cbv zeta. unfold CPU.execute, CPU.INS_SBC. cbv iota zeta.
  destruct (CPU.load mm addr s) as [val s1]. cbn [fst snd].
  rewrite cpu_with_cpu.
  destruct (cpu s1) as [mem0 A x y sp pc pcn st C fd fi fin fo fs fz fn fnn fb fbn
                        halt cr irq ty cy].
  cbn -[Z.land Z.lor Z.lxor Z.shiftl Z.shiftr Z.eqb Z.add Z.sub Z.mul Z.div
        Z.gtb Z.ltb Z.leb].
  unfold constant. intros Hv HA HC.
  destruct (low_byte_and_sign (A - val - (1 - C))) as [Hlow Hsign].
  rewrite Hlow, Hsign.
  pose proof (Z.div_mod (A - val - (1 - C)) 256 ltac:(lia)) as Hdm.
  pose proof (Z.mod_pos_bound (A - val - (1 - C)) 256 ltac:(lia)) as Hmb.
  rewrite sbc_overflow_cases by assumption.
  destruct (Z.ltb_spec (A - val - (1 - C)) 0); repeat split; try lia.
Qed.

(** X10: CMP compares without storing: the registers and memory are those
    the operand fetch left, the carry is 1 exactly when the accumulator is
    at least the operand, and [F_ZERO] is 0 (the zero flag is set) exactly
    when the two bytes are equal. *)
Theorem cmp_orders_accumulator_and_operand
    (addrMode addr cycleAdd cycleCount opaddr : Z) s :
  let val := fst (CPU.load mm addr s) in
  let c := cpu (snd (CPU.load mm addr s)) in
  let c' := cpu (snd (CPU.execute mm dev CPU.INS_CMP addrMode addr cycleAdd
                        cycleCount opaddr s)) in
  0 <= val <= 255 -> 0 <= REG_ACC (cpu s) <= 255 ->
  F_CARRY c' = (if val <=? REG_ACC (cpu s) then 1 else 0)
  /\ (F_ZERO c' =? 0) = (REG_ACC (cpu s) =? val)
  /\ F_SIGN c' = ((REG_ACC (cpu s) - val) mod 256) / 128
  /\ (REG_ACC c', REG_X c', REG_Y c', REG_SP c', REG_PC c')
     = (REG_ACC c, REG_X c, REG_Y c, REG_SP c, REG_PC c)
  /\ mem c' = mem c.
Proof.
  cbv zeta. unfold CPU.execute, CPU.INS_CMP. cbv iota zeta.
  destruct (CPU.load mm addr s) as [val s1]. cbn [fst snd].
  rewrite cpu_with_cpu. generalize (REG_ACC (cpu s)); intros A.
  destruct (cpu s1) as [mem0 A1 x y sp pc pcn st C fd fi fin fo fs fz fn fnn fb fbn
                        halt cr irq ty cy].
  cbn -[Z.land Z.lor Z.lxor Z.shiftl Z.shiftr Z.eqb Z.add Z.sub Z.mul Z.div
        Z.gtb Z.ltb Z.leb Z.geb Z.modulo].
  unfold constant. intros Hv HA.
  destruct (low_byte_and_sign (A - val)) as [Hlow Hsign].
  rewrite Hlow, Hsign.
  pose proof (Z.div_mod (A - val) 256 ltac:(lia)) as Hdm.
  pose proof (Z.mod_pos_bound (A - val) 256 ltac:(lia)) as Hmb.
  repeat split.
  - rewrite Z.geb_leb.
    destruct (Z.leb_spec 0 (A - val)), (Z.leb_spec val A); try reflexivity; lia.
  - destruct (Z.eqb_spec ((A - val) mod 256) 0), (Z.eqb_spec A val);
      try reflexivity; lia.
Qed.

End Arithmetic.

Lemma adc_witness_new_machine :
  let c' := cpu (snd (CPU.execute (Mapper.bus Console.quiet) Console.quiet
                        CPU.INS_ADC CPU.ADDR_ZP 0 0 3 0x8000 (Console.new tt))) in
  REG_ACC c' + 256 * F_CARRY c' = 0 + 0xFF + 0.
Proof.
  cbv zeta.
  apply (adc_adds_accumulator_operand_and_carry (Mapper.bus Console.quiet)
           Console.quiet CPU.ADDR_ZP 0 0 3 0x8000 (Console.new tt));
    vm_compute; split; discriminate.
Defined.

Lemma sbc_witness_new_machine :
  let c' := cpu (snd (CPU.execute (Mapper.bus Console.quiet) Console.quiet
                        CPU.INS_SBC CPU.ADDR_ZP 0 0 3 0x8000 (Console.new tt))) in
  REG_ACC c' - 256 * (1 - F_CARRY c') = 0 - 0xFF - (1 - 0).
Proof.
  cbv zeta.
  apply (sbc_subtracts_operand_and_borrow (Mapper.bus Console.quiet)
           Console.quiet CPU.ADDR_ZP 0 0 3 0x8000 (Console.new tt));
    vm_compute; split; discriminate.
Defined.

Lemma cmp_witness_new_machine :
  F_CARRY (cpu (snd (CPU.execute (Mapper.bus Console.quiet) Console.quiet
                       CPU.INS_CMP CPU.ADDR_ZP 0 0 3 0x8000 (Console.new tt))))
  = 0.
Proof.
  apply (cmp_orders_accumulator_and_operand (Mapper.bus Console.quiet)
           Console.quiet CPU.ADDR_ZP 0 0 3 0x8000 (Console.new tt));
    vm_compute; split; discriminate.
Defined.

(** ** Rotations *)

Lemma rotate_cases (A C : Z) :
  0 <= A <= 255 -> 0 <= C <= 1 ->
  let t := ((A << 1) .& 0xff) + C in
  let k := (A >> 7) .& 1 in
  (t >> 1) + (k << 7) = A /\ t .& 1 = C /\ t + 256 * k = 2 * A + C
  /\ 0 <= t <= 255 /\ 0 <= k <= 1.
Proof.
  intros HA HC.
  pose proof (byte_cases
    (fun A => forallb (fun C =>
       let t := ((A << 1) .& 0xff) + C in
       let k := (A >> 7) .& 1 in
       ((t >> 1) + (k << 7) =? A) && (t .& 1 =? C) && (t + 256 * k =? 2 * A + C)
       && (0 <=? t) && (t <=? 255) && (0 <=? k) && (k <=? 1)) (zrange 0 2))
    ltac:(vm_compute; reflexivity) A HA) as Hb.
  cbv beta in Hb.
  pose proof (range_cases 2 _ Hb C ltac:(lia)) as Hc. cbv beta zeta in Hc.
  repeat (apply andb_true_iff in Hc; destruct Hc as [Hc ?]).
  repeat match goal with
         | H : (_ =? _) = true |- _ => apply Z.eqb_eq in H
         | H : (_ <=? _) = true |- _ => apply Z.leb_le in H
         end.
  cbv zeta. repeat split; assumption.
Qed.

Section Rotations.
Context {Ext : Type} (mm : MapperBus Ext) (dev : Devices Ext).
Implicit Types (s : NES Ext).

(** X11: on the accumulator, ROL shifts the carry in at bit 0 and bit 7 out
    into the carry (accumulator and carry together are doubled, as a 9-bit
    value), and a ROR executed next restores both the accumulator and the
    carry. *)
Theorem ror_undoes_rol_on_the_accumulator
    (addr cycleAdd cycleCount opaddr addr' cycleAdd' cycleCount' opaddr' : Z) s :
  0 <= REG_ACC (cpu s) <= 255 -> 0 <= F_CARRY (cpu s) <= 1 ->
  let s1 := snd (CPU.execute mm dev CPU.INS_ROL CPU.ADDR_ACC addr cycleAdd
                   cycleCount opaddr s) in
  let s2 := snd (CPU.execute mm dev CPU.INS_ROR CPU.ADDR_ACC addr' cycleAdd'
                   cycleCount' opaddr' s1) in
  REG_ACC (cpu s1) + 256 * F_CARRY (cpu s1)
  = 2 * REG_ACC (cpu s) + F_CARRY (cpu s)
  /\ 0 <= REG_ACC (cpu s1) <= 255
  /\ REG_ACC (cpu s2) = REG_ACC (cpu s)
  /\ F_CARRY (cpu s2) = F_CARRY (cpu s).
Proof.
  intros HA HC s1 s2.
  destruct (rotate_cases _ _ HA HC) as (Hback & Hbit & Hdouble & Hrange & _).
  cbv zeta in Hback, Hbit, Hdouble, Hrange.
  unfold CPU.execute, CPU.INS_ROL, CPU.ADDR_ACC in s1.
  cbv iota zeta in s1. change (4 =? 4) with true in s1. cbv iota in s1.
  cbn [snd] in s1.
  unfold CPU.execute, CPU.INS_ROR, CPU.ADDR_ACC in s2.
  cbv iota zeta in s2. change (4 =? 4) with true in s2. cbv iota in s2.
  cbn [snd] in s2.
  subst s2 s1.
  rewrite !cpu_with_cpu.
  destruct (cpu s) as [mem0 A x y sp pc pcn st C fd fi fin fo fs fz fn fnn fb fbn
                       halt cr irq ty cy].
  cbn -[Z.land Z.lor Z.lxor Z.shiftl Z.shiftr Z.eqb Z.add Z.sub Z.mul] in *.
  unfold constant. repeat split; try assumption; lia.
Qed.

End Rotations.

Lemma rotate_witness_new_machine :
  let q := Console.quiet in
  REG_ACC (cpu (snd (CPU.execute (Mapper.bus q) q CPU.INS_ROR CPU.ADDR_ACC 0 0 2 0
                       (snd (CPU.execute (Mapper.bus q) q CPU.INS_ROL CPU.ADDR_ACC
                               0 0 2 0 (Console.new tt))))))
  = REG_ACC (cpu (Console.new tt)).
Proof.
  cbv zeta.
  apply (ror_undoes_rol_on_the_accumulator (Mapper.bus Console.quiet) Console.quiet
           0 0 2 0 0 0 2 0 (Console.new tt));
    vm_compute; split; discriminate.
Defined.

(** ** The status byte *)

(** X12: [setStatus] and [getStatus] are inverse to each other: packing the
    flags [setStatus(st)] stored gives the byte [st] back, and unpacking the
    byte [getStatus()] packed restores the eight flags when each holds a
    bit. *)
Theorem setStatus_getStatus_round_trip (st : Z) (c : cpu_state) :
  (0 <= st <= 255 -> Status.getStatus (CPU.setStatus st c) = st)
  /\ (let bit x := (0 <=? x) && (x <=? 1) in
      bit (F_CARRY c) && bit (F_ZERO c) && bit (F_INTERRUPT c)
      && bit (F_DECIMAL c) && bit (F_BRK c) && bit (F_NOTUSED c)
      && bit (F_OVERFLOW c) && bit (F_SIGN c) = true ->
      let c' := CPU.setStatus (Status.getStatus c) c in
      (F_CARRY c', F_ZERO c', F_INTERRUPT c', F_DECIMAL c', F_BRK c',
       F_NOTUSED c', F_OVERFLOW c', F_SIGN c')
      = (F_CARRY c, F_ZERO c, F_INTERRUPT c, F_DECIMAL c, F_BRK c,
         F_NOTUSED c, F_OVERFLOW c, F_SIGN c)).
Proof.
  destruct c as [mem0 a x y sp pc pcn s0 fc fd fi fin fo fs fz fn fnn fb fbn
                 halt cr irq ty cy].
  unfold Status.getStatus, CPU.setStatus.
  cbn -[Z.land Z.lor Z.shiftl Z.shiftr Z.leb]. unfold constant. split.
  - intros Hst. apply Z.eqb_eq.
    apply (byte_cases
      (fun st => (st .& 1 .| (((st >> 1) .& 1) << 1) .| (((st >> 2) .& 1) << 2)
                  .| (((st >> 3) .& 1) << 3) .| (((st >> 4) .& 1) << 4)
                  .| (((st >> 5) .& 1) << 5) .| (((st >> 6) .& 1) << 6)
                  .| (((st >> 7) .& 1) << 7)) =? st));
      [vm_compute; reflexivity | exact Hst].
  - intros Hbits.
    repeat (apply andb_true_iff in Hbits; destruct Hbits as [Hbits ?]).
    repeat match goal with
           | H : (0 <=? ?x) && (?x <=? 1) = true |- _ =>
               apply andb_true_iff in H; destruct H as [?H ?H]
           | H : (_ <=? _) = true |- _ => apply Z.leb_le in H
           end.
    assert (Hc : fc = 0 \/ fc = 1) by lia.
    assert (Hz : fz = 0 \/ fz = 1) by lia.
    assert (Hi : fi = 0 \/ fi = 1) by lia.
    assert (Hd : fd = 0 \/ fd = 1) by lia.
    assert (Hb : fb = 0 \/ fb = 1) by lia.
    assert (Hn : fn = 0 \/ fn = 1) by lia.
    assert (Ho : fo = 0 \/ fo = 1) by lia.
    assert (Hs : fs = 0 \/ fs = 1) by lia.
    destruct Hc as [-> | ->], Hz as [-> | ->], Hi as [-> | ->], Hd as [-> | ->],
      Hb as [-> | ->], Hn as [-> | ->], Ho as [-> | ->], Hs as [-> | ->];
      reflexivity.
Qed.

Lemma status_round_trip_witness_A5 :
  Status.getStatus (CPU.setStatus 0xA5 CPU.reset) = 0xA5.
Proof.
  apply (proj1 (setStatus_getStatus_round_trip 0xA5 CPU.reset)). lia.
Defined.

(** ** The opcode table *)

(** X13: in every entry of the opcode table the instruction length fits the
    addressing mode (one byte for implied and accumulator operands, three
    for absolute, absolute indexed and indirect ones, two for the others),
    the instruction number is one of the 70 the interpreter executes, and
    the base cycle count lies between 2 and 8.  The 21 opcodes outside the
    table keep the initial entry $FF. *)
Theorem opcode_table_lengths_fit_addressing_modes (op : Z) :
  0 <= op <= 255 ->
  let d := num (CPU.OPDATA op) in
  let inst := d .& 0xff in
  let mode := (d >> 8) .& 0xff in
  let size := (d >> 16) .& 0xff in
  let cycles := d >> 24 in
  if existsb (Z.eqb op)
       [0x02; 0x12; 0x22; 0x32; 0x42; 0x52; 0x62; 0x72; 0x8B; 0x92; 0x93; 0x9B;
        0x9C; 0x9E; 0x9F; 0xAB; 0xB2; 0xBB; 0xD2; 0xEB; 0xF2]
  then d = 0xff
  else 0 <= inst <= 69 /\ 0 <= mode <= 12 /\ 2 <= cycles <= 8
       /\ size = (if (mode =? CPU.ADDR_IMP) || (mode =? CPU.ADDR_ACC) then 1
                  else if (mode =? CPU.ADDR_ABS) || (mode =? CPU.ADDR_ABSX)
                          || (mode =? CPU.ADDR_ABSY) || (mode =? CPU.ADDR_INDABS)
                       then 3 else 2).
Proof.
  intros Hop.
  pose proof (byte_cases
    (fun op =>
       let d := num (CPU.OPDATA op) in
       let inst := d .& 0xff in
       let mode := (d >> 8) .& 0xff in
       let size := (d >> 16) .& 0xff in
       let cycles := d >> 24 in
       if existsb (Z.eqb op)
            [0x02; 0x12; 0x22; 0x32; 0x42; 0x52; 0x62; 0x72; 0x8B; 0x92; 0x93;
             0x9B; 0x9C; 0x9E; 0x9F; 0xAB; 0xB2; 0xBB; 0xD2; 0xEB; 0xF2]
       then d =? 0xff
       else (0 <=? inst) && (inst <=? 69) && (0 <=? mode) && (mode <=? 12)
            && (2 <=? cycles) && (cycles <=? 8)
            && (size =? (if (mode =? CPU.ADDR_IMP) || (mode =? CPU.ADDR_ACC) then 1
                         else if (mode =? CPU.ADDR_ABS) || (mode =? CPU.ADDR_ABSX)
                                 || (mode =? CPU.ADDR_ABSY)
                                 || (mode =? CPU.ADDR_INDABS)
                              then 3 else 2)))
    ltac:(vm_compute; reflexivity) op Hop) as Hb.
  cbv beta zeta in Hb. cbv zeta.
  destruct (existsb (Z.eqb op) _).
  - apply Z.eqb_eq. exact Hb.
  - repeat (apply andb_true_iff in Hb; destruct Hb as [Hb ?]).
    repeat match goal with
           | H : (_ =? _) = true |- _ => apply Z.eqb_eq in H
           | H : (_ <=? _) = true |- _ => apply Z.leb_le in H
           end.
    repeat split; assumption.
Qed.

Lemma opcode_table_witness_jmp_indirect :
  (num (CPU.OPDATA 0x6C) >> 16) .& 0xff = 3.
Proof.
  pose proof (opcode_table_lengths_fit_addressing_modes 0x6C ltac:(lia)) as H.
  cbv zeta in H.
  change (existsb (Z.eqb 0x6C) _) with false in H. cbv iota in H.
  destruct H as (_ & _ & _ & Hsize). rewrite Hsize. vm_compute. reflexivity.
Defined.

(** ** Opcodes outside the table *)

Section Crash.
Context {Ext : Type} (dev : Devices Ext).
Implicit Types (s : NES Ext).

(** X14: when no interrupt is pending and the byte fetched from ROM is not
    an opcode of the table, [emulate()] calls [nes.stop()], records the
    address in the crash message, and returns 0 cycles; the CPU object is as
    it was, so the program counter still points before the same byte. *)
Theorem invalid_opcode_stops_the_machine s :
  irqRequested (cpu s) = false ->
  mmap s <> None ->
  0x4017 < REG_PC (cpu s) + 1 <= 0xffff ->
  0 <= REG_PC (cpu s) + 2 < 0x2000 \/ 0x4017 < REG_PC (cpu s) + 2 <= 0xffff ->
  CPU.OPDATA (mem (cpu s) (REG_PC (cpu s) + 1)) = Some 0xff ->
  CPU.emulate (Mapper.bus dev) dev s
  = (0, (nes_stop dev s){{crashMessage := Some (REG_PC (cpu s))}}).
Proof.
  intros Hreq Hmap Hpc Hpc2 Hop. unfold CPU.emulate, CPU.interruptGate.
  rewrite Hreq. destruct (mmap s) as [m|]; [|contradiction].
  change (m_load (Mapper.bus dev)) with (Mapper.load dev).
  rewrite load_high by exact Hpc. rewrite Hop.
  change (num (Some 255)) with 255.
  change (255 >> 24) with 0. change ((255 >> 8) .& 255) with 0.
  change ((255 >> 16) .& 255) with 0. change (255 .& 255) with 255.
  cbv zeta. unfold CPU.operand. cbv iota.
  assert (Hload : snd (CPU.load (Mapper.bus dev) (REG_PC (cpu s) + 2) s) = s).
  { unfold CPU.load. destruct (REG_PC (cpu s) + 2 <? 8192) eqn:Hlt; [reflexivity|].
    apply Z.ltb_ge in Hlt.
    change (m_load (Mapper.bus dev)) with (Mapper.load dev).
    rewrite load_high by lia. reflexivity. }
  destruct (CPU.load (Mapper.bus dev) (REG_PC (cpu s) + 2) s) as [a s1].
  cbn [snd] in Hload. subst s1.
  rewrite Z.add_0_r.
  assert (Hs : with_cpu s ((cpu s){{REG_PC := REG_PC (cpu s)}}) = s).
  { destruct s as [c p mo r cm e]. destruct c. reflexivity. }
  rewrite Hs. unfold CPU.execute. cbv iota zeta. reflexivity.
Qed.

End Crash.

(** The machine of [Cases.before_invalid_opcode]: the byte after the NOP
    is $02. *)
Lemma invalid_opcode_witness :
  fst (CPU.emulate (Mapper.bus Console.quiet) Console.quiet
         Cases.before_invalid_opcode) = 0
  /\ crashMessage (snd (CPU.emulate (Mapper.bus Console.quiet) Console.quiet
                           Cases.before_invalid_opcode)) = Some 0x8000.
Proof.
  rewrite (invalid_opcode_stops_the_machine Console.quiet
             Cases.before_invalid_opcode);
    [ split; vm_compute; reflexivity
    | vm_compute; reflexivity
    | vm_compute; discriminate
    | vm_compute; split; [reflexivity | discriminate]
    | right; vm_compute; split; [reflexivity | discriminate]
    | vm_compute; reflexivity ].
Defined.

(** ** The maskable interrupt *)

Section IRQ.
Context {Ext : Type} (dev : Devices Ext).
Implicit Types (s : NES Ext).

Lemma doIrq_spec (status : Z) s :
  0 <= REG_SP (cpu s) <= 255 ->
  CPU.doIrq (Mapper.bus dev) status s
  = let c := cpu s in
    let sp1 := (REG_SP c - 1) .& 0xff in
    let sp2 := (sp1 - 1) .& 0xff in
    let m1 := u8_store 0x10000 (mem c) (0x100 + REG_SP c)
                (((REG_PC_NEW c + 1) >> 8) .& 0xff) in
    let m2 := u8_store 0x10000 m1 (0x100 + sp1) ((REG_PC_NEW c + 1) .& 0xff) in
    let m3 := u8_store 0x10000 m2 (0x100 + sp2) status in
    with_cpu s (c{{mem := m3;
                   REG_SP := (sp2 - 1) .& 0xff;
                   F_INTERRUPT_NEW := 1;
                   F_BRK_NEW := 0;
                   REG_PC_NEW := (m3 0xfffe .| (m3 0xffff << 8)) - 1}}).
Proof.
  intros Hsp. unfold CPU.doIrq. cbv zeta. unfold CPU.set_PC_NEW.
  rewrite (push_spec dev _ (with_cpu s _)) by exact Hsp.
  rewrite (push_spec dev _ (with_cpu (with_cpu s _) _)) by exact (land_255_range _).
  rewrite (push_spec dev _ (with_cpu (with_cpu (with_cpu s _) _) _))
    by exact (land_255_range _).
  change (m_load (Mapper.bus dev) 65534 ?x) with (mem (cpu x) 65534, x).
  cbv iota beta.
  change (m_load (Mapper.bus dev) 65535 ?x) with (mem (cpu x) 65535, x).
  cbv iota beta.
  reflexivity.
Qed.

(** X15: the interrupt block at the start of [emulate()] with a normal IRQ
    pending, on a machine with the base mapper.  It clears the request in
    every case.  With the interrupt-disable flag set the request is dropped:
    program counter, stack pointer, memory and the I flag stay.  With the
    flag clear the return address and the status byte are pushed, the I flag
    is set, the B flag is cleared, and execution continues at the vector of
    $FFFE. *)
Theorem irq_is_taken_only_with_interrupts_enabled s :
  mmap s <> None ->
  irqRequested (cpu s) = true ->
  irqType (cpu s) = Some CPU.IRQ_NORMAL ->
  0 <= REG_SP (cpu s) <= 255 ->
  let c := cpu s in
  let c' := cpu (CPU.interruptGate (Mapper.bus dev) s) in
  irqRequested c' = false
  /\ if negb (F_INTERRUPT c =? 0) then
       REG_PC c' = REG_PC c /\ REG_SP c' = REG_SP c
       /\ F_INTERRUPT c' = F_INTERRUPT c
       /\ forall a, mem c' a = mem c a
     else
       REG_SP c' = (REG_SP c - 3) .& 0xff
       /\ REG_PC c' = (mem c 0xfffe .| (mem c 0xffff << 8)) - 1
       /\ F_INTERRUPT c' = 1 /\ F_BRK c' = 0
       /\ mem c' (0x100 + REG_SP c) = ((REG_PC c + 1) >> 8) .& 0xff
       /\ mem c' (0x100 + (REG_SP c - 1) .& 0xff) = (REG_PC c + 1) .& 0xff
       /\ mem c' (0x100 + (REG_SP c - 2) .& 0xff) = CPU.status_word c .& 0xff.
Proof.
  intros _ Hreq Htype Hsp c c'. subst c c'.
  destruct (stack_down _ Hsp) as (Hd2 & Hd3 & Hn1 & Hn2 & Hn21).
  unfold CPU.interruptGate. rewrite Hreq. cbv zeta. fields.
  change (irqType ((cpu s){{REG_PC_NEW := REG_PC (cpu s);
                            F_INTERRUPT_NEW := F_INTERRUPT (cpu s)}}))
    with (irqType (cpu s)).
  rewrite Htype. unfold CPU.IRQ_NORMAL. cbv iota.
  change (F_INTERRUPT ((cpu s){{REG_PC_NEW := REG_PC (cpu s);
                                F_INTERRUPT_NEW := F_INTERRUPT (cpu s)}}))
    with (F_INTERRUPT (cpu s)).
  destruct (negb (F_INTERRUPT (cpu s) =? 0)).
  - destruct s as [c p m r cm e].
    destruct c as [mem0 a x y sp pc pcn st fc fd fi fin fo fs fz fn fnn fb fbn
                   halt cr irq ty cy].
    cbn. repeat split.
  - rewrite doIrq_spec by exact Hsp.
    destruct s as [c p m r cm e].
    destruct c as [mem0 a x y sp pc pcn st fc fd fi fin fo fs fz fn fnn fb fbn
                   halt cr irq ty cy].
    cbn -[Z.land Z.lor Z.shiftl Z.shiftr Z.eqb u8_store CPU.status_word Z.add Z.sub] in *.
    unfold constant. rewrite Hd2, Hd3.
    pose proof (land_255_range (sp - 1)) as Hr1.
    pose proof (land_255_range (sp - 2)) as Hr2.
    repeat split.
    + rewrite !u8_store_other by lia. reflexivity.
    + rewrite !u8_store_other by lia. rewrite u8_store_same by lia.
      apply land_255_idem.
    + rewrite u8_store_other by lia. rewrite u8_store_same by lia.
      apply land_255_idem.
    + rewrite u8_store_same by lia. reflexivity.
Qed.

End IRQ.

(** A new machine with a cartridge and a normal IRQ requested: the I flag
    is set after reset, so the request is dropped. *)
Lemma irq_witness_masked_after_reset :
  let s := CPU.requestIrq CPU.IRQ_NORMAL Cases.nrom_machine in
  irqRequested (cpu (CPU.interruptGate (Mapper.bus Console.quiet) s)) = false
  /\ REG_PC (cpu (CPU.interruptGate (Mapper.bus Console.quiet) s)) = REG_PC (cpu s).
Proof.
  cbv zeta.
  pose proof (irq_is_taken_only_with_interrupts_enabled Console.quiet
                (CPU.requestIrq CPU.IRQ_NORMAL Cases.nrom_machine)
                ltac:(discriminate) eq_refl eq_refl
                ltac:(vm_compute; split; discriminate)) as H.
  cbv zeta in H. destruct H as (Hreq & Hrest).
  change (negb (F_INTERRUPT (cpu (CPU.requestIrq CPU.IRQ_NORMAL Cases.nrom_machine)) =? 0))
    with true in Hrest.
  cbv iota in Hrest. destruct Hrest as (Hpc & _).
  split; [exact Hreq | exact Hpc].
Defined.

(** ** Writes above the registers *)

Section HighMemory.
Context {Ext : Type} (dev : Devices Ext).
Implicit Types (s : NES Ext).

(** X25: on a machine with a mapper, the base mapper stores a CPU write to
    $8000-$FFFF in CPU memory like any other: the window that holds the PRG
    ROM is not protected, and the byte is read back from the same address,
    while every other cell keeps its value. *)
Theorem base_mapper_write_reaches_the_prg_window (a v : Z) s :
  mmap s <> None ->
  0x8000 <= a <= 0xffff ->
  let s' := CPU.write (Mapper.bus dev) a v s in
  CPU.load (Mapper.bus dev) a s' = (v .& 255, s')
  /\ (forall a', a' <> a -> mem (cpu s') a' = mem (cpu s) a')
  /\ ppu s' = ppu s /\ mmap s' = mmap s.
Proof.
  intros _ Ha s'.
  assert (Hs' : s' = Mapper.mem_store a v s).
  { subst s'. unfold CPU.write.
    replace (a <? 8192) with false by (symmetry; apply Z.ltb_ge; lia).
    change (m_write (Mapper.bus dev)) with (Mapper.write dev).
    unfold Mapper.write.
    replace (a <? 8192) with false by (symmetry; apply Z.ltb_ge; lia).
    rewrite Z.gtb_ltb.
    replace (16407 <? a) with true by (symmetry; apply Z.ltb_lt; lia).
    cbv zeta.
    replace (a <? 32768) with false by (symmetry; apply Z.ltb_ge; lia).
    rewrite andb_false_r. reflexivity. }
  rewrite Hs'. unfold CPU.load.
  replace (a <? 8192) with false by (symmetry; apply Z.ltb_ge; lia).
  change (m_load (Mapper.bus dev)) with (Mapper.load dev).
  rewrite load_high by lia.
  unfold Mapper.mem_store. cbv zeta. fields.
  change (mem ((cpu s){{mem := ?f}})) with f.
  repeat split.
  - rewrite u8_store_same by lia. reflexivity.
  - intros a' Hne. apply u8_store_other. exact Hne.
Qed.

End HighMemory.

Lemma prg_window_witness_reset_vector :
  fst (CPU.load (Mapper.bus Console.quiet) 0xFFFC
         (CPU.write (Mapper.bus Console.quiet) 0xFFFC 0x42 Cases.nrom_machine))
  = 0x42.
Proof.
  pose proof (base_mapper_write_reaches_the_prg_window Console.quiet 0xFFFC 0x42
                Cases.nrom_machine ltac:(discriminate) ltac:(lia)) as H.
  cbv zeta in H. destruct H as [H _]. rewrite H. reflexivity.
Defined.

(** ** Saving and restoring the flags *)

Lemma php_plp_cases (fc fi fd fn fo fs : Z) (z : bool) :
  0 <= fc <= 1 -> 0 <= fi <= 1 -> 0 <= fd <= 1 -> 0 <= fn <= 1 ->
  0 <= fo <= 1 -> 0 <= fs <= 1 ->
  let w := (fc .| ((if z then 1 else 0) << 1) .| (fi << 2) .| (fd << 3)
            .| (1 << 4) .| (fn << 5) .| (fo << 6) .| (fs << 7)) .& 255 in
  w .& 1 = fc /\ ((w >> 1) .& 1 =? 1) = z /\ (w >> 2) .& 1 = fi
  /\ (w >> 3) .& 1 = fd /\ (w >> 4) .& 1 = 1 /\ (w >> 6) .& 1 = fo
  /\ (w >> 7) .& 1 = fs.
Proof.
  intros Hc Hi Hd Hn Ho Hs.
  assert (Ec : fc = 0 \/ fc = 1) by lia. assert (Ei : fi = 0 \/ fi = 1) by lia.
  assert (Ed : fd = 0 \/ fd = 1) by lia. assert (En : fn = 0 \/ fn = 1) by lia.
  assert (Eo : fo = 0 \/ fo = 1) by lia. assert (Es : fs = 0 \/ fs = 1) by lia.
  destruct Ec as [-> | ->], Ei as [-> | ->], Ed as [-> | ->], En as [-> | ->],
    Eo as [-> | ->], Es as [-> | ->], z; vm_compute; repeat split.
Qed.

Section Flags.
Context {Ext : Type} (dev : Devices Ext).
Implicit Types (s : NES Ext).

(** X26: PLP after PHP, on a machine with a mapper.  With every flag field
    a bit, the pair restores the carry, interrupt-disable, decimal, overflow
    and sign flags and the stack pointer; the zero flag keeps its meaning
    ([F_ZERO] is 0 after the pair exactly when it was before); the B flag
    and the unused flag are 1. *)
Theorem plp_after_php_restores_the_flags
    (addrMode addr cycleAdd cycleCount opaddr addrMode' addr' cycleAdd'
     cycleCount' opaddr' : Z) s :
  let c := cpu s in
  mmap s <> None ->
  0 <= REG_SP c <= 255 ->
  0 <= F_CARRY c <= 1 -> 0 <= F_INTERRUPT c <= 1 -> 0 <= F_DECIMAL c <= 1 ->
  0 <= F_NOTUSED c <= 1 -> 0 <= F_OVERFLOW c <= 1 -> 0 <= F_SIGN c <= 1 ->
  let s1 := snd (CPU.execute (Mapper.bus dev) dev CPU.INS_PHP addrMode addr
                   cycleAdd cycleCount opaddr s) in
  let c2 := cpu (snd (CPU.execute (Mapper.bus dev) dev CPU.INS_PLP addrMode' addr'
                        cycleAdd' cycleCount' opaddr' s1)) in
  (F_CARRY c2, F_INTERRUPT c2, F_DECIMAL c2, F_OVERFLOW c2, F_SIGN c2, REG_SP c2)
  = (F_CARRY c, F_INTERRUPT c, F_DECIMAL c, F_OVERFLOW c, F_SIGN c, REG_SP c)
  /\ (F_ZERO c2 =? 0) = (F_ZERO c =? 0)
  /\ F_BRK c2 = 1 /\ F_NOTUSED c2 = 1.
Proof.
  intros c _ Hsp Hc Hi Hd Hn Ho Hs s1 c2. subst c.
  destruct (stack_up _ Hsp) as [Hup _].
  assert (Hs1 : s1 = CPU.push (Mapper.bus dev)
                       (CPU.status_word ((cpu s){{F_BRK := 1}}))
                       (with_cpu s ((cpu s){{F_BRK := 1}}))).
  { subst s1. unfold CPU.execute, CPU.INS_PHP. cbv iota zeta. cbn [snd].
    rewrite cpu_with_cpu. reflexivity. }
  assert (Hc2 : c2 = (CPU.pull_flags (fst (CPU.pull (Mapper.bus dev) s1))
                        (cpu (snd (CPU.pull (Mapper.bus dev) s1))))
                       {{F_NOTUSED := 1}}).
  { subst c2. unfold CPU.execute, CPU.INS_PLP. cbv iota zeta.
    destruct (CPU.pull (Mapper.bus dev) s1) as [temp s2]. cbn [fst snd].
    rewrite cpu_with_cpu. reflexivity. }
  rewrite Hc2, pull_spec, Hs1. clear Hs1 Hc2 s1 c2. cbn [fst snd].
  rewrite (push_spec dev _ (with_cpu s _)) by exact Hsp.
  destruct s as [c p m r cm e].
  destruct c as [mem0 a x y sp pc pcn st fc fd fi fin fo fs fz fn fnn fb fbn
                 halt cr irq ty cy].
  unfold CPU.pull_flags, CPU.status_word.
  cbn -[Z.land Z.lor Z.shiftl Z.shiftr Z.eqb u8_store Z.add Z.sub] in *.
  unfold constant. rewrite Hup.
  rewrite u8_store_same by lia.
  destruct (php_plp_cases fc fi fd fn fo fs (fz =? 0) Hc Hi Hd Hn Ho Hs)
    as (H0 & H1 & H2 & H3 & H4 & H6 & H7).
  cbv zeta in H0, H1, H2, H3, H4, H6, H7.
  rewrite H0, H1, H2, H3, H4, H6, H7. repeat split.
  destruct (fz =? 0); reflexivity.
Qed.

End Flags.


Lemma plp_after_php_witness_new_machine :
  let q := Console.quiet in
  F_CARRY (cpu (snd (CPU.execute (Mapper.bus q) q CPU.INS_PLP 2 0 0 4 0
                       (snd (CPU.execute (Mapper.bus q) q CPU.INS_PHP 2 0 0 3 0
                               Cases.nrom_machine)))))
  = F_CARRY (cpu Cases.nrom_machine).
Proof.
  cbv zeta.
  pose proof (plp_after_php_restores_the_flags Console.quiet 2 0 0 3 0 2 0 0 4 0
                Cases.nrom_machine) as H.
  cbv zeta in H.
  destruct H as [H _]; [discriminate | vm_compute; split; discriminate .. | ].
  exact (f_equal (fun t => fst (fst (fst (fst (fst t))))) H).
Defined.

(** ** The VRAM address registers *)

Lemma vt_merge (old hi : Z) :
  ((old .& 7) .| ((hi .& 3) << 3)) .& 24 = (hi .& 3) << 3.
Proof.
  rewrite Z.land_lor_distr_l, <- Z.land_assoc.
  change (7 .& 24) with 0. rewrite Z.land_0_r, Z.lor_0_l.
  assert (Hw : 0 <= hi .& 3 < 4).
  { change 3 with (Z.ones 2). rewrite Z.land_ones by lia.
    apply Z.mod_pos_bound. reflexivity. }
  apply Z.eqb_eq.
  apply (range_cases 4 (fun w => ((w << 3) .& 24) =? (w << 3)));
    [reflexivity | exact Hw].
Qed.

(** Packing five fields and unpacking the address, on plain numbers. *)
Lemma pack_unpack_cases (fv v h vt ht : Z) :
  0 <= fv <= 7 -> 0 <= v <= 1 -> 0 <= h <= 1 -> 0 <= vt <= 31 -> 0 <= ht <= 31 ->
  let b1 := ((fv .& 7) << 4) .| ((v .& 1) << 3) .| ((h .& 1) << 2)
            .| ((vt >> 3) .& 3) in
  let b2 := ((vt .& 7) << 5) .| (ht .& 31) in
  let t := ((b1 << 8) .| b2) .& 0x7fff in
  let hi := (t >> 8) .& 0xff in
  let lo := t .& 0xff in
  (hi >> 4) .& 7 = fv /\ (hi >> 4) .& 3 = fv mod 4
  /\ (hi >> 3) .& 1 = v /\ (hi >> 2) .& 1 = h
  /\ ((hi .& 3) << 3) .| ((lo >> 5) .& 7) = vt
  /\ lo .& 31 = ht.
Proof.
  intros Hfv Hv Hh Hvt Hht.
  pose proof (range_cases 8
    (fun fv => forallb (fun v => forallb (fun h => forallb (fun vt =>
       forallb (fun ht =>
         let b1 := ((fv .& 7) << 4) .| ((v .& 1) << 3) .| ((h .& 1) << 2)
                   .| ((vt >> 3) .& 3) in
         let b2 := ((vt .& 7) << 5) .| (ht .& 31) in
         let t := ((b1 << 8) .| b2) .& 0x7fff in
         let hi := (t >> 8) .& 0xff in
         let lo := t .& 0xff in
         ((hi >> 4) .& 7 =? fv) && ((hi >> 4) .& 3 =? fv mod 4)
         && ((hi >> 3) .& 1 =? v) && ((hi >> 2) .& 1 =? h)
         && ((((hi .& 3) << 3) .| ((lo >> 5) .& 7)) =? vt)
         && (lo .& 31 =? ht))
       (zrange 0 32)) (zrange 0 32)) (zrange 0 2)) (zrange 0 2))
    ltac:(vm_compute; reflexivity) fv ltac:(lia)) as H1.
  cbv beta in H1.
  pose proof (range_cases 2 _ H1 v ltac:(lia)) as H2. cbv beta in H2.
  pose proof (range_cases 2 _ H2 h ltac:(lia)) as H3. cbv beta in H3.
  pose proof (range_cases 32 _ H3 vt ltac:(lia)) as H4. cbv beta in H4.
  pose proof (range_cases 32 _ H4 ht ltac:(lia)) as H5. cbv beta zeta in H5.
  repeat (apply andb_true_iff in H5; destruct H5 as [H5 ?]).
  repeat match goal with
         | H : (_ =? _) = true |- _ => apply Z.eqb_eq in H
         end.
  cbv zeta. repeat split; assumption.
Qed.

(** Unpacking an address and packing the fields, on plain numbers. *)
Lemma unpack_pack_cases (t : Z) :
  0 <= t < 0x8000 ->
  let hi := (t >> 8) .& 0xff in
  let lo := t .& 0xff in
  let vt := ((hi .& 3) << 3) .| ((lo >> 5) .& 7) in
  let b1 := ((((hi >> 4) .& 7) .& 7) << 4) .| ((((hi >> 3) .& 1) .& 1) << 3)
            .| ((((hi >> 2) .& 1) .& 1) << 2) .| ((vt >> 3) .& 3) in
  let b2 := ((vt .& 7) << 5) .| ((lo .& 31) .& 31) in
  ((b1 << 8) .| b2) .& 0x7fff = t.
Proof.
  intros Ht.
  assert (Hh : 0 <= t / 256 < 128)
    by (split; [apply Z.div_pos; lia | apply Z.div_lt_upper_bound; lia]).
  pose proof (Z.mod_pos_bound t 256 eq_refl) as Hl.
  pose proof (range_cases 128
    (fun h => forallb (fun l =>
       (fun t =>
       let hi := (t >> 8) .& 0xff in
       let lo := t .& 0xff in
       let vt := ((hi .& 3) << 3) .| ((lo >> 5) .& 7) in
       let b1 := ((((hi >> 4) .& 7) .& 7) << 4) .| ((((hi >> 3) .& 1) .& 1) << 3)
                 .| ((((hi >> 2) .& 1) .& 1) << 2) .| ((vt >> 3) .& 3) in
       let b2 := ((vt .& 7) << 5) .| ((lo .& 31) .& 31) in
       ((b1 << 8) .| b2) .& 0x7fff =? t) (256 * h + l))
       (zrange 0 256))
    ltac:(vm_compute; reflexivity) (t / 256) Hh) as H1.
  cbv beta in H1.
  pose proof (byte_cases _ H1 (t mod 256) ltac:(lia)) as H2. cbv beta in H2.
  rewrite <- (Z.div_mod t 256) in H2 by lia.
  apply Z.eqb_eq. exact H2.
Qed.

(** X16: the packing of the five scroll registers into [vramTmpAddress] and
    its unpacking are inverse to each other: [regsFromAddress] after
    [regsToAddress] restores registers that are in range (fine Y below 8,
    the two name-table bits, tile row and column below 32), and
    [regsToAddress] after [regsFromAddress] gives a 15-bit address back. *)
Theorem regs_address_round_trip (p : ppu_state) (t : Z) :
  (0 <= regFV p <= 7 -> 0 <= regV p <= 1 -> 0 <= regH p <= 1 ->
   0 <= regVT p <= 31 -> 0 <= regHT p <= 31 ->
   let p' := VRAMAddress.regsFromAddress (VRAMAddress.regsToAddress p) p in
   (regFV p', regV p', regH p', regVT p', regHT p')
   = (regFV p, regV p, regH p, regVT p, regHT p))
  /\ (0 <= t < 0x8000 ->
      VRAMAddress.regsToAddress (VRAMAddress.regsFromAddress t p) = t).
Proof.
  split.
  - intros Hfv Hv Hh Hvt Hht.
    destruct (pack_unpack_cases _ _ _ _ _ Hfv Hv Hh Hvt Hht)
      as (H1 & _ & H2 & H3 & H4 & H5).
    cbv zeta in H1, H2, H3, H4, H5.
    unfold VRAMAddress.regsFromAddress, VRAMAddress.regsToAddress. cbv zeta.
    change (regFV (?q{{regHT := ?x}})) with (regFV q).
    change (regV (?q{{regHT := ?x}})) with (regV q).
    change (regH (?q{{regHT := ?x}})) with (regH q).
    change (regVT (?q{{regHT := ?x}})) with (regVT q).
    change (regHT (?q{{regHT := ?x}})) with x.
    change (regFV (?q{{regVT := ?x}})) with (regFV q).
    change (regV (?q{{regVT := ?x}})) with (regV q).
    change (regH (?q{{regVT := ?x}})) with (regH q).
    change (regVT (?q{{regVT := ?x}})) with x.
    change (regVT (p{{regFV := ?a; regV := ?b; regH := ?c; regVT := ?d}})) with d.
    change (regFV (p{{regFV := ?a; regV := ?b; regH := ?c; regVT := ?d}})) with a.
    change (regV (p{{regFV := ?a; regV := ?b; regH := ?c; regVT := ?d}})) with b.
    change (regH (p{{regFV := ?a; regV := ?b; regH := ?c; regVT := ?d}})) with c.
    rewrite vt_merge, H1, H2, H3, H4, H5. reflexivity.
  - intros Ht. pose proof (unpack_pack_cases t Ht) as H. cbv zeta in H.
    unfold VRAMAddress.regsFromAddress, VRAMAddress.regsToAddress. cbv zeta.
    change (regFV (?q{{regHT := ?x}})) with (regFV q).
    change (regV (?q{{regHT := ?x}})) with (regV q).
    change (regH (?q{{regHT := ?x}})) with (regH q).
    change (regVT (?q{{regHT := ?x}})) with (regVT q).
    change (regHT (?q{{regHT := ?x}})) with x.
    change (regFV (?q{{regVT := ?x}})) with (regFV q).
    change (regV (?q{{regVT := ?x}})) with (regV q).
    change (regH (?q{{regVT := ?x}})) with (regH q).
    change (regVT (?q{{regVT := ?x}})) with x.
    change (regVT (p{{regFV := ?a; regV := ?b; regH := ?c; regVT := ?d}})) with d.
    change (regFV (p{{regFV := ?a; regV := ?b; regH := ?c; regVT := ?d}})) with a.
    change (regV (p{{regFV := ?a; regV := ?b; regH := ?c; regVT := ?d}})) with b.
    change (regH (p{{regFV := ?a; regV := ?b; regH := ?c; regVT := ?d}})) with c.
    rewrite vt_merge. exact H.
Qed.

Lemma regs_address_witness_7ABC :
  VRAMAddress.regsToAddress (VRAMAddress.regsFromAddress 0x7ABC Console.PPU_reset) = 0x7ABC.
Proof.
  apply (proj2 (regs_address_round_trip Console.PPU_reset 0x7ABC)). lia.
Defined.

Lemma unpack_pack_counter_cases (t : Z) :
  0 <= t < 0x8000 ->
  let hi := (t >> 8) .& 0xff in
  let lo := t .& 0xff in
  let vt := ((hi .& 3) << 3) .| ((lo >> 5) .& 7) in
  let b1 := ((((hi >> 4) .& 3) .& 7) << 4) .| ((((hi >> 3) .& 1) .& 1) << 3)
            .| ((((hi >> 2) .& 1) .& 1) << 2) .| ((vt >> 3) .& 3) in
  let b2 := ((vt .& 7) << 5) .| ((lo .& 31) .& 31) in
  ((b1 << 8) .| b2) .& 0x7fff = t mod 0x4000.
Proof.
  intros Ht.
  assert (Hh : 0 <= t / 256 < 128)
    by (split; [apply Z.div_pos; lia | apply Z.div_lt_upper_bound; lia]).
  pose proof (Z.mod_pos_bound t 256 eq_refl) as Hl.
  pose proof (range_cases 128
    (fun h => forallb (fun l =>
       (fun t =>
       let hi := (t >> 8) .& 0xff in
       let lo := t .& 0xff in
       let vt := ((hi .& 3) << 3) .| ((lo >> 5) .& 7) in
       let b1 := ((((hi >> 4) .& 3) .& 7) << 4) .| ((((hi >> 3) .& 1) .& 1) << 3)
                 .| ((((hi >> 2) .& 1) .& 1) << 2) .| ((vt >> 3) .& 3) in
       let b2 := ((vt .& 7) << 5) .| ((lo .& 31) .& 31) in
       ((b1 << 8) .| b2) .& 0x7fff =? t mod 0x4000) (256 * h + l))
       (zrange 0 256))
    ltac:(vm_compute; reflexivity) (t / 256) Hh) as H1.
  cbv beta in H1.
  pose proof (byte_cases _ H1 (t mod 256) ltac:(lia)) as H2. cbv beta in H2.
  rewrite <- (Z.div_mod t 256) in H2 by lia.
  apply Z.eqb_eq. exact H2.
Qed.

(** X17: the same packing for the counters keeps 14 bits only.
    [cntsFromAddress] reads two bits of fine Y where [cntsToAddress] writes
    three: after packing and unpacking, the name-table bits, tile row and
    tile column are restored and [cntFV] is reduced modulo 4; unpacking and
    packing a 15-bit [vramAddress] gives the address modulo $4000. *)
Theorem cnts_address_round_trip_keeps_14_bits (p : ppu_state) (t : Z) :
  (0 <= cntFV p <= 7 -> 0 <= cntV p <= 1 -> 0 <= cntH p <= 1 ->
   0 <= cntVT p <= 31 -> 0 <= cntHT p <= 31 ->
   let p' := VRAMAddress.cntsFromAddress (VRAMAddress.cntsToAddress p) p in
   (cntFV p', cntV p', cntH p', cntVT p', cntHT p')
   = (cntFV p mod 4, cntV p, cntH p, cntVT p, cntHT p))
  /\ (0 <= t < 0x8000 ->
      VRAMAddress.cntsToAddress (VRAMAddress.cntsFromAddress t p) = t mod 0x4000).
Proof.
  split.
  - intros Hfv Hv Hh Hvt Hht.
    destruct (pack_unpack_cases _ _ _ _ _ Hfv Hv Hh Hvt Hht)
      as (_ & H1 & H2 & H3 & H4 & H5).
    cbv zeta in H1, H2, H3, H4, H5.
    unfold VRAMAddress.cntsFromAddress, VRAMAddress.cntsToAddress. cbv zeta.
    change (cntFV (?q{{cntHT := ?x}})) with (cntFV q).
    change (cntV (?q{{cntHT := ?x}})) with (cntV q).
    change (cntH (?q{{cntHT := ?x}})) with (cntH q).
    change (cntVT (?q{{cntHT := ?x}})) with (cntVT q).
    change (cntHT (?q{{cntHT := ?x}})) with x.
    change (cntFV (?q{{cntVT := ?x}})) with (cntFV q).
    change (cntV (?q{{cntVT := ?x}})) with (cntV q).
    change (cntH (?q{{cntVT := ?x}})) with (cntH q).
    change (cntVT (?q{{cntVT := ?x}})) with x.
    change (cntVT (p{{cntFV := ?a; cntV := ?b; cntH := ?c; cntVT := ?d}})) with d.
    change (cntFV (p{{cntFV := ?a; cntV := ?b; cntH := ?c; cntVT := ?d}})) with a.
    change (cntV (p{{cntFV := ?a; cntV := ?b; cntH := ?c; cntVT := ?d}})) with b.
    change (cntH (p{{cntFV := ?a; cntV := ?b; cntH := ?c; cntVT := ?d}})) with c.
    rewrite vt_merge, H1, H2, H3, H4, H5. reflexivity.
  - intros Ht. pose proof (unpack_pack_counter_cases t Ht) as H. cbv zeta in H.
    unfold VRAMAddress.cntsFromAddress, VRAMAddress.cntsToAddress. cbv zeta.
    change (cntFV (?q{{cntHT := ?x}})) with (cntFV q).
    change (cntV (?q{{cntHT := ?x}})) with (cntV q).
    change (cntH (?q{{cntHT := ?x}})) with (cntH q).
    change (cntVT (?q{{cntHT := ?x}})) with (cntVT q).
    change (cntHT (?q{{cntHT := ?x}})) with x.
    change (cntFV (?q{{cntVT := ?x}})) with (cntFV q).
    change (cntV (?q{{cntVT := ?x}})) with (cntV q).
    change (cntH (?q{{cntVT := ?x}})) with (cntH q).
    change (cntVT (?q{{cntVT := ?x}})) with x.
    change (cntVT (p{{cntFV := ?a; cntV := ?b; cntH := ?c; cntVT := ?d}})) with d.
    change (cntFV (p{{cntFV := ?a; cntV := ?b; cntH := ?c; cntVT := ?d}})) with a.
    change (cntV (p{{cntFV := ?a; cntV := ?b; cntH := ?c; cntVT := ?d}})) with b.
    change (cntH (p{{cntFV := ?a; cntV := ?b; cntH := ?c; cntVT := ?d}})) with c.
    rewrite vt_merge. exact H.
Qed.

Lemma cnts_address_witness_7ABC :
  VRAMAddress.cntsToAddress (VRAMAddress.cntsFromAddress 0x7ABC Console.PPU_reset) = 0x3ABC.
Proof.
  apply (proj2 (cnts_address_round_trip_keeps_14_bits Console.PPU_reset 0x7ABC)). lia.
Defined.

(** ** Sprite memory through the registers *)

Section OAM.
Context {Ext : Type} (dev : Devices Ext).
Implicit Types (s : NES Ext).

Lemma write_2003 (a : Z) s :
  CPU.write (Mapper.bus dev) 0x2003 a s
  = with_ppu s (PPU.writeSRAMAddress a (ppu s)).
Proof. reflexivity. Qed.

Lemma write_2004 (v : Z) s :
  CPU.write (Mapper.bus dev) 0x2004 v s = with_ppu s (PPU.sramWrite v (ppu s)).
Proof. reflexivity. Qed.

Lemma read_2004 s :
  CPU.load (Mapper.bus dev) 0x2004 s = (num (PPU.sramLoad (ppu s)), s).
Proof. reflexivity. Qed.

Lemma sramWrite_spec (v : Z) (p : ppu_state) :
  spriteMem (PPU.sramWrite v p) = upd (spriteMem p) (sramAddress p) (Some v)
  /\ sramAddress (PPU.sramWrite v p) = (sramAddress p + 1) mod 0x100.
Proof.
  unfold PPU.sramWrite. cbv zeta.
  match goal with
  | |- context [PPU.spriteRamWriteUpdate ?a ?x ?q] =>
      destruct (spriteRamWriteUpdate_frame a x q) as [Hm Ha];
      set (u := PPU.spriteRamWriteUpdate a x q) in *
  end.
  change (spriteMem (u{{sramAddress := ?x}})) with (spriteMem u).
  change (sramAddress (u{{sramAddress := ?x}})) with x.
  rewrite Hm, Ha. split; reflexivity.
Qed.

(** X18: on a machine with a mapper, a byte written to $2004 is stored in
    sprite memory at the address set through $2003 and is read back from
    $2004 once the address is set again; the write advances the address by
    one, wrapping from 255 to 0, and leaves the other cells of sprite memory
    alone. *)
Theorem oam_data_write_then_read (a v : Z) s :
  mmap s <> None ->
  0 <= a <= 255 ->
  let s1 := CPU.write (Mapper.bus dev) 0x2003 a s in
  let s2 := CPU.write (Mapper.bus dev) 0x2004 v s1 in
  let s3 := CPU.write (Mapper.bus dev) 0x2003 a s2 in
  sramAddress (ppu s2) = (if a =? 255 then 0 else a + 1)
  /\ fst (CPU.load (Mapper.bus dev) 0x2004 s3) = v
  /\ (forall i, i <> a -> spriteMem (ppu s2) i = spriteMem (ppu s) i).
Proof.
  intros _ Ha s1 s2 s3. subst s3 s2 s1.
  rewrite !write_2003, !write_2004, read_2004. fields.
  destruct (sramWrite_spec v (PPU.writeSRAMAddress a (ppu s))) as [Hm Hadr].
  unfold PPU.sramLoad.
  change (spriteMem (PPU.writeSRAMAddress a ?q)) with (spriteMem q) in *.
  change (sramAddress (PPU.writeSRAMAddress a ?q)) with a in *.
  rewrite Hm, Hadr. cbn [fst]. repeat split.
  - destruct (Z.eqb_spec a 255) as [-> | Hne]; [reflexivity|].
    apply Z.mod_small. lia.
  - rewrite upd_same. reflexivity.
  - intros i Hi. apply upd_other. exact Hi.
Qed.

End OAM.

Lemma oam_witness_last_cell :
  fst (CPU.load (Mapper.bus Console.quiet) 0x2004
         (CPU.write (Mapper.bus Console.quiet) 0x2003 255
            (CPU.write (Mapper.bus Console.quiet) 0x2004 0x5A
               (CPU.write (Mapper.bus Console.quiet) 0x2003 255 Cases.nrom_machine))))
  = 0x5A.
Proof.
  apply (oam_data_write_then_read Console.quiet 255 0x5A Cases.nrom_machine).
  - discriminate.
  - lia.
Defined.

(** ** The sprite tables after a DMA *)

(** A loop whose turn [i] writes entry [i] of an observed table and leaves
    the other entries alone. *)
Lemma for_range_entries {St A : Type} (step : Z -> St -> St) (obs : St -> Z -> A)
    (I : St -> Prop) (new : Z -> A) :
  (forall i s, I s -> I (step i s)) ->
  (forall i s, I s -> obs (step i s) i = new i) ->
  (forall i j s, j <> i -> obs (step i s) j = obs s j) ->
  forall n lo s j, I s ->
    obs (for_range lo n step s) j
    = if (lo <=? j) && (j <? lo + Z.of_nat n) then new j else obs s j.
Proof.
  intros Hinv Hset Hkeep. induction n as [|n IH]; intros lo s j Hs.
  - unfold for_range. cbn [zrange seq map fold_left].
    replace ((lo <=? j) && (j <? lo + Z.of_nat 0)) with false; [reflexivity|].
    symmetry. apply andb_false_iff.
    destruct (Z.leb_spec lo j); [right; apply Z.ltb_ge; lia | left; reflexivity].
  - rewrite for_range_S. rewrite IH by (apply Hinv; exact Hs).
    destruct (Z.eq_dec j lo) as [-> | Hne].
    + rewrite Hset by exact Hs.
      replace ((lo + 1 <=? lo) && (lo <? lo + 1 + Z.of_nat n)) with false
        by (symmetry; apply andb_false_iff; left; apply Z.leb_gt; lia).
      replace ((lo <=? lo) && (lo <? lo + Z.of_nat (S n))) with true
        by (symmetry; apply andb_true_iff; split;
            [apply Z.leb_le | apply Z.ltb_lt]; lia).
      reflexivity.
    + rewrite Hkeep by exact Hne.
      replace ((lo + 1 <=? j) && (j <? lo + 1 + Z.of_nat n))
        with ((lo <=? j) && (j <? lo + Z.of_nat (S n))); [reflexivity|].
      destruct (Z.leb_spec lo j), (Z.leb_spec (lo + 1) j),
        (Z.ltb_spec j (lo + Z.of_nat (S n))),
        (Z.ltb_spec j (lo + 1 + Z.of_nat n)); try reflexivity; lia.
Qed.

(** [checkSprite0] only writes the two hit coordinates. *)
Lemma checkSprite0_writes_hit_only (scan : Z) (p : ppu_state) :
  exists hx hy, snd (PPU.checkSprite0 scan p) = p{{spr0HitX := hx; spr0HitY := hy}}.
Proof.
  unfold PPU.checkSprite0. case_matches; eexists; eexists; reflexivity.
Qed.

(** The decoded tables after one byte of sprite memory was written. *)
Lemma spriteRamWriteUpdate_tables (a : Z) (v : option Z) (p : ppu_state) :
  let p' := PPU.spriteRamWriteUpdate a v p in
  sprY p' = (if a mod 4 =? 0 then upd (sprY p) (a / 4) v else sprY p)
  /\ sprTile p' = (if a mod 4 =? 1 then upd (sprTile p) (a / 4) v else sprTile p)
  /\ sprX p' = (if a mod 4 =? 3 then upd (sprX p) (a / 4) v else sprX p)
  /\ vertFlip p' = (if a mod 4 =? 2
                    then upd (vertFlip p) (a / 4) (negb ((num v .& 0x80) =? 0))
                    else vertFlip p)
  /\ horiFlip p' = (if a mod 4 =? 2
                    then upd (horiFlip p) (a / 4) (negb ((num v .& 0x40) =? 0))
                    else horiFlip p)
  /\ bgPriority p' = (if a mod 4 =? 2
                      then upd (bgPriority p) (a / 4) (negb ((num v .& 0x20) =? 0))
                      else bgPriority p)
  /\ sprCol p' = (if a mod 4 =? 2
                  then upd (sprCol p) (a / 4) (Some ((num v .& 3) << 2))
                  else sprCol p).
Proof.
  cbv zeta. unfold PPU.spriteRamWriteUpdate. cbv zeta.
  assert (Hq : exists hx hy,
             (if a / 4 =? 0 then snd (PPU.checkSprite0 (scanline p - 20) p) else p)
             = p{{spr0HitX := hx; spr0HitY := hy}}).
  { destruct (a / 4 =? 0).
    - apply checkSprite0_writes_hit_only.
    - exists (spr0HitX p), (spr0HitY p). destruct p. reflexivity. }
  destruct Hq as (hx & hy & ->).
  pose proof (Z.mod_pos_bound a 4 eq_refl) as Hr.
  assert (Hcases : a mod 4 = 0 \/ a mod 4 = 1 \/ a mod 4 = 2 \/ a mod 4 = 3) by lia.
  destruct Hcases as [-> | [-> | [-> | ->]]]; repeat split.
Qed.

Section DMATables.
Context {Ext : Type} (dev : Devices Ext).
Implicit Types (s : NES Ext).

Lemma sramDMA_step_cpu (base i : Z) s : cpu (PPU.sramDMA_step base i s) = cpu s.
Proof. reflexivity. Qed.

Lemma quarter_distinct (i j : Z) : j <> i -> j mod 4 = i mod 4 -> j / 4 <> i / 4.
Proof.
  intros Hne Hmod Hdiv.
  pose proof (Z.div_mod i 4 ltac:(lia)). pose proof (Z.div_mod j 4 ltac:(lia)). lia.
Qed.

(** One table of the sprite renderer across the DMA loop: [get] reads the
    table, and byte [k] of each sprite (its bytes are [4 n + k]) is
    decoded by [dec] into entry [n]. *)
Lemma sramDMA_loop_table {A : Type} (get : ppu_state -> Z -> A) (k : Z)
    (dec : option Z -> A) (base : Z) :
  0 <= k < 4 ->
  (forall a v p, get (PPU.spriteRamWriteUpdate a v p)
                 = if a mod 4 =? k then upd (get p) (a / 4) (dec v) else get p) ->
  (forall p f, get (p{{spriteMem := f}}) = get p) ->
  forall n lo s t,
    lo <= 4 * t + k < lo + Z.of_nat n ->
    get (ppu (for_range lo n (PPU.sramDMA_step base) s)) t
    = dec (PPU.mem_read (cpu s) (base + (4 * t + k))).
Proof.
  intros Hk Hupd Hframe n lo s t Hin.
  pose proof (for_range_entries (PPU.sramDMA_step base)
                (fun s j => if j mod 4 =? k then Some (get (ppu s) (j / 4)) else None)
                (fun s' => cpu s' = cpu s)
                (fun j => if j mod 4 =? k
                          then Some (dec (PPU.mem_read (cpu s) (base + j)))
                          else None)) as H.
  assert (Hmod : (4 * t + k) mod 4 = k).
  { rewrite Z.add_comm, Z.mul_comm, Z.mod_add by lia. apply Z.mod_small. exact Hk. }
  assert (Hdiv : (4 * t + k) / 4 = t).
  { rewrite Z.add_comm, Z.mul_comm, Z.div_add by lia.
    rewrite Z.div_small by exact Hk. reflexivity. }
  specialize (H ltac:(intros; assumption)).
  assert (Hstep : forall i s0, get (ppu (PPU.sramDMA_step base i s0))
                    = if i mod 4 =? k
                      then upd (get (ppu s0)) (i / 4)
                             (dec (PPU.mem_read (cpu s0) (base + i)))
                      else get (ppu s0)).
  { intros i s0. unfold PPU.sramDMA_step. cbv zeta. rewrite ppu_with_ppu.
    rewrite Hupd, Hframe. reflexivity. }
  assert (Hset : forall i s0, cpu s0 = cpu s ->
            (if i mod 4 =? k
             then Some (get (ppu (PPU.sramDMA_step base i s0)) (i / 4)) else None)
            = (if i mod 4 =? k
               then Some (dec (PPU.mem_read (cpu s) (base + i))) else None)).
  { intros i s0 Hc. destruct (i mod 4 =? k) eqn:Hik; [|reflexivity].
    rewrite Hstep, Hik, upd_same, Hc. reflexivity. }
  assert (Hkeep : forall i j s0, j <> i ->
            (if j mod 4 =? k
             then Some (get (ppu (PPU.sramDMA_step base i s0)) (j / 4)) else None)
            = (if j mod 4 =? k then Some (get (ppu s0) (j / 4)) else None)).
  { intros i j s0 Hne. destruct (Z.eqb_spec (j mod 4) k) as [Hjk|]; [|reflexivity].
    rewrite Hstep. destruct (Z.eqb_spec (i mod 4) k) as [Hik|]; [|reflexivity].
    rewrite upd_other; [reflexivity|].
    apply quarter_distinct; [exact Hne | congruence]. }
  specialize (H Hset Hkeep n lo s (4 * t + k) eq_refl).
  cbv beta in H. rewrite Hmod, Z.eqb_refl, Hdiv in H.
  replace ((lo <=? 4 * t + k) && (4 * t + k <? lo + Z.of_nat n)) with true in H
    by (symmetry; apply andb_true_iff; split; [apply Z.leb_le | apply Z.ltb_lt]; lia).
  congruence.
Qed.

(** X19: on a machine with a mapper, after a DMA of a page [v] whose cells
    the CPU reads at their own address ($00-$07 and $41-$FF), started with
    the sprite-memory address at 0, the tables the sprite renderer reads
    agree with the four bytes the CPU reads for every sprite [n]: Y, tile
    and X are bytes 0, 1 and 3, and the flip bits, the priority bit and the
    colour bits are decoded from byte 2. *)
Theorem oam_dma_decodes_every_sprite (v : Z) s :
  mmap s <> None ->
  0 <= v <= 7 \/ 0x41 <= v <= 255 ->
  sramAddress (ppu s) = 0 ->
  let p' := ppu (CPU.write (Mapper.bus dev) 0x4014 v s) in
  forall n, 0 <= n < 64 ->
    let byte k := fst (CPU.load (Mapper.bus dev) (v * 256 + (4 * n + k)) s) in
    sprY p' n = Some (byte 0)
    /\ sprTile p' n = Some (byte 1)
    /\ sprX p' n = Some (byte 3)
    /\ vertFlip p' n = negb ((byte 2 .& 0x80) =? 0)
    /\ horiFlip p' n = negb ((byte 2 .& 0x40) =? 0)
    /\ bgPriority p' n = negb ((byte 2 .& 0x20) =? 0)
    /\ sprCol p' n = Some ((byte 2 .& 3) << 2).
Proof.
  intros _ Hv Hadr p' n Hn byte. subst p'.
  assert (Hs' : CPU.write (Mapper.bus dev) 0x4014 v s = PPU.sramDMA v s)
    by reflexivity.
  rewrite Hs'. unfold PPU.sramDMA, CPU.haltCycles. cbv zeta. fields.
  rewrite Hadr. change (Z.to_nat (256 - 0)) with 256%nat.
  assert (Hread : forall k, 0 <= k < 4 ->
            PPU.mem_read (cpu s) (v * 256 + (4 * n + k)) = Some (byte k)).
  { intros k Hk. unfold byte.
    rewrite (cpu_reads_the_cell dev v (4 * n + k) s Hv) by lia. cbn [fst].
    unfold PPU.mem_read.
    replace ((0 <=? v * 256 + (4 * n + k)) && (v * 256 + (4 * n + k) <? 65536))
      with true; [reflexivity|].
    symmetry. apply andb_true_iff. split; [apply Z.leb_le | apply Z.ltb_lt]; lia. }
  assert (Hin : forall k, 0 <= k < 4 -> 0 <= 4 * n + k < 0 + Z.of_nat 256) by lia.
  repeat split.
  - rewrite (sramDMA_loop_table sprY 0 (fun x => x) (v * 256)); try lia.
    + apply Hread. lia.
    + intros a x p. apply (spriteRamWriteUpdate_tables a x p).
    + reflexivity.
  - rewrite (sramDMA_loop_table sprTile 1 (fun x => x) (v * 256)); try lia.
    + apply Hread. lia.
    + intros a x p. apply (spriteRamWriteUpdate_tables a x p).
    + reflexivity.
  - rewrite (sramDMA_loop_table sprX 3 (fun x => x) (v * 256)); try lia.
    + apply Hread. lia.
    + intros a x p. apply (spriteRamWriteUpdate_tables a x p).
    + reflexivity.
  - rewrite (sramDMA_loop_table vertFlip 2
               (fun x => negb ((num x .& 0x80) =? 0)) (v * 256)); try lia.
    + rewrite Hread by lia. reflexivity.
    + intros a x p. apply (spriteRamWriteUpdate_tables a x p).
    + reflexivity.
  - rewrite (sramDMA_loop_table horiFlip 2
               (fun x => negb ((num x .& 0x40) =? 0)) (v * 256)); try lia.
    + rewrite Hread by lia. reflexivity.
    + intros a x p. apply (spriteRamWriteUpdate_tables a x p).
    + reflexivity.
  - rewrite (sramDMA_loop_table bgPriority 2
               (fun x => negb ((num x .& 0x20) =? 0)) (v * 256)); try lia.
    + rewrite Hread by lia. reflexivity.
    + intros a x p. apply (spriteRamWriteUpdate_tables a x p).
    + reflexivity.
  - rewrite (sramDMA_loop_table sprCol 2
               (fun x => Some ((num x .& 3) << 2)) (v * 256)); try lia.
    + rewrite Hread by lia. reflexivity.
    + intros a x p. apply (spriteRamWriteUpdate_tables a x p).
    + reflexivity.
Qed.

End DMATables.

(** [LDA #$34; STA $FF; LDA #$12; STA $00] have run on a mapper 0
    cartridge: a DMA of page $80, the start of the program, makes the Y of
    sprite 0 the opcode $A9 the CPU reads at $8000. *)
Lemma oam_dma_witness_rom_page :
  sprY (ppu (CPU.write (Mapper.bus Console.quiet) 0x4014 0x80
               Examples.before_jmp_00FF)) 0
  = Some 0xA9.
Proof.
  assert (Hm : mmap Examples.before_jmp_00FF <> None)
    by (vm_compute; discriminate).
  assert (Ha : sramAddress (ppu Examples.before_jmp_00FF) = 0)
    by (vm_compute; reflexivity).
  pose proof (oam_dma_decodes_every_sprite Console.quiet 0x80
                Examples.before_jmp_00FF Hm ltac:(lia) Ha 0 ltac:(lia)) as H.
  cbv zeta in H. destruct H as [H _]. rewrite H.
  vm_compute. reflexivity.
Defined.

(** ** The PRG windows of the base mapper *)

Section PRG.
Context {Ext : Type}.
Implicit Types (s : NES Ext).

Lemma loadRomBank_spec (bank address : Z) s :
  let s' := Mapper.loadRomBank bank address s in
  rom s' = rom s /\ mmap s' = mmap s /\ ppu s' = ppu s
  /\ forall a, mem (cpu s') a
               = if (address <=? a) && (a <? address + 16384)
                    && (0 <=? a) && (a <? 0x10000)
                 then num (Mapper.rom_bank s (Z.rem bank (Mapper.romCount s))
                             (a - address + 0)) .& 255
                 else mem (cpu s) a.
Proof. cbv zeta. repeat split. Qed.

(** X20: on a machine whose ROM has its [romCount] banks, at least one,
    [loadPRGROM] of the base mapper fills the two 16 KiB windows at $8000
    and $C000 from the ROM: bank 0 in the first, and in the second bank 1
    when the ROM has more than one bank and bank 0 again when it has one.
    Memory below $8000 is not touched. *)
Theorem loadPRGROM_fills_both_windows s (r : ROM.t)
    (banks : list (list (option Z))) (n : Z) :
  mmap s <> None -> ROM.rom r = Some banks -> Z.of_nat (List.length banks) = n ->
  rom s = Some r -> ROM.romCount r = Some n -> 1 <= n ->
  let s' := Mapper.loadPRGROM s in
  (forall j, 0 <= j < 16384 ->
     mem (cpu s') (0x8000 + j) = num (ROM.prg r 0 j) .& 255
     /\ mem (cpu s') (0xC000 + j)
        = num (ROM.prg r (if n >? 1 then 1 else 0) j) .& 255)
  /\ (forall a, a < 0x8000 -> mem (cpu s') a = mem (cpu s) a).
Proof.
  intros _ _ _ Hrom Hcount Hn s'. subst s'. unfold Mapper.loadPRGROM.
  assert (Hn0 : Mapper.romCount s = n).
  { unfold Mapper.romCount. rewrite Hrom, Hcount. reflexivity. }
  assert (Hbank : forall b a,
            Mapper.rom_bank s b a = ROM.prg r b a).
  { intros b a. unfold Mapper.rom_bank. rewrite Hrom. reflexivity. }
  rewrite Hn0.
  assert (Hmem : forall b a,
    mem (cpu (Mapper.loadRomBank b 0xc000 (Mapper.loadRomBank 0 0x8000 s))) a
    = if (0xc000 <=? a) && (a <? 0xc000 + 16384) && (0 <=? a) && (a <? 0x10000)
      then num (ROM.prg r (Z.rem b n) (a - 0xc000 + 0)) .& 255
      else if (0x8000 <=? a) && (a <? 0x8000 + 16384) && (0 <=? a) && (a <? 0x10000)
           then num (ROM.prg r (Z.rem 0 n) (a - 0x8000 + 0)) .& 255
           else mem (cpu s) a).
  { intros b a.
    destruct (loadRomBank_spec 0 0x8000 s) as (Hr1 & _ & _ & Hm1).
    destruct (loadRomBank_spec b 0xc000 (Mapper.loadRomBank 0 0x8000 s))
      as (_ & _ & _ & Hm2).
    rewrite Hm2, Hm1. unfold Mapper.rom_bank, Mapper.romCount.
    rewrite Hr1, Hrom, Hcount. reflexivity. }
  assert (Hgoal : forall b, Z.rem b n = (if n >? 1 then 1 else 0) ->
    (forall j, 0 <= j < 16384 ->
       mem (cpu (Mapper.loadRomBank b 0xc000 (Mapper.loadRomBank 0 0x8000 s)))
         (0x8000 + j) = num (ROM.prg r 0 j) .& 255
       /\ mem (cpu (Mapper.loadRomBank b 0xc000 (Mapper.loadRomBank 0 0x8000 s)))
            (0xC000 + j) = num (ROM.prg r (if n >? 1 then 1 else 0) j) .& 255)
    /\ (forall a, a < 0x8000 ->
          mem (cpu (Mapper.loadRomBank b 0xc000 (Mapper.loadRomBank 0 0x8000 s))) a
          = mem (cpu s) a)).
  { intros b Hb. split.
    - intros j Hj. rewrite !Hmem, Hb. rewrite Z.rem_0_l by lia. split.
      + replace (49152 <=? 32768 + j) with false by (symmetry; apply Z.leb_gt; lia).
        cbn [andb].
        replace ((32768 <=? 32768 + j) && (32768 + j <? 32768 + 16384)
                 && (0 <=? 32768 + j) && (32768 + j <? 65536)) with true.
        * repeat f_equal. lia.
        * symmetry. rewrite !andb_true_iff.
          repeat split; try apply Z.leb_le; try apply Z.ltb_lt; lia.
      + replace ((49152 <=? 49152 + j) && (49152 + j <? 49152 + 16384)
                 && (0 <=? 49152 + j) && (49152 + j <? 65536)) with true.
        * repeat f_equal. lia.
        * symmetry. rewrite !andb_true_iff.
          repeat split; try apply Z.leb_le; try apply Z.ltb_lt; lia.
    - intros a Ha. rewrite Hmem.
      replace (49152 <=? a) with false by (symmetry; apply Z.leb_gt; lia).
      replace (32768 <=? a) with false by (symmetry; apply Z.leb_gt; lia).
      reflexivity. }
  destruct (Z.gtb_spec n 1) as [Hgt | Hle].
  - apply Hgoal. replace (n >? 1) with true by (symmetry; apply Z.gtb_lt; lia).
    apply Z.rem_small. lia.
  - apply Hgoal. replace (n >? 1) with false
      by (symmetry; rewrite Z.gtb_ltb; apply Z.ltb_ge; lia).
    apply Z.rem_0_l. lia.
Qed.

End PRG.

(** The one-bank cartridge of [Examples.bmi_same_page]: its code is read
    in both windows. *)
Lemma loadPRGROM_witness_one_bank :
  let bank := Console.prg_bank 0 [0xA9; 0x80] 0x8000 0x8000 0x8000 in
  let s := Cases.nrom_with bank in
  mem (cpu (Mapper.loadPRGROM s)) (0x8000 + 1) = num (cellO bank 1) .& 255
  /\ mem (cpu (Mapper.loadPRGROM s)) (0xC000 + 1) = num (cellO bank 1) .& 255.
Proof.
  cbv zeta.
  pose proof (loadPRGROM_fills_both_windows
                (Cases.nrom_with (Console.prg_bank 0 [0xA9; 0x80] 0x8000 0x8000 0x8000))
                (Console.cartridge 0
                   (Console.prg_bank 0 [0xA9; 0x80] 0x8000 0x8000 0x8000))
                [Console.prg_bank 0 [0xA9; 0x80] 0x8000 0x8000 0x8000] 1
                ltac:(discriminate) eq_refl eq_refl eq_refl eq_refl
                ltac:(lia)) as H.
  cbv zeta in H. destruct H as [H _]. exact (H 1 ltac:(lia)).
Defined.

(** ** The serial protocol of MMC1 *)

Section MMC1Serial.
Context {Ext : Type} (dev : Devices Ext).
Implicit Types (s : NES Ext) (m : mapper_state).

(** A write that shifts a bit in, on a machine where [cpu.cycles] is
    unset. *)
Lemma serial_shift (address value : Z) s m :
  cycles (cpu s) = None -> 0x8000 <= address -> value .& 0x80 = 0 ->
  shiftReg m .& 1 = 0 ->
  Mapper1.write dev address value (with_mmap s m)
  = with_mmap s (m{{lastWriteCycle := 0;
                    shiftReg := (shiftReg m >> 1) .| ((value .& 1) << 4)}}).
Proof.
  intros Hcycles Haddr Hbit7 Hfull. unfold Mapper1.write.
  replace (address <? 32768) with false by (symmetry; apply Z.ltb_ge; lia).
  rewrite mmap_with_mmap. unfold Mapper1.currentCycle.
  rewrite cpu_with_mmap, Hcycles. change (0 >? 0) with false. cbn [andb].
  rewrite Hbit7. change (negb (0 =? 0)) with false. cbv iota.
  change (shiftReg (m{{lastWriteCycle := 0}})) with (shiftReg m).
  rewrite Hfull. change (negb (0 =? 0)) with false. cbv iota.
  reflexivity.
Qed.

(** The fifth write, to $E000-$FFFF: the PRG bank register is loaded. *)
Lemma serial_load_prg (address value : Z) s m :
  cycles (cpu s) = None -> 0x8000 <= address -> (address >> 13) .& 3 = 3 ->
  value .& 0x80 = 0 -> shiftReg m .& 1 = 1 ->
  mmap (Mapper1.write dev address value (with_mmap s m))
  = Some (m{{lastWriteCycle := 0; shiftReg := 0x10;
             prgBank := (shiftReg m >> 1) .| ((value .& 1) << 4)}}).
Proof.
  intros Hcycles Haddr Hreg Hbit7 Hfull. unfold Mapper1.write.
  replace (address <? 32768) with false by (symmetry; apply Z.ltb_ge; lia).
  rewrite mmap_with_mmap. unfold Mapper1.currentCycle.
  rewrite cpu_with_mmap, Hcycles. change (0 >? 0) with false. cbn [andb].
  rewrite Hbit7. change (negb (0 =? 0)) with false. cbv iota.
  change (shiftReg (m{{lastWriteCycle := 0}})) with (shiftReg m).
  rewrite Hfull. change (negb (1 =? 0)) with true. cbv iota zeta.
  rewrite Hreg. cbv iota.
  rewrite updatePrgBanks_mmap, mmap_with_mmap. reflexivity.
Qed.

Lemma serial_bits (b0 b1 b2 b3 b4 : Z) :
  0 <= b0 <= 1 -> 0 <= b1 <= 1 -> 0 <= b2 <= 1 -> 0 <= b3 <= 1 -> 0 <= b4 <= 1 ->
  let r1 := (0x10 >> 1) .| (b0 << 4) in
  let r2 := (r1 >> 1) .| (b1 << 4) in
  let r3 := (r2 >> 1) .| (b2 << 4) in
  let r4 := (r3 >> 1) .| (b3 << 4) in
  r1 .& 1 = 0 /\ r2 .& 1 = 0 /\ r3 .& 1 = 0 /\ r4 .& 1 = 1
  /\ (r4 >> 1) .| (b4 << 4) = b0 + 2 * b1 + 4 * b2 + 8 * b3 + 16 * b4.
Proof.
  intros H0 H1 H2 H3 H4.
  assert (E0 : b0 = 0 \/ b0 = 1) by lia. assert (E1 : b1 = 0 \/ b1 = 1) by lia.
  assert (E2 : b2 = 0 \/ b2 = 1) by lia. assert (E3 : b3 = 0 \/ b3 = 1) by lia.
  assert (E4 : b4 = 0 \/ b4 = 1) by lia.
  destruct E0 as [-> | ->], E1 as [-> | ->], E2 as [-> | ->], E3 as [-> | ->],
    E4 as [-> | ->]; cbv zeta; repeat split.
Qed.

Lemma low_bit_range (v : Z) : 0 <= v .& 1 <= 1.
Proof.
  assert (H : v .& 1 = v mod 2)
    by (change 1 with (Z.ones 1); rewrite Z.land_ones by lia; reflexivity).
  rewrite H. pose proof (Z.mod_pos_bound v 2 eq_refl). lia.
Qed.

(** X21: the serial port of MMC1, on a machine where [cpu.cycles] is unset
    and the ROM has its [romCount] banks, at least one.  A write with bit 7
    set puts $10 back in the shift register and sets bits 2 and 3 of the
    control register, whatever was shifted in before.  From a shift register
    of $10, five writes with bit 7 clear deliver bit 0 of each value, first
    write lowest; when the fifth write goes to $E000-$FFFF the five bits
    become the PRG bank register and the shift register is $10 again. *)
Theorem mmc1_five_writes_load_the_prg_register
    (a0 a1 a2 a3 a4 v0 v1 v2 v3 v4 reset : Z) s m
    (r : ROM.t) (banks : list (list (option Z))) :
  rom s = Some r -> ROM.rom r = Some banks -> banks <> [] ->
  ROM.romCount r = Some (Z.of_nat (List.length banks)) ->
  cycles (cpu s) = None ->
  0x8000 <= a0 /\ 0x8000 <= a1 /\ 0x8000 <= a2 /\ 0x8000 <= a3 /\ 0xE000 <= a4 <= 0xFFFF ->
  v0 .& 0x80 = 0 /\ v1 .& 0x80 = 0 /\ v2 .& 0x80 = 0 /\ v3 .& 0x80 = 0
  /\ v4 .& 0x80 = 0 ->
  reset .& 0x80 <> 0 ->
  let w a v s := Mapper1.write dev a v s in
  let s0 := w a0 reset (with_mmap s m) in
  let s5 := w a4 v4 (w a3 v3 (w a2 v2 (w a1 v1 (w a0 v0 s0)))) in
  mmap s0 = Some (m{{lastWriteCycle := 0; shiftReg := 0x10;
                     controlReg := controlReg m .| 0x0C}})
  /\ mmap s5 = Some (m{{lastWriteCycle := 0; shiftReg := 0x10;
                        controlReg := controlReg m .| 0x0C;
                        prgBank := (v0 .& 1) + 2 * (v1 .& 1) + 4 * (v2 .& 1)
                                   + 8 * (v3 .& 1) + 16 * (v4 .& 1)}}).
Proof.
  intros _ _ _ _ Hcycles (Ha0 & Ha1 & Ha2 & Ha3 & Ha4)
    (Hv0 & Hv1 & Hv2 & Hv3 & Hv4) Hreset w s0 s5.
  set (m0 := m{{lastWriteCycle := 0; shiftReg := 0x10;
                controlReg := controlReg m .| 0x0C}}).
  assert (Hs0 : exists s', s0 = with_mmap s' m0 /\ cycles (cpu s') = None).
  { subst s0 w. cbv beta. unfold Mapper1.write.
    replace (a0 <? 32768) with false by (symmetry; apply Z.ltb_ge; lia).
    rewrite mmap_with_mmap. unfold Mapper1.currentCycle.
    rewrite cpu_with_mmap, Hcycles. change (0 >? 0) with false. cbn [andb].
    replace (negb ((reset .& 128) =? 0)) with true
      by (symmetry; apply negb_true_iff, Z.eqb_neq; exact Hreset).
    cbv iota zeta.
    exists (Mapper1.updatePrgBanks m0 (with_mmap s m0)). split.
    - symmetry. apply with_mmap_eta.
      rewrite updatePrgBanks_mmap. apply mmap_with_mmap.
    - unfold Mapper1.updatePrgBanks. cbv zeta.
      destruct ((controlReg m0 >> 2) .& 3) as [|[q|q|]|]; try exact Hcycles;
        destruct q; exact Hcycles. }
  destruct Hs0 as (s' & Hs0 & Hcycles').
  destruct (serial_bits (v0 .& 1) (v1 .& 1) (v2 .& 1) (v3 .& 1) (v4 .& 1)
              (low_bit_range v0) (low_bit_range v1) (low_bit_range v2)
              (low_bit_range v3) (low_bit_range v4))
    as (H1 & H2 & H3 & H4 & H5).
  cbv zeta in H1, H2, H3, H4, H5.
  split; [rewrite Hs0; apply mmap_with_mmap|].
  subst s5 w. cbv beta. rewrite Hs0.
  rewrite (serial_shift a0 v0 s' m0) by (try assumption; reflexivity).
  rewrite (serial_shift a1 v1 s') by (try assumption; exact H1).
  rewrite (serial_shift a2 v2 s') by (try assumption; exact H2).
  rewrite (serial_shift a3 v3 s') by (try assumption; exact H3).
  assert (Hreg : (a4 >> 13) .& 3 = 3).
  { assert (Hq : 7 <= a4 / 8192 < 8).
    { split; [apply Z.div_le_lower_bound | apply Z.div_lt_upper_bound]; lia. }
    rewrite Z.shiftr_div_pow2 by lia. change (2 ^ 13) with 8192.
    replace (a4 / 8192) with 7 by lia. reflexivity. }
  rewrite serial_load_prg;
    [ | exact Hcycles' | lia | exact Hreg | exact Hv4 | exact H4 ].
  f_equal. subst m0.
  destruct m as [cls hl j1 j2 jl zf zx zy sr ctl cb0 cb1 pb lwc cmd pas cas pn
                 ic il ie irp pac a12 la12 lcs ll lh cb2 cb3].
  cbn -[Z.land Z.lor Z.shiftl Z.shiftr Z.add Z.mul]. unfold constant.
  rewrite H5. reflexivity.
Qed.

End MMC1Serial.

(** A new MMC1 object with a one-bank cartridge: a reset write, then the
    bits 1, 0, 1, 0, 0. *)
Lemma mmc1_witness_bank_5 :
  let w a v s := Mapper1.write Console.quiet a v s in
  option_map prgBank
    (mmap (w 0xE000 0 (w 0xE000 0 (w 0xE000 1 (w 0xE000 0 (w 0x8000 1
             (w 0x8000 0x80 Cases.mmc1_cartridge)))))))
  = Some 5.
Proof.
  cbv zeta.
  pose proof (mmc1_five_writes_load_the_prg_register Console.quiet
                0x8000 0xE000 0xE000 0xE000 0xE000 1 0 1 0 0 0x80
                Cases.mmc1_cartridge Mapper1.constructor
                (Console.cartridge 1 []) [[]]
                eq_refl eq_refl ltac:(discriminate) eq_refl eq_refl
                ltac:(repeat split; lia) ltac:(repeat split)
                ltac:(discriminate)) as H.
  cbv zeta in H. destruct H as [_ H].
  change (with_mmap Cases.mmc1_cartridge Mapper1.constructor)
    with Cases.mmc1_cartridge in H.
  rewrite H. reflexivity.
Defined.

(** ** The period of the MMC3 scanline counter *)

Section MMC3Period.
Context {Ext : Type}.
Implicit Types (s : NES Ext) (m : mapper_state).

(** X22: the counter of MMC3 clocked [k] times after a reload was requested,
    with IRQs enabled and a latch value [N] of at least 1.  The first clock
    loads [N]; each later clock decrements; the CPU is left alone until
    clock [N + 1], which brings the counter to 0 and calls
    [cpu.requestIrq(IRQ_NORMAL)].  With a latch value of 0 every clock
    reloads 0 and no IRQ is ever requested. *)
Theorem mmc3_irq_fires_at_clock_latch_plus_one (N : Z) (k : nat) s m :
  irqLatchValue m = N -> irqReloadPending m = true -> irqEnable m <> 0 ->
  let sk := Nat.iter k Mapper4.clockIrqCounter (with_mmap s m) in
  (1 <= N -> 1 <= Z.of_nat k <= N + 1 ->
   exists mk,
     sk = with_mmap (if Z.of_nat k =? N + 1
                     then CPU.requestIrq CPU.IRQ_NORMAL s else s) mk
     /\ irqCounter mk = N + 1 - Z.of_nat k
     /\ irqReloadPending mk = false
     /\ irqLatchValue mk = N /\ irqEnable mk = irqEnable m)
  /\ (N = 0 -> 1 <= Z.of_nat k ->
      exists mk, sk = with_mmap s mk /\ irqCounter mk = 0
                 /\ irqReloadPending mk = false /\ irqLatchValue mk = 0).
Proof.
  intros Hlatch Hpending Hen sk. subst sk. split.
  - intros HN. induction k as [|k IH]; intros Hk; [lia|].
    rewrite Nat.iter_succ. destruct k as [|k'].
    + change (Nat.iter 0 Mapper4.clockIrqCounter (with_mmap s m)) with (with_mmap s m).
      rewrite clockIrqCounter_eq, Hpending, orb_true_r.
      replace (Z.of_nat 1 =? N + 1) with false by (symmetry; apply Z.eqb_neq; lia).
      eexists. split; [reflexivity|]. repeat split.
      * change (irqCounter (m{{irqCounter := ?x; irqReloadPending := ?y}})) with x.
        lia.
      * exact Hlatch.
    + destruct IH as (mk & Heq & Hc & Hp & Hl & He); [lia|].
      replace (Z.of_nat (S k') =? N + 1) with false in Heq
        by (symmetry; apply Z.eqb_neq; lia).
      rewrite Heq, clockIrqCounter_eq, Hp, orb_false_r.
      replace (irqCounter mk =? 0) with false by (symmetry; apply Z.eqb_neq; lia).
      replace (negb (irqEnable mk =? 0)) with true
        by (symmetry; apply negb_true_iff, Z.eqb_neq; congruence).
      rewrite andb_true_r.
      replace (irqCounter mk - 1 =? 0) with (Z.of_nat (S (S k')) =? N + 1).
      2:{ destruct (Z.eqb_spec (Z.of_nat (S (S k'))) (N + 1)),
            (Z.eqb_spec (irqCounter mk - 1) 0); try reflexivity; lia. }
      destruct (Z.of_nat (S (S k')) =? N + 1);
        (eexists; split; [reflexivity|]; repeat split; try assumption;
         change (irqCounter (mk{{irqCounter := ?x}})) with x; lia).
  - intros HN. induction k as [|k IH]; intros Hk; [lia|].
    rewrite Nat.iter_succ. destruct k as [|k'].
    + change (Nat.iter 0 Mapper4.clockIrqCounter (with_mmap s m)) with (with_mmap s m).
      rewrite clockIrqCounter_eq, Hpending, orb_true_r.
      eexists. split; [reflexivity|]. repeat split.
      * change (irqCounter (m{{irqCounter := ?x; irqReloadPending := ?y}})) with x.
        congruence.
      * change (irqLatchValue (m{{irqCounter := ?x; irqReloadPending := ?y}}))
          with (irqLatchValue m). congruence.
    + destruct IH as (mk & Heq & Hc & Hp & Hl); [lia|].
      rewrite Heq, clockIrqCounter_eq, Hc. cbn [Z.eqb orb].
      eexists. split; [reflexivity|]. repeat split.
      * change (irqCounter (mk{{irqCounter := ?x; irqReloadPending := ?y}})) with x.
        exact Hl.
      * exact Hl.
Qed.

End MMC3Period.

(** A latch value of 2: the third clock requests the IRQ. *)
Lemma mmc3_witness_latch_2 :
  let m := Mapper4.constructor{{irqLatchValue := 2; irqReloadPending := true;
                                irqEnable := 1}} in
  irqRequested
    (cpu (Nat.iter 3 Mapper4.clockIrqCounter (with_mmap (Console.new tt) m)))
  = true.
Proof.
  cbv zeta.
  pose proof (mmc3_irq_fires_at_clock_latch_plus_one 2 3 (Console.new tt)
                (Mapper4.constructor{{irqLatchValue := 2; irqReloadPending := true;
                                      irqEnable := 1}})
                eq_refl eq_refl ltac:(discriminate)) as H.
  cbv zeta in H. destruct H as [H _].
  destruct (H ltac:(lia) ltac:(lia)) as (mk & Heq & _).
  rewrite Heq. reflexivity.
Defined.

(** ** The controller port *)

Section Joypad.
Context {Ext : Type} (dev : Devices Ext).
Implicit Types (s : NES Ext) (m : mapper_state).

(** The buttons do not depend on the mapper object. *)
Hypothesis buttons_of_machine :
  forall k s m, controller_state dev 1 k (with_mmap s m) = controller_state dev 1 k s.

Lemma read_4016 s m :
  0 <= joy1StrobeState m < 24 ->
  CPU.load (Mapper.bus dev) 0x4016 (with_mmap s m)
  = (let k := joy1StrobeState m in
     if k <? 8 then controller_state dev 1 k s else if k =? 19 then 1 else 0,
     with_mmap s (m{{joy1StrobeState := (joy1StrobeState m + 1) mod 24}})).
Proof.
  intros Hk.
  change (CPU.load (Mapper.bus dev) 0x4016 (with_mmap s m))
    with (Mapper.joy1Read dev (with_mmap s m)).
  unfold Mapper.joy1Read. rewrite mmap_with_mmap. cbv zeta.
  rewrite buttons_of_machine.
  change (with_mmap (with_mmap s m) ?x) with (with_mmap s x).
  replace (0 <=? joy1StrobeState m) with true by (symmetry; apply Z.leb_le; lia).
  cbn [andb].
  replace (joy1StrobeState m <=? 7) with (joy1StrobeState m <? 8)
    by (destruct (Z.ltb_spec (joy1StrobeState m) 8),
          (Z.leb_spec (joy1StrobeState m) 7); try reflexivity; lia).
  f_equal. f_equal.
  destruct (Z.eqb_spec (joy1StrobeState m + 1) 24) as [E | E].
  - rewrite E. reflexivity.
  - rewrite Z.mod_small by lia. reflexivity.
Qed.

Lemma reads_from_state (n : nat) : forall s m,
  0 <= joy1StrobeState m < 24 ->
  fst (Cases.reads (Mapper.bus dev) 0x4016 n (with_mmap s m))
  = map (fun i => let k := (joy1StrobeState m + i) mod 24 in
                  if k <? 8 then controller_state dev 1 k s
                  else if k =? 19 then 1 else 0)
        (zrange 0 n).
Proof.
  induction n as [|n IH]; intros s m Hk; [reflexivity|].
  cbn [Cases.reads]. rewrite read_4016 by exact Hk.
  specialize (IH s (m{{joy1StrobeState := (joy1StrobeState m + 1) mod 24}})).
  change (joy1StrobeState (m{{joy1StrobeState := ?x}})) with x in IH.
  specialize (IH (Z.mod_pos_bound _ 24 eq_refl)).
  destruct (Cases.reads (Mapper.bus dev) 0x4016 n
              (with_mmap s (m{{joy1StrobeState := (joy1StrobeState m + 1) mod 24}})))
    as [l s2].
  cbn [fst] in IH |- *. rewrite IH, zrange_S. cbn [map]. f_equal.
  - cbv zeta. rewrite Z.add_0_r, Z.mod_small by exact Hk. reflexivity.
  - unfold zrange. rewrite !map_map. apply map_ext. intros i. cbv beta zeta.
    replace (((joy1StrobeState m + 1) mod 24 + (0 + Z.of_nat i)) mod 24)
      with ((joy1StrobeState m + (0 + 1 + Z.of_nat i)) mod 24); [reflexivity|].
    rewrite Z.add_mod_idemp_l by lia. f_equal. lia.
Qed.

(** X23: the controller port.  Writing 1 and then 0 to $4016 restarts the
    read sequence of both controllers; the reads of $4016 that follow return
    the eight buttons of controller 1 in order, then 0 eleven times, 1 once
    (the signature of the controller, at read 19), 0 four times, and start
    over with the buttons after 24 reads. *)
Theorem joypad_reads_after_strobe (n : nat) s m :
  mmap s = Some m ->
  let s0 := CPU.write (Mapper.bus dev) 0x4016 0
              (CPU.write (Mapper.bus dev) 0x4016 1 s) in
  fst (Cases.reads (Mapper.bus dev) 0x4016 n s0)
  = map (fun i => let k := i mod 24 in
                  if k <? 8 then controller_state dev 1 k s
                  else if k =? 19 then 1 else 0)
        (zrange 0 n).
Proof.
  intros Hm s0.
  assert (Hs0 : s0 = with_mmap s (m{{joypadLastWrite := 1; joy1StrobeState := 0;
                                       joy2StrobeState := 0;
                                       joypadLastWrite := 0}})).
  { subst s0.
    change (CPU.write (Mapper.bus dev) 0x4016 1 s)
      with (Mapper.regWrite dev 0x4016 1 s).
    unfold Mapper.regWrite at 1. cbn [Z.eqb Pos.eqb]. rewrite Hm.
    assert (H1 : (if ((1 .& 1) =? 0) && ((joypadLastWrite m .& 1) =? 1)
                  then m{{joy1StrobeState := 0; joy2StrobeState := 0}} else m) = m)
      by reflexivity.
    rewrite H1.
    change (CPU.write (Mapper.bus dev) 0x4016 0 ?x)
      with (Mapper.regWrite dev 0x4016 0 x).
    unfold Mapper.regWrite. cbn [Z.eqb Pos.eqb]. rewrite mmap_with_mmap.
    reflexivity. }
  rewrite Hs0.
  rewrite reads_from_state
    by (split; [apply Z.leb_le | apply Z.ltb_lt]; reflexivity).
  apply map_ext. intros i. reflexivity.
Qed.

End Joypad.

(** With the devices of [Console.quiet] every button reads $40: the first
    eight reads return it, the ninth 0. *)
Lemma joypad_witness_nine_reads :
  fst (Cases.reads (Mapper.bus Console.quiet) 0x4016 9
         (CPU.write (Mapper.bus Console.quiet) 0x4016 0
            (CPU.write (Mapper.bus Console.quiet) 0x4016 1 Examples.mmc1_machine)))
  = [0x40; 0x40; 0x40; 0x40; 0x40; 0x40; 0x40; 0x40; 0].
Proof.
  rewrite (joypad_reads_after_strobe Console.quiet (fun _ _ _ => eq_refl) 9
             Examples.mmc1_machine Mapper1.constructor eq_refl).
  reflexivity.
Defined.

(** ** The mapper number of an iNES header *)

Lemma low_nibble_of_mapper (b6 b7 : Z) :
  0 <= b6 <= 255 -> ((b6 >> 4) .| (b7 .& 0xf0)) .& 0xf = b6 >> 4.
Proof.
  intros H6. rewrite Z.land_lor_distr_l, <- (Z.land_assoc b7).
  change (0xf0 .& 0xf) with 0. rewrite Z.land_0_r, Z.lor_0_r.
  apply Z.eqb_eq.
  apply (byte_cases (fun b => ((b >> 4) .& 0xf) =? (b >> 4)));
    [reflexivity | exact H6].
Qed.

(** X24: what [ROM.load] reads from bytes 6 to 15 of the header of an image
    it accepts.  The mapper number is the high nibble of byte 6 with the
    high nibble of byte 7 above it; when one of the bytes 8 to 15 is not 0
    the header is taken for an old one and the number is the high nibble of
    byte 6 alone.  Bit 0 of byte 6 is the mirroring, bits 1, 2 and 3 are the
    battery, trainer and four-screen flags. *)
Theorem rom_header_flags_and_mapper_number (data : string) (r0 : ROM.t) :
  String.index 0 ROM.magic data <> None ->
  exists r, ROM.load data r0 = inr r
    /\ ROM.mapperType r
       = Some (if existsb (fun i => negb (ROM.byteAt data i =? 0)) (seq 8 8)
               then ROM.byteAt data 6 >> 4
               else (ROM.byteAt data 6 >> 4) .| (ROM.byteAt data 7 .& 0xf0))
    /\ ROM.mirroring r = Some (if (ROM.byteAt data 6 .& 1) =? 0 then 0 else 1)
    /\ ROM.batteryRam r = Some (negb ((ROM.byteAt data 6 .& 2) =? 0))
    /\ ROM.trainer r = Some (negb ((ROM.byteAt data 6 .& 4) =? 0))
    /\ ROM.fourScreen r = Some (negb ((ROM.byteAt data 6 .& 8) =? 0)).
Proof.
  intros Hmagic. unfold ROM.load.
  destruct (String.index 0 ROM.magic data) as [n|]; [|contradiction].
  cbv zeta.
  destruct (ROM.read_banks data (String.length data) (Z.to_nat 16384) 16 _)
    as [prg off].
  destruct (ROM.read_banks data (String.length data) (Z.to_nat 4096) off _)
    as [chr off2].
  eexists. split; [reflexivity|].
  cbn [ROM.mapperType ROM.mirroring ROM.batteryRam ROM.trainer ROM.fourScreen].
  change (nth 6 (map (ROM.byteAt data) (seq 0 16)) 0) with (ROM.byteAt data 6).
  change (nth 7 (map (ROM.byteAt data) (seq 0 16)) 0) with (ROM.byteAt data 7).
  change (existsb (fun v => negb (v =? 0))
            (skipn 8 (map (ROM.byteAt data) (seq 0 16))))
    with (existsb (fun i => negb (ROM.byteAt data i =? 0)) (seq 8 8)).
  repeat split.
  - destruct (existsb (fun i => negb (ROM.byteAt data i =? 0)) (seq 8 8));
      [|reflexivity].
    rewrite low_nibble_of_mapper by apply byteAt_range. reflexivity.
  - destruct ((ROM.byteAt data 6 .& 1) =? 0); reflexivity.
Qed.

(** The header-only image of [Examples.header_only]: mapper 0, horizontal
    mirroring bit clear. *)
Lemma rom_header_witness :
  exists r, ROM.load Examples.header_only ROM.constructor = inr r
    /\ ROM.mapperType r = Some 0.
Proof.
  destruct (rom_header_flags_and_mapper_number Examples.header_only ROM.constructor)
    as (r & Hload & Hmapper & _).
  - change (String.index 0 ROM.magic Examples.header_only) with (Some 0%nat).
    discriminate.
  - exists r. split; [exact Hload|]. rewrite Hmapper. reflexivity.
Defined.

(** ** Sixteen-bit reads *)

Section Words.
Context {Ext : Type} (dev : Devices Ext).
Implicit Types (s : NES Ext).

(** X27: on a machine with the base mapper, [load16bit(addr)] is two [load]s
    in a row, of [addr] and of [addr + 1], the second giving the high byte:
    the value and the machine left behind are the same.  The address is not
    wrapped: the word at $00FF takes its high byte from $0100, and the word
    at $1FFF takes it from the PPU register $2000. *)
Theorem load16bit_is_two_loads (addr : Z) s :
  mmap s <> None ->
  CPU.load16bit (Mapper.bus dev) addr s
  = (let (lo, s1) := CPU.load (Mapper.bus dev) addr s in
     let (hi, s2) := CPU.load (Mapper.bus dev) (addr + 1) s1 in
     (lo .| (hi << 8), s2)).
Proof.
  intros _. unfold CPU.load16bit, CPU.load.
  destruct (Z.ltb_spec addr 0x1fff) as [Hlow | Hhigh].
  - replace (addr <? 8192) with true by (symmetry; apply Z.ltb_lt; lia).
    replace (addr + 1 <? 8192) with true by (symmetry; apply Z.ltb_lt; lia).
    reflexivity.
  - destruct (Z.eq_dec addr 0x1fff) as [-> | Hne].
    + change (8191 <? 8192) with true. change (8191 + 1 <? 8192) with false.
      change (m_load (Mapper.bus dev)) with (Mapper.load dev).
      rewrite (load_ram dev 8191 s) by lia. reflexivity.
    + replace (addr <? 8192) with false by (symmetry; apply Z.ltb_ge; lia).
      destruct (m_load (Mapper.bus dev) addr s) as [lo s1].
      replace (addr + 1 <? 8192) with false by (symmetry; apply Z.ltb_ge; lia).
      reflexivity.
Qed.

End Words.

(** The word at $1FFF of a new machine with a cartridge: $FF from RAM below
    the byte the PPU register $2000 returns. *)
Lemma load16bit_witness_1FFF :
  fst (CPU.load16bit (Mapper.bus Console.quiet) 0x1FFF Cases.nrom_machine)
  = 0xFF .| (fst (CPU.load (Mapper.bus Console.quiet) 0x2000 Cases.nrom_machine) << 8).
Proof.
  rewrite (load16bit_is_two_loads Console.quiet 0x1FFF Cases.nrom_machine)
    by discriminate.
  reflexivity.
Defined.

(** ** The reset interrupt *)

Section Reset.
Context {Ext : Type} (dev : Devices Ext).
Implicit Types (s : NES Ext).

(** X28: the interrupt block at the start of [emulate()] with a reset
    pending, on a machine with the base mapper.  The program counter becomes
    the word stored at $FFFC/$FFFD minus 1, so that the next opcode is
    fetched at the vector, and the request is cleared.  Nothing is pushed:
    memory, the stack pointer, the registers and the interrupt-disable flag
    are as before. *)
Theorem reset_interrupt_loads_the_vector s :
  mmap s <> None ->
  irqRequested (cpu s) = true ->
  irqType (cpu s) = Some CPU.IRQ_RESET ->
  let c := cpu s in
  let s' := CPU.interruptGate (Mapper.bus dev) s in
  let c' := cpu s' in
  REG_PC c' = (mem c 0xfffc .| (mem c 0xfffd << 8)) - 1
  /\ irqRequested c' = false
  /\ (REG_SP c', REG_ACC c', REG_X c', REG_Y c', F_INTERRUPT c')
     = (REG_SP c, REG_ACC c, REG_X c, REG_Y c, F_INTERRUPT c)
  /\ mem c' = mem c
  /\ ppu s' = ppu s /\ mmap s' = mmap s.
Proof.
  intros _ Hreq Htype c s' c'. subst c c' s'.
  destruct s as [c p m r cm e].
  destruct c as [mem0 a x y sp pc pcn st fc fd fi fin fo fs fz fn fnn fb fbn
                 halt cr irq ty cy].
  cbn [cpu irqRequested irqType] in Hreq, Htype. subst irq ty.
  unfold CPU.interruptGate, CPU.IRQ_RESET.
  cbn -[Z.land Z.lor Z.shiftl Z.shiftr Z.eqb Z.add Z.sub CPU.doResetInterrupt].
  unfold constant, CPU.doResetInterrupt.
  change (m_load (Mapper.bus dev)) with (Mapper.load dev).
  rewrite load_high by lia. cbv iota beta.
  rewrite load_high by lia. cbv iota beta.
  cbn -[Z.land Z.lor Z.shiftl Z.shiftr Z.eqb Z.add Z.sub].
  repeat split.
Qed.

End Reset.

Lemma reset_witness_vector :
  let s := CPU.requestIrq CPU.IRQ_RESET Cases.nrom_machine in
  REG_PC (cpu (CPU.interruptGate (Mapper.bus Console.quiet) s))
  = (mem (cpu s) 0xfffc .| (mem (cpu s) 0xfffd << 8)) - 1.
Proof.
  cbv zeta.
  apply (reset_interrupt_loads_the_vector Console.quiet
           (CPU.requestIrq CPU.IRQ_RESET Cases.nrom_machine));
    [discriminate | reflexivity ..].
Defined.

(** ** The PRG windows of MMC1 after a reset write *)

Lemma prg_mode_after_reset (c : Z) : ((c .| 0x0C) >> 2) .& 3 = 3.
Proof.
  rewrite Z.shiftr_lor, Z.land_lor_distr_l.
  change ((12 >> 2) .& 3) with 3.
  assert (H : (c >> 2) .& 3 = (c >> 2) mod 4)
    by (change 3 with (Z.ones 2); apply Z.land_ones; lia).
  pose proof (Z.mod_pos_bound (c >> 2) 4 eq_refl) as Hr.
  rewrite H.
  assert (Hc : (c >> 2) mod 4 = 0 \/ (c >> 2) mod 4 = 1
               \/ (c >> 2) mod 4 = 2 \/ (c >> 2) mod 4 = 3) by lia.
  destruct Hc as [-> | [-> | [-> | ->]]]; reflexivity.
Qed.

Section MMC1Windows.
Context {Ext : Type} (dev : Devices Ext).
Implicit Types (s : NES Ext) (m : mapper_state).

(** X29: a write to MMC1 with bit 7 set selects PRG mode 3, and the banks
    are copied at once: on a machine where [cpu.cycles] is unset and the ROM
    has its [romCount] banks, at least one, the window at $C000 then holds
    the last bank of the ROM and the window at $8000 the bank chosen by the
    low four bits of the PRG register, modulo the number of banks.  Memory
    below $8000 is not touched. *)
Theorem mmc1_reset_write_fixes_the_last_bank (a v : Z) s m
    (r : ROM.t) (banks : list (list (option Z))) :
  rom s = Some r -> ROM.rom r = Some banks -> banks <> [] ->
  ROM.romCount r = Some (Z.of_nat (List.length banks)) ->
  cycles (cpu s) = None -> 0x8000 <= a -> v .& 0x80 <> 0 ->
  let n := Z.of_nat (List.length banks) in
  let s' := Mapper1.write dev a v (with_mmap s m) in
  (forall j, 0 <= j < 16384 ->
     mem (cpu s') (0xC000 + j) = num (ROM.prg r (n - 1) j) .& 255
     /\ mem (cpu s') (0x8000 + j)
        = num (ROM.prg r (Z.rem (prgBank m .& 0x0F) n) j) .& 255)
  /\ (forall a', a' < 0x8000 -> mem (cpu s') a' = mem (cpu s) a').
Proof.
  intros Hrom Hbanks Hne Hcount Hcycles Ha Hv n s'.
  assert (Hn : 1 <= n).
  { subst n. destruct banks as [|b l]; [contradiction|]. cbn [List.length]. lia. }
  set (m2 := m{{lastWriteCycle := 0; shiftReg := 0x10;
                controlReg := controlReg m .| 0x0C}}).
  assert (Hs' : s' = Mapper.loadRomBank (n - 1) 0xC000
                       (Mapper.loadRomBank (prgBank m .& 0x0F) 0x8000
                          (with_mmap s m2))).
  { subst s'. unfold Mapper1.write.
    replace (a <? 32768) with false by (symmetry; apply Z.ltb_ge; lia).
    rewrite mmap_with_mmap. unfold Mapper1.currentCycle.
    rewrite cpu_with_mmap, Hcycles. change (0 >? 0) with false. cbn [andb].
    replace (negb ((v .& 128) =? 0)) with true
      by (symmetry; apply negb_true_iff, Z.eqb_neq; exact Hv).
    cbv iota zeta.
    change (Mapper1.updatePrgBanks m2 (with_mmap s m2)
            = Mapper.loadRomBank (n - 1) 0xC000
                (Mapper.loadRomBank (prgBank m .& 0x0F) 0x8000 (with_mmap s m2))).
    unfold Mapper1.updatePrgBanks. cbv zeta.
    change (controlReg m2) with (controlReg m .| 0x0C).
    rewrite prg_mode_after_reset. cbv iota.
    change (prgBank m2) with (prgBank m).
    replace (Mapper.romCount (with_mmap s m2)) with n; [reflexivity|].
    unfold Mapper.romCount. fields. rewrite Hrom, Hcount. reflexivity. }
  assert (Hcnt : Mapper.romCount (with_mmap s m2) = n).
  { unfold Mapper.romCount. fields. rewrite Hrom, Hcount. reflexivity. }
  assert (Hbank : forall b j,
            Mapper.rom_bank (with_mmap s m2) b j = ROM.prg r b j).
  { intros b j. unfold Mapper.rom_bank. fields. rewrite Hrom. reflexivity. }
  assert (Hmem : forall x,
    mem (cpu s') x
    = if (0xc000 <=? x) && (x <? 0xc000 + 16384) && (0 <=? x) && (x <? 0x10000)
      then num (ROM.prg r (n - 1) (x - 0xc000 + 0)) .& 255
      else if (0x8000 <=? x) && (x <? 0x8000 + 16384) && (0 <=? x) && (x <? 0x10000)
           then num (ROM.prg r (Z.rem (prgBank m .& 0x0F) n) (x - 0x8000 + 0)) .& 255
           else mem (cpu s) x).
  { intros x. rewrite Hs'.
    destruct (loadRomBank_spec (prgBank m .& 0x0F) 0x8000 (with_mmap s m2))
      as (Hr1 & _ & _ & Hm1).
    destruct (loadRomBank_spec (n - 1) 0xc000
                (Mapper.loadRomBank (prgBank m .& 0x0F) 0x8000 (with_mmap s m2)))
      as (_ & _ & _ & Hm2).
    rewrite Hm2, Hm1. unfold Mapper.rom_bank at 1. unfold Mapper.romCount at 1.
    rewrite Hr1. fields. rewrite Hrom, Hcount, Hcnt, Hbank.
    change (num (Some (Z.of_nat (List.length banks)))) with n.
    rewrite (Z.rem_small (n - 1) n) by lia. reflexivity. }
  split.
  - intros j Hj. rewrite !Hmem. split.
    + replace ((49152 <=? 49152 + j) && (49152 + j <? 49152 + 16384)
               && (0 <=? 49152 + j) && (49152 + j <? 65536)) with true.
      * repeat f_equal. lia.
      * symmetry. rewrite !andb_true_iff.
        repeat split; try apply Z.leb_le; try apply Z.ltb_lt; lia.
    + replace (49152 <=? 32768 + j) with false by (symmetry; apply Z.leb_gt; lia).
      cbn [andb].
      replace ((32768 <=? 32768 + j) && (32768 + j <? 32768 + 16384)
               && (0 <=? 32768 + j) && (32768 + j <? 65536)) with true.
      * repeat f_equal. lia.
      * symmetry. rewrite !andb_true_iff.
        repeat split; try apply Z.leb_le; try apply Z.ltb_lt; lia.
  - intros a' Ha'. rewrite Hmem.
    replace (49152 <=? a') with false by (symmetry; apply Z.leb_gt; lia).
    replace (32768 <=? a') with false by (symmetry; apply Z.leb_gt; lia).
    reflexivity.
Qed.

End MMC1Windows.

(** A new MMC1 object with a one-bank cartridge: the reset vector is read
    from the only bank. *)
Lemma mmc1_reset_witness_one_bank :
  mem (cpu (Mapper1.write Console.quiet 0x8000 0x80 Cases.mmc1_cartridge))
    (0xC000 + 0x3FFC)
  = num (ROM.prg (Console.cartridge 1 []) 0 0x3FFC) .& 255.
Proof.
  pose proof (mmc1_reset_write_fixes_the_last_bank Console.quiet 0x8000 0x80
                Cases.mmc1_cartridge Mapper1.constructor
                (Console.cartridge 1 []) [[]]
                eq_refl eq_refl ltac:(discriminate) eq_refl eq_refl
                ltac:(lia) ltac:(discriminate)) as H.
  cbv zeta in H. destruct H as [H _].
  destruct (H 0x3FFC ltac:(lia)) as [H1 _].
  exact H1.
Defined.

(** ** The latches of MMC2 *)

Section MMC2Latch.
Context {Ext : Type}.
Implicit Types (s : NES Ext) (m : mapper_state).

Lemma safeSwitchBank_frame (bank address : Z) s :
  mmap (Mapper9.safeSwitchBank bank address s) = mmap s
  /\ cpu (Mapper9.safeSwitchBank bank address s) = cpu s.
Proof.
  unfold Mapper9.safeSwitchBank. cbv zeta.
  destruct (Mapper.vromCount s =? 0); [split; reflexivity|].
  unfold Mapper9.switch_bank. cbv zeta. fields. split; reflexivity.
Qed.

Lemma latch_bits (address : Z) :
  ((address .& 0x1FF0 = 0x1FD0 -> (address .& 0x1000 =? 0) = false
                                  /\ address .& 0x0FF0 = 0x0FD0)
   /\ (address .& 0x1FF0 = 0x1FE0 -> (address .& 0x1000 =? 0) = false
                                     /\ address .& 0x0FF0 = 0x0FE0))
  /\ ((address .& 0x1FF0 = 0x0FD0 \/ address .& 0x1FF0 = 0x0FE0) ->
      (address .& 0x1000 =? 0) = true).
Proof.
  assert (H1 : address .& 0x1000 = (address .& 0x1FF0) .& 0x1000)
    by (rewrite <- Z.land_assoc; reflexivity).
  assert (H2 : address .& 0x0FF0 = (address .& 0x1FF0) .& 0x0FF0)
    by (rewrite <- Z.land_assoc; reflexivity).
  repeat split.
  - rewrite H1, H. reflexivity.
  - rewrite H2, H. reflexivity.
  - rewrite H1, H. reflexivity.
  - rewrite H2, H. reflexivity.
  - intros [H | H]; rewrite H1, H; reflexivity.
Qed.

(** X30: [latchAccess] of MMC2 on a pattern-table address.  A second access
    to the same address changes nothing.  The CPU is never touched, and the
    machine changes only when one of the two latches changes its value.
    After an access below $2000 to tile $FD or $FE of the low table the low
    latch is 0 or 1, and likewise the high latch for the high table. *)
Theorem mmc2_latch_access_settles (address : Z) s m :
  mmap s = Some m ->
  let s' := Mapper9.latchAccess address s in
  Mapper9.latchAccess address s' = s'
  /\ cpu s' = cpu s
  /\ exists m', mmap s' = Some m'
       /\ ((latchLo m', latchHi m') = (latchLo m, latchHi m) -> s' = s)
       /\ (address < 0x2000 ->
           (address .& 0x1FF0 = 0x0FD0 -> latchLo m' = 0)
           /\ (address .& 0x1FF0 = 0x0FE0 -> latchLo m' = 1)
           /\ (address .& 0x1FF0 = 0x1FD0 -> latchHi m' = 0)
           /\ (address .& 0x1FF0 = 0x1FE0 -> latchHi m' = 1)).
Proof.
  intros Hm s'.
  destruct (latch_bits address) as ((Hhi0 & Hhi1) & Hlo).
  assert (Hflip : forall b a m',
            (latchLo m' = latchLo m /\ latchHi m' = latchHi m -> False) ->
            (address < 0x2000 ->
             (address .& 0x1FF0 = 0x0FD0 -> latchLo m' = 0)
             /\ (address .& 0x1FF0 = 0x0FE0 -> latchLo m' = 1)
             /\ (address .& 0x1FF0 = 0x1FD0 -> latchHi m' = 0)
             /\ (address .& 0x1FF0 = 0x1FE0 -> latchHi m' = 1)) ->
            Mapper9.latchAccess address
              (Mapper9.safeSwitchBank b a (with_mmap s m'))
            = Mapper9.safeSwitchBank b a (with_mmap s m') ->
            s' = Mapper9.safeSwitchBank b a (with_mmap s m') ->
            Mapper9.latchAccess address s' = s' /\ cpu s' = cpu s
            /\ exists m', mmap s' = Some m'
                 /\ ((latchLo m', latchHi m') = (latchLo m, latchHi m) -> s' = s)
                 /\ (address < 0x2000 ->
                     (address .& 0x1FF0 = 0x0FD0 -> latchLo m' = 0)
                     /\ (address .& 0x1FF0 = 0x0FE0 -> latchLo m' = 1)
                     /\ (address .& 0x1FF0 = 0x1FD0 -> latchHi m' = 0)
                     /\ (address .& 0x1FF0 = 0x1FE0 -> latchHi m' = 1))).
  { intros b a m' Hdiff Hlatch Hidem Hs. rewrite Hs.
    destruct (safeSwitchBank_frame b a (with_mmap s m')) as [Hmm Hcpu].
    split; [exact Hidem|]. split; [rewrite Hcpu; apply cpu_with_mmap|].
    exists m'. split; [rewrite Hmm; apply mmap_with_mmap|].
    split; [|exact Hlatch].
    intros Heq. exfalso. apply Hdiff. injection Heq as H1 H2. split; assumption. }
  assert (Hstay : (address < 0x2000 ->
             (address .& 0x1FF0 = 0x0FD0 -> latchLo m = 0)
             /\ (address .& 0x1FF0 = 0x0FE0 -> latchLo m = 1)
             /\ (address .& 0x1FF0 = 0x1FD0 -> latchHi m = 0)
             /\ (address .& 0x1FF0 = 0x1FE0 -> latchHi m = 1)) ->
            s' = s ->
            Mapper9.latchAccess address s' = s' /\ cpu s' = cpu s
            /\ exists m', mmap s' = Some m'
                 /\ ((latchLo m', latchHi m') = (latchLo m, latchHi m) -> s' = s)
                 /\ (address < 0x2000 ->
                     (address .& 0x1FF0 = 0x0FD0 -> latchLo m' = 0)
                     /\ (address .& 0x1FF0 = 0x0FE0 -> latchLo m' = 1)
                     /\ (address .& 0x1FF0 = 0x1FD0 -> latchHi m' = 0)
                     /\ (address .& 0x1FF0 = 0x1FE0 -> latchHi m' = 1))).
  { intros Hlatch Hs. split; [rewrite Hs; exact Hs|].
    split; [rewrite Hs; reflexivity|].
    exists m. split; [rewrite Hs; exact Hm|]. split; [intros _; exact Hs|exact Hlatch]. }
  assert (Hidem : forall b a m',
            Mapper9.latchAccess address
              (Mapper9.safeSwitchBank b a (with_mmap s m'))
            = (let s1 := Mapper9.safeSwitchBank b a (with_mmap s m') in
               Mapper9.latchAccess address (with_mmap s1 m'))).
  { intros b a m'. cbv zeta. f_equal. symmetry. apply with_mmap_eta.
    rewrite (proj1 (safeSwitchBank_frame b a (with_mmap s m'))).
    apply mmap_with_mmap. }
  assert (Hs' : s' = Mapper9.latchAccess address s) by reflexivity.
  unfold Mapper9.latchAccess in Hs'. rewrite Hm in Hs'. cbv zeta in Hs'.
  destruct (address >=? 8192) eqn:E1.
  { apply Hstay; [|exact Hs']. intros Hlt. rewrite Z.geb_leb in E1.
    apply Z.leb_le in E1. lia. }
  destruct (address .& 4096 =? 0) eqn:E2.
  - destruct (address .& 8176 =? 4048) eqn:E3.
    + destruct (negb (latchLo m =? 0)) eqn:E4.
      * eapply Hflip; [ | | | exact Hs'].
        -- change (latchLo (m{{latchLo := 0}})) with 0.
           intros [H _]. apply negb_true_iff, Z.eqb_neq in E4. congruence.
        -- intros _. apply Z.eqb_eq in E3.
           change (latchLo (m{{latchLo := 0}})) with 0.
           change (latchHi (m{{latchLo := 0}})) with (latchHi m).
           repeat split; intros H; try congruence;
             try (destruct (Hhi0 H) as [Hx _]; congruence);
             try (destruct (Hhi1 H) as [Hx _]; congruence).
        -- rewrite Hidem. cbv zeta. unfold Mapper9.latchAccess.
           rewrite mmap_with_mmap. cbv zeta. rewrite E1, E2, E3.
           change (latchLo (?x{{latchLo := ?v}})) with v.
           change (latchHi (?x{{latchHi := ?v}})) with v.
           change (negb (0 =? 0)) with false. change (negb (1 =? 1)) with false.
           cbv iota. apply with_mmap_eta.
           rewrite (proj1 (safeSwitchBank_frame _ _ _)). apply mmap_with_mmap.
      * apply Hstay; [|exact Hs']. intros _.
        apply negb_false_iff, Z.eqb_eq in E4. apply Z.eqb_eq in E3.
        repeat split; intros H; try congruence;
             try (destruct (Hhi0 H) as [Hx _]; congruence);
             try (destruct (Hhi1 H) as [Hx _]; congruence).
    + destruct (address .& 8176 =? 4064) eqn:E3'.
      * destruct (negb (latchLo m =? 1)) eqn:E4.
        -- eapply Hflip; [ | | | exact Hs'].
           ++ change (latchLo (m{{latchLo := 1}})) with 1.
              intros [H _]. apply negb_true_iff, Z.eqb_neq in E4. congruence.
           ++ intros _. apply Z.eqb_eq in E3'.
              change (latchLo (m{{latchLo := 1}})) with 1.
              change (latchHi (m{{latchLo := 1}})) with (latchHi m).
              repeat split; intros H; try congruence;
             try (destruct (Hhi0 H) as [Hx _]; congruence);
             try (destruct (Hhi1 H) as [Hx _]; congruence).
           ++ rewrite Hidem. cbv zeta. unfold Mapper9.latchAccess.
              rewrite mmap_with_mmap. cbv zeta. rewrite E1, E2, E3, E3'.
              change (latchLo (?x{{latchLo := ?v}})) with v.
              change (latchHi (?x{{latchHi := ?v}})) with v.
              change (negb (0 =? 0)) with false. change (negb (1 =? 1)) with false.
              cbv iota. apply with_mmap_eta.
              rewrite (proj1 (safeSwitchBank_frame _ _ _)). apply mmap_with_mmap.
        -- apply Hstay; [|exact Hs']. intros _.
           apply negb_false_iff, Z.eqb_eq in E4. apply Z.eqb_eq in E3'.
           repeat split; intros H; try congruence;
             try (destruct (Hhi0 H) as [Hx _]; congruence);
             try (destruct (Hhi1 H) as [Hx _]; congruence).
      * apply Hstay; [|exact Hs']. intros _.
        apply Z.eqb_neq in E3, E3'.
        repeat split; intros H; try congruence;
             try (destruct (Hhi0 H) as [Hx _]; congruence);
             try (destruct (Hhi1 H) as [Hx _]; congruence).
  - assert (Hnolow : address .& 8176 = 4048 \/ address .& 8176 = 4064 -> False).
    { intros H. pose proof (Hlo H) as Hc. congruence. }
    destruct (address .& 4080 =? 4048) eqn:E3.
    + destruct (negb (latchHi m =? 0)) eqn:E4.
      * eapply Hflip; [ | | | exact Hs'].
        -- change (latchHi (m{{latchHi := 0}})) with 0.
           intros [_ H]. apply negb_true_iff, Z.eqb_neq in E4. congruence.
        -- intros _. apply Z.eqb_eq in E3.
           change (latchHi (m{{latchHi := 0}})) with 0.
           change (latchLo (m{{latchHi := 0}})) with (latchLo m).
           repeat split; intros H; try reflexivity;
             try (exfalso; apply Hnolow; tauto).
           destruct (Hhi1 H) as [_ Hy]. congruence.
        -- rewrite Hidem. cbv zeta. unfold Mapper9.latchAccess.
           rewrite mmap_with_mmap. cbv zeta. rewrite E1, E2, E3.
           change (latchLo (?x{{latchLo := ?v}})) with v.
           change (latchHi (?x{{latchHi := ?v}})) with v.
           change (negb (0 =? 0)) with false. change (negb (1 =? 1)) with false.
           cbv iota. apply with_mmap_eta.
           rewrite (proj1 (safeSwitchBank_frame _ _ _)). apply mmap_with_mmap.
      * apply Hstay; [|exact Hs']. intros _.
        apply negb_false_iff, Z.eqb_eq in E4. apply Z.eqb_eq in E3.
        repeat split; intros H; try assumption;
          try (exfalso; apply Hnolow; tauto).
        destruct (Hhi1 H) as [_ Hy]. congruence.
    + destruct (address .& 4080 =? 4064) eqn:E3'.
      * destruct (negb (latchHi m =? 1)) eqn:E4.
        -- eapply Hflip; [ | | | exact Hs'].
           ++ change (latchHi (m{{latchHi := 1}})) with 1.
              intros [_ H]. apply negb_true_iff, Z.eqb_neq in E4. congruence.
           ++ intros _. apply Z.eqb_eq in E3'.
              change (latchHi (m{{latchHi := 1}})) with 1.
              change (latchLo (m{{latchHi := 1}})) with (latchLo m).
              repeat split; intros H; try reflexivity;
                try (exfalso; apply Hnolow; tauto).
              destruct (Hhi0 H) as [_ Hy]. congruence.
           ++ rewrite Hidem. cbv zeta. unfold Mapper9.latchAccess.
              rewrite mmap_with_mmap. cbv zeta. rewrite E1, E2, E3, E3'.
              change (latchLo (?x{{latchLo := ?v}})) with v.
              change (latchHi (?x{{latchHi := ?v}})) with v.
              change (negb (0 =? 0)) with false. change (negb (1 =? 1)) with false.
              cbv iota. apply with_mmap_eta.
              rewrite (proj1 (safeSwitchBank_frame _ _ _)). apply mmap_with_mmap.
        -- apply Hstay; [|exact Hs']. intros _.
           apply negb_false_iff, Z.eqb_eq in E4. apply Z.eqb_eq in E3'.
           repeat split; intros H; try assumption;
             try (exfalso; apply Hnolow; tauto).
           destruct (Hhi0 H) as [_ Hy]. congruence.
      * apply Hstay; [|exact Hs']. intros _.
        apply Z.eqb_neq in E3, E3'.
        repeat split; intros H;
          try (exfalso; apply Hnolow; tauto);
          try (destruct (Hhi0 H) as [_ Hy]; congruence);
          try (destruct (Hhi1 H) as [_ Hy]; congruence).
Qed.

End MMC2Latch.

(** The MMC2 machine of the examples: an access to tile $FE of the low
    table sets the low latch. *)
Lemma mmc2_latch_witness_0FE8 :
  Mapper9.latchAccess 0x0FE8 (Mapper9.latchAccess 0x0FE8 Examples.mmc2_machine)
  = Mapper9.latchAccess 0x0FE8 Examples.mmc2_machine.
Proof.
  apply (mmc2_latch_access_settles 0x0FE8 Examples.mmc2_machine
           Mapper9.constructor eq_refl).
Defined.

